(** * Review-bias scoring engine: a shallow embedding and its properties

    The development follows the Python sources of the review analyser:
    [data_models.py] (records and derived booleans), [gitlab_analyzer.py]
    (approval-status ingestion), [bias_detector.py] (toxicity and
    constructiveness scoring, treatment classification, negative-pattern
    detection, per-developer and team-wide aggregation), and the older
    duplicates in [behavior_analyzer.py] and [metrics_calculator.py].

    Python [float] values are IEEE-754 binary64 numbers; they are modelled
    with the executable specification [SpecFloat] (precision 53, maximal
    exponent 1024), so every arithmetic step rounds as the interpreter does.
    Python [int] values are [Z].  Raising an exception is an explicit result
    value. *)

From Stdlib Require Import ZArith List String Ascii Bool Lia.
From Stdlib Require Import Floats.SpecFloat.
From Stdlib Require Import Sorting.Sorted Sorting.Permutation.
Import ListNotations.
Local Open Scope Z_scope.

(** ** Binary64 arithmetic *)

Module F.

Definition prec : Z := 53.
Definition emax : Z := 1024.

Definition float : Type := spec_float.

Definition add : float -> float -> float := SFadd prec emax.
Definition sub : float -> float -> float := SFsub prec emax.
Definition mul : float -> float -> float := SFmul prec emax.
Definition div : float -> float -> float := SFdiv prec emax.
Definition opp : float -> float := SFopp.
Definition ltb : float -> float -> bool := SFltb.
Definition leb : float -> float -> bool := SFleb.

(** [x > y] and [x >= y] as Python evaluates them. *)
Definition gtb (x y : float) : bool := ltb y x.
Definition geb (x y : float) : bool := leb y x.

(** Conversion of a Python [int] to [float] (round to nearest, ties to
    even). *)
Definition of_Z (n : Z) : float := binary_normalize prec emax n 0 false.

(** A decimal literal [n / 10^k]: the binary64 value nearest to it, which
    is what the Python reader produces for such a literal. *)
Definition dec (n : Z) (k : nat) : float :=
  match n with
  | Z0 => S754_zero false
  | Zpos p =>
      let '(q, e, l) :=
        SFdiv_core_binary prec emax (Zpos p) 0 (10 ^ Z.of_nat k) 0 in
      binary_round_aux prec emax false q e l
  | Zneg p =>
      let '(q, e, l) :=
        SFdiv_core_binary prec emax (Zpos p) 0 (10 ^ Z.of_nat k) 0 in
      binary_round_aux prec emax true q e l
  end.

Definition zero : float := S754_zero false.
Definition one : float := Eval vm_compute in of_Z 1.

Definition is_finite (x : float) : bool :=
  match x with S754_zero _ | S754_finite _ _ _ => true | _ => false end.

(** The two-argument builtins [max(a, b)] and [min(a, b)]: the first
    argument is kept unless the second is strictly greater (smaller). *)
Definition py_max (a b : float) : float := if gtb b a then b else a.
Definition py_min (a b : float) : float := if ltb b a then b else a.

End F.

Definition float : Type := F.float.

(** The literals of the sources. *)
Definition f_0_1 : float := Eval vm_compute in F.dec 1 1.
Definition f_0_2 : float := Eval vm_compute in F.dec 2 1.
Definition f_0_25 : float := Eval vm_compute in F.dec 25 2.
Definition f_0_3 : float := Eval vm_compute in F.dec 3 1.
Definition f_0_4 : float := Eval vm_compute in F.dec 4 1.
Definition f_0_5 : float := Eval vm_compute in F.dec 5 1.
Definition f_0_6 : float := Eval vm_compute in F.dec 6 1.
Definition f_0_7 : float := Eval vm_compute in F.dec 7 1.
Definition f_m0_1 : float := Eval vm_compute in F.dec (-1) 1.
Definition f_m0_2 : float := Eval vm_compute in F.dec (-2) 1.
Definition f_m0_3 : float := Eval vm_compute in F.dec (-3) 1.
Definition f_m0_4 : float := Eval vm_compute in F.dec (-4) 1.
Definition f_m0_5 : float := Eval vm_compute in F.dec (-5) 1.
Definition f_40 : float := Eval vm_compute in F.of_Z 40.
Definition f_70 : float := Eval vm_compute in F.of_Z 70.
Definition f_100 : float := Eval vm_compute in F.of_Z 100.
Definition f_50 : float := Eval vm_compute in F.of_Z 50.

(** ** Exceptions *)

Inductive exn : Type :=
| ZeroDivisionError
| KeyError
| ValueError
| StatisticsError.

Inductive result (A : Type) : Type :=
| Ok (a : A)
| Raise (e : exn).
Arguments Ok {A} a.
Arguments Raise {A} e.

Definition bind {A B : Type} (r : result A) (k : A -> result B) : result B :=
  match r with
  | Ok a => k a
  | Raise e => Raise e
  end.

Notation "x <- r ;; k" := (bind r (fun x => k))
  (at level 61, r at next level, right associativity).

Definition raises {A : Type} (r : result A) : bool :=
  match r with Ok _ => false | Raise _ => true end.

(** [a / b] on two ints, and [x / n] on a float and an int: both raise on a
    zero divisor.  The ints of the analysis are counts and small sums of
    scores, which convert to binary64 exactly; a comparison of an int with
    a float is likewise made after converting the int. *)
Definition int_truediv (a b : Z) : result float :=
  if b =? 0 then Raise ZeroDivisionError
  else Ok (F.div (F.of_Z a) (F.of_Z b)).

Definition float_truediv_int (x : float) (n : Z) : result float :=
  if n =? 0 then Raise ZeroDivisionError
  else Ok (F.div x (F.of_Z n)).

(** [sum(xs)] on a list of floats: the accumulator starts at the int [0]
    and the items are added from the left, each addition rounding (the
    interpreters from 3.12 on compensate the rounding errors instead; the
    sums evaluated below are exact either way). *)
Definition py_sum (xs : list float) : float :=
  fold_left F.add xs F.zero.

Definition len {A : Type} (l : list A) : Z := Z.of_nat (List.length l).

(** ** Text

    A Python [str] is modelled as a [string] of ASCII characters, one byte
    each.  On such text [lower], [len] and the word boundary [\b] below are
    those of the interpreter.  On other text the interpreter works on code
    points: [str.lower] also maps letters outside ASCII, [len] counts code
    points and [\b] knows their letters, which bytes do not show; what is
    stated of the scores of a text is therefore stated for ASCII text. *)

Local Open Scope string_scope.
Local Open Scope list_scope.
Local Open Scope Z_scope.

Definition is_upper (c : ascii) : bool :=
  let n := nat_of_ascii c in (Nat.leb 65 n && Nat.leb n 90)%bool.

Definition lower_ascii (c : ascii) : ascii :=
  if is_upper c then ascii_of_nat (nat_of_ascii c + 32) else c.

(** [s.lower()] *)
Fixpoint lower (s : string) : string :=
  match s with
  | EmptyString => EmptyString
  | String c s' => String (lower_ascii c) (lower s')
  end.

(** [len(s)] *)
Definition str_len (s : string) : Z := Z.of_nat (String.length s).

Fixpoint starts_with (p s : string) : bool :=
  match p with
  | EmptyString => true
  | String a p' =>
      match s with
      | EmptyString => false
      | String b s' => (Ascii.eqb a b && starts_with p' s')%bool
      end
  end.

(** [p in s] on strings: [p] occurs in [s] as a contiguous substring. *)
Fixpoint str_in (p s : string) : bool :=
  (starts_with p s ||
   match s with
   | EmptyString => false
   | String _ s' => str_in p s'
   end)%bool.

(** [any(k in s for k in ks)] and [sum(1 for k in ks if k in s)] *)
Definition any_in (ks : list string) (s : string) : bool :=
  existsb (fun k => str_in k s) ks.

Definition count_in (ks : list string) (s : string) : Z :=
  len (filter (fun k => str_in k s) ks).

(** *** The regular expressions of the toxic patterns

    The five patterns only use literal characters, the word boundary
    [\b] and [.*]; [re.search] looks for a match starting anywhere, and
    [.] matches every character except a newline. *)

Inductive atom : Type :=
| Ch (c : ascii)
| WordB
| DotStar.

Definition is_word_char (c : ascii) : bool :=
  let n := nat_of_ascii c in
  ((Nat.leb 48 n && Nat.leb n 57) || (Nat.leb 65 n && Nat.leb n 90)
   || (Nat.leb 97 n && Nat.leb n 122) || Nat.eqb n 95)%bool.

Definition is_newline (c : ascii) : bool := Nat.eqb (nat_of_ascii c) 10.

Definition word_before (prev : option ascii) : bool :=
  match prev with Some c => is_word_char c | None => false end.

Definition word_after (s : string) : bool :=
  match s with String c _ => is_word_char c | EmptyString => false end.

(** [\b] holds between two positions exactly one of which is a word
    character. *)
Definition at_boundary (prev : option ascii) (s : string) : bool :=
  xorb (word_before prev) (word_after s).

(** [match_here re prev s]: [re] matches a prefix of [s], the character just
    before [s] in the whole text being [prev]. *)
Fixpoint match_here (re : list atom) (prev : option ascii) (s : string)
  {struct re} : bool :=
  match re with
  | [] => true
  | Ch c :: re' =>
      match s with
      | String d s' =>
          if Ascii.eqb c d then match_here re' (Some d) s' else false
      | EmptyString => false
      end
  | WordB :: re' =>
      if at_boundary prev s then match_here re' prev s else false
  | DotStar :: re' =>
      (fix star (prev : option ascii) (s : string) {struct s} : bool :=
         (match_here re' prev s ||
          match s with
          | String d s' => if is_newline d then false else star (Some d) s'
          | EmptyString => false
          end)%bool) prev s
  end.

Fixpoint search_from (re : list atom) (prev : option ascii) (s : string)
  : bool :=
  (match_here re prev s ||
   match s with
   | String d s' => search_from re (Some d) s'
   | EmptyString => false
   end)%bool.

(** [re.search(re, s)] as a truth value. *)
Definition re_search (re : list atom) (s : string) : bool :=
  search_from re None s.

Fixpoint lit (w : string) : list atom :=
  match w with
  | EmptyString => []
  | String c w' => Ch c :: lit w'
  end.

(** *** What a match is

    [matches re prev s]: the pattern [re] matches some prefix of [s], the
    character before [s] being [prev]. *)
Inductive matches : list atom -> option ascii -> string -> Prop :=
| matches_nil (prev : option ascii) (s : string) :
    matches [] prev s
| matches_ch (c : ascii) (re : list atom) (prev : option ascii) (s : string) :
    matches re (Some c) s ->
    matches (Ch c :: re) prev (String c s)
| matches_boundary (re : list atom) (prev : option ascii) (s : string) :
    at_boundary prev s = true ->
    matches re prev s ->
    matches (WordB :: re) prev s
| matches_star_stop (re : list atom) (prev : option ascii) (s : string) :
    matches re prev s ->
    matches (DotStar :: re) prev s
| matches_star_step (re : list atom) (prev : option ascii) (d : ascii)
    (s : string) :
    is_newline d = false ->
    matches (DotStar :: re) (Some d) s ->
    matches (DotStar :: re) prev (String d s).

(** The last character of a text, if any. *)
Fixpoint last_char (prev : option ascii) (s : string) : option ascii :=
  match s with
  | EmptyString => prev
  | String c s' => last_char (Some c) s'
  end.

(** ** statistics.mean

    [statistics.mean] adds the data as exact fractions and rounds the
    quotient once.  A finite binary64 value is [m * 2^e]; the exact sum is
    kept as an integer multiple of [2^e0] for the least exponent [e0].
    Items that are not finite are added as floats instead, and their sum is
    divided by the count. *)

Module Statistics.

Definition signed_mantissa (x : float) : Z :=
  match x with
  | S754_finite s m _ => cond_Zopp s (Zpos m)
  | _ => 0
  end.

Definition exponent (x : float) : Z :=
  match x with
  | S754_finite _ _ e => e
  | _ => 0
  end.

Definition least_exponent (xs : list float) : Z :=
  fold_left (fun e0 x => Z.min e0 (exponent x)) xs 0.

(** The numerator [M] of the exact sum [M * 2^e0]. *)
Definition exact_sum (e0 : Z) (xs : list float) : Z :=
  fold_left (fun acc x => acc + signed_mantissa x * 2 ^ (exponent x - e0))
    xs 0.

(** [float(Fraction(M * 2^e0) / n)] for [n > 0]. *)
Definition round_quotient (M e0 n : Z) : float :=
  match M with
  | Z0 => F.zero
  | Zpos p =>
      let '(q, e, l) := SFdiv_core_binary F.prec F.emax (Zpos p) e0 n 0 in
      binary_round_aux F.prec F.emax false q e l
  | Zneg p =>
      let '(q, e, l) := SFdiv_core_binary F.prec F.emax (Zpos p) e0 n 0 in
      binary_round_aux F.prec F.emax true q e l
  end.

Definition mean (data : list float) : result float :=
  match data with
  | [] => Raise StatisticsError
  | _ =>
      match filter (fun x => negb (F.is_finite x)) data with
      | [] =>
          let e0 := least_exponent data in
          Ok (round_quotient (exact_sum e0 data) e0 (len data))
      | special => Ok (F.div (py_sum special) (F.of_Z (len data)))
      end
  end.

End Statistics.

(** ** Insertion-ordered dictionaries with string keys

    [defaultdict] and [dict] objects are association lists kept in
    insertion order, which is the order [items()] and [values()] iterate
    in. *)

Definition dict (V : Type) : Type := list (string * V).

(** [d[k] = f(d[k])] on a [defaultdict] whose factory yields [dflt]. *)
Fixpoint dd_update {V : Type} (d : dict V) (k : string) (dflt : V)
  (f : V -> V) : dict V :=
  match d with
  | [] => [(k, f dflt)]
  | (k', v) :: d' =>
      if String.eqb k' k then (k', f v) :: d'
      else (k', v) :: dd_update d' k dflt f
  end.

(** Reading [d[k]] on a [defaultdict]. *)
Fixpoint dd_get {V : Type} (d : dict V) (k : string) (dflt : V) : V :=
  match d with
  | [] => dflt
  | (k', v) :: d' => if String.eqb k' k then v else dd_get d' k dflt
  end.

Definition keys {V : Type} (d : dict V) : list string := map fst d.
Definition values {V : Type} (d : dict V) : list V := map snd d.

(** [max(items, key=f)] and [min(items, key=f)] on a non-empty sequence:
    the first item is kept until a strictly better one is met. *)
Definition max_by {A : Type} (key : A -> float) (x : A) (xs : list A) : A :=
  fold_left (fun best y => if F.gtb (key y) (key best) then y else best) xs x.

Definition min_by {A : Type} (key : A -> float) (x : A) (xs : list A) : A :=
  fold_left (fun best y => if F.ltb (key y) (key best) then y else best) xs x.

(** [', '.join(names)] *)
Definition join_comma (names : list string) : string :=
  String.concat ", " names.

(** ** data_models.py *)

Inductive ApprovalStatus : Type :=
| APPROVED
| REQUESTED_CHANGES
| COMMENTED.

(** [status.value] *)
Definition value (a : ApprovalStatus) : string :=
  match a with
  | APPROVED => "approved"
  | REQUESTED_CHANGES => "requested_changes"
  | COMMENTED => "commented"
  end.

(** [ApprovalStatus(s)]: the lookup of a member by value, which raises
    [ValueError] when no member has that value. *)
Definition ApprovalStatus_of_value (s : string) : result ApprovalStatus :=
  if String.eqb s "approved" then Ok APPROVED
  else if String.eqb s "requested_changes" then Ok REQUESTED_CHANGES
  else if String.eqb s "commented" then Ok COMMENTED
  else Raise ValueError.

Inductive BiasRiskLevel : Type :=
| LOW
| MEDIUM
| HIGH.

Record SentimentScore : Type := {
  textblob_score : float;
  vader_compound : float;
  vader_positive : float;
  vader_neutral : float;
  vader_negative : float
}.

Definition is_negative (s : SentimentScore) : bool :=
  F.ltb (textblob_score s) f_m0_2 || F.ltb (vader_compound s) f_m0_2.

Definition is_positive (s : SentimentScore) : bool :=
  F.gtb (textblob_score s) f_0_2 && F.gtb (vader_compound s) f_0_2.

Definition is_neutral (s : SentimentScore) : bool :=
  negb (is_negative s) && negb (is_positive s).

(** The core comment record.  [created_at] is a timestamp that no scoring
    function reads; the analysis fields that default to zero are left
    out. *)
Record ReviewComment : Type := {
  id : string;
  author : string;
  body : string;
  created_at : Z;
  mr_id : Z;
  mr_title : string;
  mr_author : string;
  approval_status : ApprovalStatus;
  sentiment : SentimentScore
}.

(** The constructor accepts the status as an enum member or as a string;
    [__post_init__] converts a string with [ApprovalStatus(...)]. *)
Definition ReviewComment_init (id_ author_ body_ : string) (created_at_ : Z)
  (mr_id_ : Z) (mr_title_ mr_author_ : string)
  (approval_status_ : ApprovalStatus + string) (sentiment_ : SentimentScore)
  : result ReviewComment :=
  st <- match approval_status_ with
        | inl a => Ok a
        | inr s => ApprovalStatus_of_value s
        end ;;
  Ok {| id := id_; author := author_; body := body_;
        created_at := created_at_; mr_id := mr_id_; mr_title := mr_title_;
        mr_author := mr_author_; approval_status := st;
        sentiment := sentiment_ |}.

(** ** gitlab_analyzer.py: ingestion of the approval status *)

Definition thumbs_up : string :=
  String (ascii_of_nat 240) (String (ascii_of_nat 159)
    (String (ascii_of_nat 145) (String (ascii_of_nat 141) EmptyString))).

Definition thumbs_down : string :=
  String (ascii_of_nat 240) (String (ascii_of_nat 159)
    (String (ascii_of_nat 145) (String (ascii_of_nat 142) EmptyString))).

Definition approval_keywords : list string :=
  ["approved"; "lgtm"; "looks good"; "approve"; "ship it";
   ":+1:"; thumbs_up; ":thumbsup:"; "ready to merge"].

Definition changes_keywords : list string :=
  ["request changes"; "needs changes"; "please fix"; "fix this";
   "don't merge"; "not ready"; "block"; "blocking"; "nack";
   ":-1:"; thumbs_down; ":thumbsdown:"].

(** [GitLabAnalyzer._determine_approval_status], on the body of the note
    (the only part of its arguments it reads). *)
Definition _determine_approval_status (note_body : string) : string :=
  let body_lower := lower note_body in
  if any_in approval_keywords body_lower then "approved"
  else if any_in changes_keywords body_lower then "requested_changes"
  else "commented".

(** ** bias_detector.py *)

Module BiasDetector.

(** *** Thresholds and keyword tables set by [__init__] *)

Definition sentiment_variance_threshold : float := f_0_4.
Definition negative_sentiment_threshold : float := f_m0_2.
Definition high_rejection_threshold : float := f_0_6.
Definition excessive_comment_threshold : Z := 15.

Definition negative_keywords : list string :=
  ["terrible"; "awful"; "horrible"; "stupid"; "dumb"; "ridiculous";
   "waste"; "nonsense"; "garbage"; "trash"; "pathetic"; "useless";
   "incompetent"; "lazy"; "sloppy"; "unprofessional"; "horrible";
   "disgusting"; "idiotic"; "moronic"; "shameful"].

Definition toxic_patterns : list (list atom) :=
  [ WordB :: lit "bad" ++ WordB :: DotStar :: WordB :: lit "code" ++ [WordB];
    WordB :: lit "wrong" ++ WordB :: DotStar :: WordB :: lit "way" ++ [WordB];
    WordB :: lit "hate" ++ WordB :: DotStar :: WordB :: lit "this" ++ [WordB];
    WordB :: lit "terrible" ++ WordB :: DotStar
      :: WordB :: lit "implementation" ++ [WordB];
    WordB :: lit "what" ++ DotStar :: WordB :: lit "wrong" ++ DotStar
      :: WordB :: lit "you" ++ [WordB] ].

Definition constructive_keywords : list string :=
  ["suggest"; "recommend"; "consider"; "try"; "maybe"; "could";
   "would"; "perhaps"; "how about"; "what if"; "alternative"].

(** *** Scoring of one comment body *)

Definition personal_attacks : list string :=
  ["you are"; "you're"; "your fault"; "you did"; "you made"].

Definition _calculate_toxicity_score (text : string) : float :=
  let text_lower := lower text in
  let toxicity_score := F.zero in
  let negative_count := count_in negative_keywords text_lower in
  let toxicity_score :=
    F.add toxicity_score (F.mul (F.of_Z negative_count) f_0_2) in
  let pattern_matches :=
    len (filter (fun pattern => re_search pattern text_lower)
           toxic_patterns) in
  let toxicity_score :=
    F.add toxicity_score (F.mul (F.of_Z pattern_matches) f_0_3) in
  let personal_attack_count := count_in personal_attacks text_lower in
  let toxicity_score :=
    F.add toxicity_score (F.mul (F.of_Z personal_attack_count) f_0_25) in
  let constructive_count := count_in constructive_keywords text_lower in
  let toxicity_score :=
    F.sub toxicity_score (F.mul (F.of_Z constructive_count) f_0_1) in
  F.py_max F.zero (F.py_min F.one toxicity_score).

Definition reasons : dict (list string) :=
  [ ("code_quality", ["quality"; "standards"; "clean"; "refactor"; "design"]);
    ("testing", ["test"; "coverage"; "unit test"; "integration"]);
    ("documentation", ["docs"; "documentation"; "comment"; "readme"]);
    ("security", ["security"; "vulnerability"; "auth"; "permission"]);
    ("performance", ["performance"; "slow"; "optimization"; "memory"]);
    ("style", ["style"; "formatting"; "lint"; "convention"]);
    ("unclear", ["unclear"; "confusing"; "understand"; "explain"]) ].

Definition _extract_blocking_reason (comment_body : string) : string :=
  let comment_lower := lower comment_body in
  match find (fun rk => any_in (snd rk) comment_lower) reasons with
  | Some (reason, _) => reason
  | None => "other"
  end.

Definition high_severity_words : list string :=
  ["critical"; "major"; "blocking"; "must"; "required"; "urgent"].
Definition medium_severity_words : list string :=
  ["should"; "important"; "needed"; "consider"].

Definition _assess_blocking_severity (comment_body : string) : string :=
  let comment_lower := lower comment_body in
  if any_in high_severity_words comment_lower then "high"
  else if any_in medium_severity_words comment_lower then "medium"
  else "low".

Definition constructive_indicators : list string :=
  ["suggest"; "recommend"; "consider"; "try"; "how about"; "maybe"; "could"].
Definition destructive_indicators : list string :=
  ["bad"; "terrible"; "wrong"; "stupid"; "awful"].
Definition solution_indicators : list string :=
  ["here is"; "you can"; "try this"; "example"; "documentation"].

(** [sum(w for word in words if word in text)] *)
Definition sum_if_in (w : Z) (words : list string) (text : string) : Z :=
  fold_left Z.add
    (map (fun _ => w) (filter (fun word => str_in word text) words)) 0.

Definition _assess_constructiveness (text : string) : Z :=
  let text_lower := lower text in
  let score := 50 in
  let score := score + sum_if_in 5 constructive_indicators text_lower in
  let score := score + sum_if_in 10 solution_indicators text_lower in
  let score := score - sum_if_in 10 destructive_indicators text_lower in
  let score :=
    if str_in "http" text_lower || str_in "example" text_lower
    then score + 15 else score in
  Z.max 0 (Z.min 100 score).

(** *** Blocking behaviour of one reviewer *)

Record blocking_behavior : Type := {
  reason : string;
  severity : string;
  constructiveness : Z;
  comment : ReviewComment
}.

(** The dictionary returned by [_analyze_blocking_patterns]; the key
    [avg_constructiveness] is absent from the dictionary of the empty
    case.  The two [Counter] summaries, which only the reports read, are
    left out. *)
Record blocking_analysis : Type := {
  frequency : Z;
  patterns : list string;
  avg_constructiveness : option float
}.

(** [len(set(xs))] *)
Definition count_distinct (xs : list string) : Z :=
  len (nodup string_dec xs).

Definition _analyze_blocking_patterns (blocking_behaviors : list blocking_behavior)
  : result blocking_analysis :=
  match blocking_behaviors with
  | [] => Ok {| frequency := 0; patterns := []; avg_constructiveness := None |}
  | _ =>
      let reasons := map reason blocking_behaviors in
      let severities := map severity blocking_behaviors in
      let constructiveness_scores := map constructiveness blocking_behaviors in
      let patterns := [] in
      let patterns :=
        if (count_distinct reasons =? 1) && (len reasons >? 2)
        then patterns ++
             [("Consistently blocks for " ++ hd "" reasons ++ " issues")%string]
        else patterns in
      let patterns :=
        if F.gtb (F.of_Z (len (filter (fun s => String.eqb s "high") severities)))
                 (F.mul (F.of_Z (len severities)) f_0_6)
        then patterns ++ ["Tends to escalate issues to high severity"]
        else patterns in
      avg <- int_truediv (fold_left Z.add constructiveness_scores 0)
                         (len constructiveness_scores) ;;
      let patterns :=
        if F.ltb avg f_40
        then patterns ++ ["Blocking comments lack constructive feedback"]
        else patterns in
      Ok {| frequency := len blocking_behaviors;
            patterns := patterns;
            avg_constructiveness := Some avg |}
  end.

(** *** Treatment level of one reviewer *)

Record actions : Type := {
  approved : Z;
  requested_changes : Z;
  commented : Z
}.

(** The dictionary returned by [_determine_treatment_level], without its
    display glyph. *)
Record treatment_info : Type := {
  level : string;
  color : string
}.

(** [x / total if total > 0 else 0], the form of every rate of the
    analysis. *)
Definition guarded_rate (x total : Z) : result float :=
  if total >? 0 then int_truediv x total else Ok F.zero.

(** The composite score of [_determine_treatment_level]. *)
Definition composite_score (avg_sentiment avg_toxicity : float)
  (acts : actions) (total_reviews : Z) (ba : blocking_analysis)
  : result float :=
  let sentiment_score := avg_sentiment in
  let toxicity_penalty := F.mul (F.opp avg_toxicity) f_0_5 in
  let blocking_penalty := F.zero in
  blocking_penalty <-
    (if frequency ba >? 0 then
       change_request_rate <-
         guarded_rate (requested_changes acts) total_reviews ;;
       if F.gtb change_request_rate f_0_7
       then Ok (F.sub blocking_penalty f_0_3)
       else
         match avg_constructiveness ba with
         | None => Raise KeyError
         | Some avg =>
             if F.ltb avg f_40
             then Ok (F.sub blocking_penalty f_0_2)
             else Ok blocking_penalty
         end
     else Ok blocking_penalty) ;;
  Ok (F.add (F.add sentiment_score toxicity_penalty) blocking_penalty).

(** The chain of comparisons that ends [_determine_treatment_level]. *)
Definition level_of_composite (composite_score : float) : treatment_info :=
  if F.geb composite_score f_0_3
  then {| level := "Very Supportive"; color := "#27ae60" |}
  else if F.geb composite_score f_0_1
  then {| level := "Supportive"; color := "#2ecc71" |}
  else if F.geb composite_score f_m0_1
  then {| level := "Neutral"; color := "#95a5a6" |}
  else if F.geb composite_score f_m0_3
  then {| level := "Critical"; color := "#f39c12" |}
  else if F.geb composite_score f_m0_5
  then {| level := "Very Critical"; color := "#e67e22" |}
  else {| level := "Potentially Toxic"; color := "#e74c3c" |}.

Definition _determine_treatment_level (avg_sentiment avg_toxicity : float)
  (acts : actions) (total_reviews : Z) (ba : blocking_analysis)
  : result treatment_info :=
  c <- composite_score avg_sentiment avg_toxicity acts total_reviews ba ;;
  Ok (level_of_composite c).

(** *** Negative patterns of one reviewer *)

Definition pattern_keywords : list string :=
  ["suggest"; "recommend"; "consider"; "try"; "example"].

Definition _identify_negative_patterns (reviewer : string)
  (comments : list ReviewComment) : result (list string) :=
  let patterns := [] in
  let reviewer_comments :=
    filter (fun c => String.eqb (author c) reviewer) comments in
  match reviewer_comments with
  | [] => Ok patterns
  | _ =>
      let comment_counts_per_mr :=
        fold_left (fun d c => dd_update d (mr_title c) 0 (fun n => n + 1))
          reviewer_comments [] in
      let excessive_mrs :=
        filter (fun count => count >? excessive_comment_threshold)
          (values comment_counts_per_mr) in
      let patterns :=
        if F.gtb (F.of_Z (len excessive_mrs))
                 (F.mul (F.of_Z (len comment_counts_per_mr)) f_0_3)
        then patterns ++ ["Tends to over-comment on merge requests"]
        else patterns in
      let sentiments :=
        map (fun c => textblob_score (sentiment c)) reviewer_comments in
      avg_sentiment <- float_truediv_int (py_sum sentiments) (len sentiments) ;;
      let patterns :=
        if F.ltb avg_sentiment f_m0_3
        then patterns ++ ["Consistently negative sentiment in reviews"]
        else patterns in
      let short_critical_comments :=
        filter (fun c => (str_len (body c) <? 50)
                         && F.ltb (textblob_score (sentiment c)) f_m0_2)
          reviewer_comments in
      let patterns :=
        if F.gtb (F.of_Z (len short_critical_comments))
                 (F.mul (F.of_Z (len reviewer_comments)) f_0_4)
        then patterns ++
             ["Shows nitpicking behavior with short critical comments"]
        else patterns in
      let change_requests :=
        filter (fun c => String.eqb (value (approval_status c))
                           "requested_changes") reviewer_comments in
      let patterns :=
        match change_requests with
        | [] => patterns
        | _ =>
            let constructive_keywords := pattern_keywords in
            let non_constructive :=
              filter (fun c => negb (any_in constructive_keywords
                                       (lower (body c)))) change_requests in
            if F.gtb (F.of_Z (len non_constructive))
                     (F.mul (F.of_Z (len change_requests)) f_0_5)
            then patterns ++
                 ["Blocks MRs without providing constructive feedback"]
            else patterns
        end in
      Ok patterns
  end.

(** *** Treatment of one developer *)

(** The entry of [reviewer_stats] for one reviewer.  The colour and glyph
    of the treatment, the communication-style label and the documented
    negative comments are computed from the same inputs for the reports
    and are not read back by the analysis; they are left out.  Their
    computations guard their divisions and cannot raise. *)
Record reviewer_stat : Type := {
  avg_sentiment : float;
  avg_toxicity : float;
  review_count : Z;
  treatment : string;
  approval_rate : float;
  change_request_rate : float;
  rs_blocking_analysis : blocking_analysis;
  negative_patterns : list string
}.

(** [DeveloperTreatment], without the recommendation texts (fixed
    sentences chosen from the indicators and the reviewer statistics). *)
Record DeveloperTreatment : Type := {
  developer_name : string;
  overall_sentiment : float;
  total_reviews : Z;
  total_negative_reviews : Z;
  sentiment_range : float;
  bias_indicators : list string;
  bias_risk : BiasRiskLevel;
  reviewer_stats : dict reviewer_stat
}.

(** The four dictionaries filled by the first loop. *)
Record groups : Type := {
  reviewer_sentiments : dict (list float);
  reviewer_actions : dict actions;
  reviewer_toxicity : dict (list float);
  reviewer_blocking_behavior : dict (list blocking_behavior)
}.

Definition no_actions : actions :=
  {| approved := 0; requested_changes := 0; commented := 0 |}.

(** [acts[status.value] += 1] *)
Definition incr (st : ApprovalStatus) (a : actions) : actions :=
  match st with
  | APPROVED =>
      {| approved := approved a + 1;
         requested_changes := requested_changes a;
         commented := commented a |}
  | REQUESTED_CHANGES =>
      {| approved := approved a;
         requested_changes := requested_changes a + 1;
         commented := commented a |}
  | COMMENTED =>
      {| approved := approved a;
         requested_changes := requested_changes a;
         commented := commented a + 1 |}
  end.

(** [sum(actions.values())] *)
Definition sum_actions (a : actions) : Z :=
  0 + approved a + requested_changes a + commented a.

Definition group_step (g : groups) (c : ReviewComment) : groups :=
  let reviewer := author c in
  let toxicity_score := _calculate_toxicity_score (body c) in
  {| reviewer_sentiments :=
       dd_update (reviewer_sentiments g) reviewer []
         (fun l => l ++ [textblob_score (sentiment c)]);
     reviewer_actions :=
       dd_update (reviewer_actions g) reviewer no_actions
         (incr (approval_status c));
     reviewer_toxicity :=
       dd_update (reviewer_toxicity g) reviewer []
         (fun l => l ++ [toxicity_score]);
     reviewer_blocking_behavior :=
       if String.eqb (value (approval_status c)) "requested_changes"
       then dd_update (reviewer_blocking_behavior g) reviewer []
              (fun l => l ++
                 [{| reason := _extract_blocking_reason (body c);
                     severity := _assess_blocking_severity (body c);
                     constructiveness := _assess_constructiveness (body c);
                     comment := c |}])
       else reviewer_blocking_behavior g |}.

Definition group_by_reviewer (comments : list ReviewComment) : groups :=
  fold_left group_step comments
    {| reviewer_sentiments := []; reviewer_actions := [];
       reviewer_toxicity := []; reviewer_blocking_behavior := [] |}.

(** The body of the second loop, for one reviewer. *)
Definition stat_of_reviewer (g : groups) (comments : list ReviewComment)
  (reviewer : string) (sentiments : list float) : result reviewer_stat :=
  avg_sentiment <- float_truediv_int (py_sum sentiments) (len sentiments) ;;
  let tox := dd_get (reviewer_toxicity g) reviewer [] in
  avg_toxicity <- float_truediv_int (py_sum tox) (len tox) ;;
  let acts := dd_get (reviewer_actions g) reviewer no_actions in
  let total_reviews := sum_actions acts in
  blocking_analysis <-
    _analyze_blocking_patterns
      (dd_get (reviewer_blocking_behavior g) reviewer []) ;;
  treatment_info <-
    _determine_treatment_level avg_sentiment avg_toxicity acts
      total_reviews blocking_analysis ;;
  negative_patterns <- _identify_negative_patterns reviewer comments ;;
  approval_rate <- guarded_rate (approved acts) total_reviews ;;
  change_request_rate <- guarded_rate (requested_changes acts) total_reviews ;;
  Ok {| avg_sentiment := avg_sentiment;
        avg_toxicity := avg_toxicity;
        review_count := len sentiments;
        treatment := level treatment_info;
        approval_rate := approval_rate;
        change_request_rate := change_request_rate;
        rs_blocking_analysis := blocking_analysis;
        negative_patterns := negative_patterns |}.

(** The second loop: one entry per key of [reviewer_sentiments], in
    order; the first exception ends it. *)
Fixpoint stats_loop (g : groups) (comments : list ReviewComment)
  (items : dict (list float)) : result (dict reviewer_stat) :=
  match items with
  | [] => Ok []
  | (reviewer, sentiments) :: items' =>
      st <- stat_of_reviewer g comments reviewer sentiments ;;
      rest <- stats_loop g comments items' ;;
      Ok ((reviewer, st) :: rest)
  end.

Definition critical_levels : list string :=
  ["Critical"; "Very Critical"; "Potentially Toxic"].

(** [x in xs] on a list of strings *)
Definition mem (x : string) (xs : list string) : bool :=
  existsb (String.eqb x) xs.

(** The four tests that fill [bias_indicators], in order. *)
Definition bias_indicators_of (overall_sentiment sentiment_range : float)
  (reviewer_stats : dict reviewer_stat) : list string :=
  let bias_indicators := [] in
  let bias_indicators :=
    if F.ltb overall_sentiment negative_sentiment_threshold
    then bias_indicators ++
         ["Receives generally negative feedback across the team"]
    else bias_indicators in
  let bias_indicators :=
    if F.gtb sentiment_range (F.add sentiment_variance_threshold f_0_2)
    then bias_indicators ++
         ["Very inconsistent treatment from different reviewers"]
    else bias_indicators in
  let critical_reviewers :=
    keys (filter (fun rs => mem (treatment (snd rs)) critical_levels)
            reviewer_stats) in
  let bias_indicators :=
    if F.gtb (F.of_Z (len critical_reviewers))
             (F.mul (F.of_Z (len reviewer_stats)) f_0_5)
    then bias_indicators ++ ["Majority of reviewers are critical"]
    else bias_indicators in
  let high_toxicity_reviewers :=
    keys (filter (fun rs => F.gtb (avg_toxicity (snd rs)) f_0_5)
            reviewer_stats) in
  match high_toxicity_reviewers with
  | [] => bias_indicators
  | _ => bias_indicators ++
         [("Potentially toxic behavior from: "
           ++ join_comma high_toxicity_reviewers)%string]
  end.

Definition bias_risk_of (bias_indicators : list string) : BiasRiskLevel :=
  if len bias_indicators >=? 3 then HIGH
  else if len bias_indicators >=? 2 then MEDIUM
  else LOW.

Definition _analyze_individual_developer_treatment (developer : string)
  (comments : list ReviewComment) : result DeveloperTreatment :=
  let g := group_by_reviewer comments in
  reviewer_stats <- stats_loop g comments (reviewer_sentiments g) ;;
  let all_sentiments :=
    map (fun c => textblob_score (sentiment c)) comments in
  overall_sentiment <-
    match all_sentiments with
    | [] => Ok F.zero
    | _ => float_truediv_int (py_sum all_sentiments) (len all_sentiments)
    end ;;
  match reviewer_stats with
  | first :: others =>
      let most_supportive :=
        max_by (fun rs => avg_sentiment (snd rs)) first others in
      let least_supportive :=
        min_by (fun rs => avg_sentiment (snd rs)) first others in
      let sentiment_range :=
        F.sub (avg_sentiment (snd most_supportive))
              (avg_sentiment (snd least_supportive)) in
      let bias_indicators :=
        bias_indicators_of overall_sentiment sentiment_range reviewer_stats in
      let bias_risk := bias_risk_of bias_indicators in
      Ok {| developer_name := developer;
            overall_sentiment := overall_sentiment;
            total_reviews := len comments;
            total_negative_reviews :=
              len (filter (fun c => F.ltb (textblob_score (sentiment c))
                                      negative_sentiment_threshold) comments);
            sentiment_range := sentiment_range;
            bias_indicators := bias_indicators;
            bias_risk := bias_risk;
            reviewer_stats := reviewer_stats |}
  | [] =>
      Ok {| developer_name := developer;
            overall_sentiment := overall_sentiment;
            total_reviews := len comments;
            total_negative_reviews := 0;
            sentiment_range := F.zero;
            bias_indicators := [];
            bias_risk := LOW;
            reviewer_stats := [] |}
  end.

(** [analyze_developer_treatment]: the comments are grouped by the author
    of the merge request and each group is analysed. *)
Definition comments_by_developer (all_comments : list ReviewComment)
  : dict (list ReviewComment) :=
  fold_left (fun d c => dd_update d (mr_author c) [] (fun l => l ++ [c]))
    all_comments [].

Fixpoint analyze_groups (items : dict (list ReviewComment))
  : result (dict DeveloperTreatment) :=
  match items with
  | [] => Ok []
  | (developer, dev_comments) :: items' =>
      analysis <-
        _analyze_individual_developer_treatment developer dev_comments ;;
      rest <- analyze_groups items' ;;
      Ok ((developer, analysis) :: rest)
  end.

Definition analyze_developer_treatment (all_comments : list ReviewComment)
  : result (dict DeveloperTreatment) :=
  analyze_groups (comments_by_developer all_comments).

(** *** Team-wide bias indicators

    [statistics.stdev] is the interpreter's library function; the analysis
    is stated for any such function. *)

Section TeamWide.

Variable stdev : list float -> float.

Record variance_data : Type := {
  mean : float;
  std_dev : float;
  sample_size : Z
}.

Record bias_target : Type := {
  bt_author : string;
  mean_sentiment : float;
  bt_review_count : Z
}.

Record author_entry : Type := {
  ae_avg_sentiment : float;
  ae_review_count : Z;
  sentiment_std : float;
  risk_level : BiasRiskLevel;
  ae_patterns : list string
}.

Record BiasAnalysis : Type := {
  overall_risk : BiasRiskLevel;
  specific_risks : list string;
  author_analysis : dict author_entry;
  mitigation_strategies : list string;
  sentiment_variance : dict variance_data
}.

(** The first loop: the sentiments received by each merge-request
    author. *)
Definition author_sentiments (all_comments : list ReviewComment)
  : dict (list float) :=
  fold_left
    (fun d c => dd_update d (mr_author c) []
                  (fun l => l ++ [textblob_score (sentiment c)]))
    all_comments [].

Fixpoint sentiment_variance_of (items : dict (list float))
  : result (dict variance_data) :=
  match items with
  | [] => Ok []
  | (author, sentiments) :: items' =>
      if len sentiments >=? 3 then
        author_mean <- Statistics.mean sentiments ;;
        let author_std :=
          if len sentiments >? 1 then stdev sentiments else F.zero in
        rest <- sentiment_variance_of items' ;;
        Ok ((author, {| mean := author_mean; std_dev := author_std;
                        sample_size := len sentiments |}) :: rest)
      else sentiment_variance_of items'
  end.

Definition potential_bias_targets_of (sv : dict variance_data)
  : list bias_target :=
  map (fun av => {| bt_author := fst av;
                    mean_sentiment := mean (snd av);
                    bt_review_count := sample_size (snd av) |})
    (filter (fun av => F.ltb (mean (snd av)) negative_sentiment_threshold
                       && (sample_size (snd av) >=? 5)) sv).

Fixpoint means_of (items : list (list float)) : result (list float) :=
  match items with
  | [] => Ok []
  | sentiments :: items' =>
      if len sentiments >=? 3 then
        m <- Statistics.mean sentiments ;;
        rest <- means_of items' ;;
        Ok (m :: rest)
      else means_of items'
  end.

Definition overall_bias_score_of (asent : dict (list float))
  : result float :=
  let overall_bias_score := F.zero in
  if len asent >? 1 then
    author_means <- means_of (values asent) ;;
    if len author_means >? 1 then
      let sentiment_variance_value := stdev author_means in
      Ok (F.py_min f_100 (F.mul sentiment_variance_value f_100))
    else Ok overall_bias_score
  else Ok overall_bias_score.

Definition overall_risk_of (overall_bias_score : float)
  (potential_bias_targets : list bias_target) : BiasRiskLevel :=
  if F.gtb overall_bias_score f_70 || (len potential_bias_targets >? 0)
  then HIGH
  else if F.gtb overall_bias_score f_40
          || (len potential_bias_targets >? 0)
  then MEDIUM
  else LOW.

Definition author_entry_of (v : variance_data) : author_entry :=
  {| ae_avg_sentiment := mean v;
     ae_review_count := sample_size v;
     sentiment_std := std_dev v;
     risk_level :=
       if F.ltb (mean v) f_m0_3 then HIGH
       else if F.ltb (mean v) f_m0_1 then MEDIUM
       else LOW;
     ae_patterns :=
       if F.ltb (mean v) f_m0_3 then ["Consistently negative sentiment"]
       else if F.ltb (mean v) f_m0_1
       then ["Tendency towards negative feedback"]
       else [] |}.

Definition calculate_bias_indicators (all_comments : list ReviewComment)
  : result BiasAnalysis :=
  let asent := author_sentiments all_comments in
  sv <- sentiment_variance_of asent ;;
  let potential_bias_targets := potential_bias_targets_of sv in
  overall_bias_score <- overall_bias_score_of asent ;;
  let overall_risk :=
    overall_risk_of overall_bias_score potential_bias_targets in
  let specific_risks :=
    map (fun t => ("High bias risk detected for " ++ bt_author t)%string)
      potential_bias_targets in
  let author_analysis :=
    map (fun av => (fst av, author_entry_of (snd av))) sv in
  let mitigation_strategies :=
    match overall_risk with
    | LOW => []
    | _ => ["Implement anonymous code review processes";
            "Use structured review templates and checklists";
            "Provide bias awareness training for reviewers";
            "Monitor review patterns regularly";
            "Establish clear review guidelines and standards"]
    end in
  Ok {| overall_risk := overall_risk;
        specific_risks := specific_risks;
        author_analysis := author_analysis;
        mitigation_strategies := mitigation_strategies;
        sentiment_variance := sv |}.

End TeamWide.

(** *** Communication style *)

(** The chain of comparisons of [_determine_communication_style]. *)
Definition style_of_averages (avg_sentiment avg_toxicity : float) : string :=
  if F.gtb avg_sentiment f_0_2 && F.ltb avg_toxicity f_0_2
  then "Encouraging & Constructive"
  else if F.gtb avg_sentiment F.zero && F.ltb avg_toxicity f_0_3
  then "Professional & Balanced"
  else if F.gtb avg_sentiment f_m0_2 && F.ltb avg_toxicity f_0_4
  then "Direct & Factual"
  else if F.gtb avg_sentiment f_m0_4 && F.ltb avg_toxicity f_0_6
  then "Critical & Demanding"
  else "Harsh & Potentially Problematic".

(** [sum(xs) / len(xs) if xs else 0] *)
Definition guarded_average (xs : list float) : result float :=
  match xs with
  | [] => Ok F.zero
  | _ => float_truediv_int (py_sum xs) (len xs)
  end.

Definition _determine_communication_style (sentiments toxicity_scores : list float)
  : result string :=
  avg_sentiment <- guarded_average sentiments ;;
  avg_toxicity <- guarded_average toxicity_scores ;;
  Ok (style_of_averages avg_sentiment avg_toxicity).

(** *** Documentation of negative comments *)

(** One documented instance; the context holds the title of the merge
    request, the creation time (which the source renders with
    [isoformat()]) and the author of the merge request. *)
Record negative_instance : Type := {
  ni_comment : ReviewComment;
  ni_toxicity_score : float;
  ni_constructiveness_score : Z;
  ni_categories : list string;
  ni_severity : string;
  ni_context : string * Z * string
}.

Definition categories_of (c : ReviewComment) (toxicity_score : float)
  (constructiveness_score : Z) : list string :=
  let categories := [] in
  let categories :=
    if F.gtb toxicity_score f_0_5
    then categories ++ ["Toxic language"] else categories in
  let categories :=
    if str_in "you" (lower (body c))
       && F.ltb (textblob_score (sentiment c)) f_m0_3
    then categories ++ ["Personal criticism"] else categories in
  let categories :=
    if constructiveness_score <? 30
    then categories ++ ["Non-constructive feedback"] else categories in
  let categories :=
    if (str_len (body c) <? 50)
       && F.ltb (textblob_score (sentiment c)) f_m0_3
    then categories ++ ["Dismissive comment"] else categories in
  match categories with
  | [] => categories ++ ["Negative sentiment"]
  | _ => categories
  end.

(** The body of the loop of [_document_negative_behavior]. *)
Definition document_instance (c : ReviewComment) : negative_instance :=
  let toxicity_score := _calculate_toxicity_score (body c) in
  let constructiveness_score := _assess_constructiveness (body c) in
  {| ni_comment := c;
     ni_toxicity_score := toxicity_score;
     ni_constructiveness_score := constructiveness_score;
     ni_categories := categories_of c toxicity_score constructiveness_score;
     ni_severity :=
       if F.gtb toxicity_score f_0_7 then "high"
       else if F.gtb toxicity_score f_0_4 then "medium" else "low";
     ni_context := (mr_title c, created_at c, mr_author c) |}.

(** [sorted(xs, key=..., reverse=True)] is a stable sort: the result is in
    descending order of the keys and items with equal keys keep their
    order.  The keys here are toxicity scores, which are never NaN, so this
    determines the result; it is computed by insertion, each item going
    behind the items whose key is not smaller. *)
Fixpoint insert_by_toxicity (x : negative_instance)
  (l : list negative_instance) : list negative_instance :=
  match l with
  | [] => [x]
  | y :: l' =>
      if F.ltb (ni_toxicity_score y) (ni_toxicity_score x)
      then x :: y :: l'
      else y :: insert_by_toxicity x l'
  end.

Definition sorted_by_toxicity (l : list negative_instance)
  : list negative_instance :=
  fold_left (fun acc x => insert_by_toxicity x acc) l [].

Definition _document_negative_behavior (comments : list ReviewComment)
  : list negative_instance :=
  let documented_instances := map document_instance comments in
  sorted_by_toxicity documented_instances.

End BiasDetector.

(** ** models.py: the comment record of the older analysers

    The approval status is a plain string here, and the sentiment a single
    float. *)

Module Models.

Record ReviewComment : Type := {
  author : string;
  mr_author : string;
  mr_title : string;
  body : string;
  sentiment_textblob : float;
  approval_status : string;
  created_at : Z
}.

End Models.

(** ** behavior_analyzer.py: the duplicated classifier and detector *)

Module BehaviorAnalyzer.

Import Models.

Definition excessive_comment_threshold : Z := 15.

(** The body of [_assess_constructiveness] is the same text as in
    [bias_detector.py]. *)
Definition _assess_constructiveness : string -> Z :=
  BiasDetector._assess_constructiveness.

(** The dictionary built by [_analyze_blocking_patterns] has the same
    keys as in [bias_detector.py]; the action counts are the same three
    counters. *)
Definition _determine_treatment_level (avg_sentiment avg_toxicity : float)
  (acts : BiasDetector.actions) (total_reviews : Z)
  (ba : BiasDetector.blocking_analysis)
  : result BiasDetector.treatment_info :=
  let sentiment_score := avg_sentiment in
  let toxicity_penalty := F.mul (F.opp avg_toxicity) f_0_5 in
  let blocking_penalty := F.zero in
  blocking_penalty <-
    (if BiasDetector.frequency ba >? 0 then
       change_request_rate <-
         int_truediv (BiasDetector.requested_changes acts) total_reviews ;;
       if F.gtb change_request_rate f_0_7
       then Ok (F.sub blocking_penalty f_0_3)
       else
         match BiasDetector.avg_constructiveness ba with
         | None => Raise KeyError
         | Some avg =>
             if F.ltb avg f_40
             then Ok (F.sub blocking_penalty f_0_2)
             else Ok blocking_penalty
         end
     else Ok blocking_penalty) ;;
  let composite_score :=
    F.add (F.add sentiment_score toxicity_penalty) blocking_penalty in
  Ok (BiasDetector.level_of_composite composite_score).

(** The [reviewer] argument is not read: every comment of the list is
    counted. *)
Definition _identify_negative_patterns (reviewer : string)
  (comments : list ReviewComment) : result (list string) :=
  let patterns := [] in
  let sentiments := map sentiment_textblob comments in
  avg_sentiment <- float_truediv_int (py_sum sentiments) (len sentiments) ;;
  let patterns :=
    if F.ltb avg_sentiment f_m0_3
    then patterns ++ ["Consistently negative sentiment in reviews"]
    else patterns in
  let comment_counts_per_mr :=
    fold_left (fun d c => dd_update d (mr_title c) 0 (fun n => n + 1))
      comments [] in
  let excessive_comment_mrs :=
    filter (fun count => count >? excessive_comment_threshold)
      (values comment_counts_per_mr) in
  let patterns :=
    if F.gtb (F.of_Z (len excessive_comment_mrs))
             (F.mul (F.of_Z (len comment_counts_per_mr)) f_0_3)
    then patterns ++ ["Tends to over-comment on merge requests"]
    else patterns in
  let short_critical_comments :=
    filter (fun c => (str_len (body c) <? 50)
                     && F.ltb (sentiment_textblob c) f_m0_2) comments in
  let patterns :=
    if F.gtb (F.of_Z (len short_critical_comments))
             (F.mul (F.of_Z (len comments)) f_0_4)
    then patterns ++
         ["Shows nitpicking behavior with short critical comments"]
    else patterns in
  let change_requests :=
    filter (fun c => String.eqb (approval_status c) "requested_changes")
      comments in
  let low_constructiveness_blocks :=
    filter (fun c => _assess_constructiveness (body c) <? 40)
      change_requests in
  let patterns :=
    if F.gtb (F.of_Z (len low_constructiveness_blocks))
             (F.mul (F.of_Z (len change_requests)) f_0_5)
    then patterns ++ ["Blocks MRs without providing constructive feedback"]
    else patterns in
  Ok patterns.

(** The same chain of comparisons as in [bias_detector.py], with both
    averages taken without a guard. *)
Definition _determine_communication_style (sentiments toxicity_scores : list float)
  : result string :=
  avg_sentiment <- float_truediv_int (py_sum sentiments) (len sentiments) ;;
  avg_toxicity <-
    float_truediv_int (py_sum toxicity_scores) (len toxicity_scores) ;;
  Ok (BiasDetector.style_of_averages avg_sentiment avg_toxicity).

End BehaviorAnalyzer.

(** ** metrics_calculator.py: the older team-wide indicators *)

Module MetricsCalculator.

Import Models.

Section TeamWide.

Variable stdev : list float -> float.

Record approvals : Type := {
  approved : Z;
  changes : Z;
  comments : Z
}.

(** [approvals[status] += 1] on the dictionary with the keys
    ['approved'], ['changes'] and ['comments']: any other key raises
    [KeyError]. *)
Definition incr (status : string) (a : approvals) : result approvals :=
  if String.eqb status "approved"
  then Ok {| approved := approved a + 1; changes := changes a;
             comments := comments a |}
  else if String.eqb status "changes"
  then Ok {| approved := approved a; changes := changes a + 1;
             comments := comments a |}
  else if String.eqb status "comments"
  then Ok {| approved := approved a; changes := changes a;
             comments := comments a + 1 |}
  else Raise KeyError.

Definition no_approvals : approvals :=
  {| approved := 0; changes := 0; comments := 0 |}.

Record variance_data : Type := {
  mean : float;
  std_dev : float;
  sample_size : Z
}.

Record bias_target : Type := {
  bt_author : string;
  mean_sentiment : float;
  review_count : Z
}.

(** The dictionary returned by [calculate_bias_indicators]; the
    approval-rate table, which nothing else reads, is left out. *)
Record bias_indicators : Type := {
  sentiment_variance : dict variance_data;
  potential_bias_targets : list bias_target;
  overall_bias_score : float
}.

(** The grouping loop; the first failing update ends it. *)
Fixpoint group_loop (cs : list ReviewComment)
  (asent : dict (list float)) (arates : dict approvals)
  : result (dict (list float) * dict approvals) :=
  match cs with
  | [] => Ok (asent, arates)
  | c :: cs' =>
      let asent :=
        dd_update asent (mr_author c) []
          (fun l => l ++ [sentiment_textblob c]) in
      a <- incr (approval_status c)
             (dd_get arates (mr_author c) no_approvals) ;;
      group_loop cs' asent
        (dd_update arates (mr_author c) no_approvals (fun _ => a))
  end.

Fixpoint variance_loop (items : dict (list float))
  : result (dict variance_data * list bias_target) :=
  match items with
  | [] => Ok ([], [])
  | (author, sentiments) :: items' =>
      if len sentiments >=? 3 then
        author_mean <- Statistics.mean sentiments ;;
        let author_std :=
          if len sentiments >? 1 then stdev sentiments else F.zero in
        rest <- variance_loop items' ;;
        let entry :=
          (author, {| mean := author_mean; std_dev := author_std;
                      sample_size := len sentiments |}) in
        if F.ltb author_mean f_m0_3 && (len sentiments >=? 5)
        then Ok (entry :: fst rest,
                 {| bt_author := author; mean_sentiment := author_mean;
                    review_count := len sentiments |} :: snd rest)
        else Ok (entry :: fst rest, snd rest)
      else variance_loop items'
  end.

Definition calculate_bias_indicators (cs : list ReviewComment)
  : result bias_indicators :=
  grouped <- group_loop cs [] [] ;;
  let author_sentiments := fst grouped in
  vt <- variance_loop author_sentiments ;;
  score <-
    (if len author_sentiments >? 1 then
       author_means <- BiasDetector.means_of (values author_sentiments) ;;
       if len author_means >? 1
       then Ok (F.py_min f_100 (F.mul (stdev author_means) f_100))
       else Ok F.zero
     else Ok F.zero) ;;
  Ok {| sentiment_variance := fst vt;
        potential_bias_targets := snd vt;
        overall_bias_score := score |}.

End TeamWide.

(** *** Reviewer consistency *)

Section Consistency.

Variable stdev : list float -> float.

(** The grouping loop of [calculate_reviewer_consistency], by the author of
    the comment; the counters are those of [calculate_bias_indicators]. *)
Fixpoint reviewer_loop (cs : list ReviewComment)
  (rsent : dict (list float)) (rrates : dict approvals)
  : result (dict (list float) * dict approvals) :=
  match cs with
  | [] => Ok (rsent, rrates)
  | c :: cs' =>
      let reviewer := author c in
      let rsent :=
        dd_update rsent reviewer [] (fun l => l ++ [sentiment_textblob c]) in
      a <- incr (approval_status c) (dd_get rrates reviewer no_approvals) ;;
      reviewer_loop cs' rsent
        (dd_update rrates reviewer no_approvals (fun _ => a))
  end.

(** The score of one reviewer.  [max(0, x)] keeps the int [0] unless [x] is
    greater; the sum that follows converts it. *)
Definition consistency_of (rrates : dict approvals) (reviewer : string)
  (sentiments : list float) : result float :=
  if len sentiments <? 3 then Ok f_50
  else
    let sentiment_std := stdev sentiments in
    let sentiment_consistency :=
      F.py_max F.zero (F.sub f_100 (F.mul sentiment_std f_100)) in
    let approvals := dd_get rrates reviewer no_approvals in
    let total_reviews :=
      approved approvals + changes approvals + comments approvals in
    approval_consistency <-
      (if total_reviews >? 0 then
         approval_rate <- int_truediv (approved approvals) total_reviews ;;
         change_rate <- int_truediv (changes approvals) total_reviews ;;
         let optimal_approval_rate := f_0_6 in
         Ok (F.sub f_100
               (F.mul (SFabs (F.sub approval_rate optimal_approval_rate))
                  f_100))
       else Ok f_50) ;;
    float_truediv_int (F.add sentiment_consistency approval_consistency) 2.

Fixpoint consistency_loop (rrates : dict approvals)
  (items : dict (list float)) : result (dict float) :=
  match items with
  | [] => Ok []
  | (reviewer, sentiments) :: items' =>
      score <- consistency_of rrates reviewer sentiments ;;
      rest <- consistency_loop rrates items' ;;
      Ok ((reviewer, score) :: rest)
  end.

Definition calculate_reviewer_consistency (cs : list ReviewComment)
  : result (dict float) :=
  grouped <- reviewer_loop cs [] [] ;;
  consistency_loop (snd grouped) (fst grouped).

End Consistency.

End MetricsCalculator.

(** ** gitlab_client.py: the approval status as an enumeration member *)

Module GitLabClient.

Definition approval_keywords : list string :=
  ["approved"; "lgtm"; "looks good"; "approve"; "ship it";
   ":+1:"; thumbs_up; ":thumbsup:"; "ready to merge"].

Definition changes_keywords : list string :=
  ["request changes"; "needs changes"; "please fix"; "fix this";
   "don't merge"; "not ready"; "block"; "blocking"; "nack";
   ":-1:"; thumbs_down; ":thumbsdown:"].

Definition _determine_approval_status (note_body : string) : ApprovalStatus :=
  let body_lower := lower note_body in
  if any_in approval_keywords body_lower then APPROVED
  else if any_in changes_keywords body_lower then REQUESTED_CHANGES
  else COMMENTED.

End GitLabClient.

(** ** gitlab_analyzer.py: reviewer and team statistics

    The analyser has its own comment record, with the status as a string
    and the VADER scores as a dictionary. *)

Module GitLabAnalyzer.

Record ReviewComment : Type := {
  author : string;
  body : string;
  created_at : Z;
  mr_id : Z;
  mr_title : string;
  mr_author : string;
  sentiment_textblob : float;
  sentiment_vader : dict float;
  approval_status : string
}.

Record ReviewerStats : Type := {
  reviewer_name : string;
  total_reviews : Z;
  approved_count : Z;
  requested_changes_count : Z;
  comment_only_count : Z;
  avg_sentiment_textblob : float;
  avg_sentiment_vader : dict float;
  reviewed_authors : dict Z;
  sentiment_by_author : dict (list float)
}.

Definition vader_keys : list string := ["compound"; "pos"; "neu"; "neg"].

(** [sum(1 for c in comments if c.approval_status == status)] *)
Definition count_status (status : string) (comments : list ReviewComment)
  : Z :=
  fold_left Z.add
    (map (fun _ => 1)
       (filter (fun c => String.eqb (approval_status c) status) comments)) 0.

(** [sum(scores) / len(scores) if scores else 0.0] *)
Definition average (scores : list float) : result float :=
  match scores with
  | [] => Ok F.zero
  | _ => float_truediv_int (py_sum scores) (len scores)
  end.

(** The loop over the VADER keys; a missing key counts as [0]. *)
Fixpoint vader_loop (comments : list ReviewComment) (ks : list string)
  : result (dict float) :=
  match ks with
  | [] => Ok []
  | key :: ks' =>
      let scores :=
        map (fun c => dd_get (sentiment_vader c) key F.zero) comments in
      avg <- average scores ;;
      rest <- vader_loop comments ks' ;;
      Ok ((key, avg) :: rest)
  end.

Definition _calculate_reviewer_stats (comments : list ReviewComment)
  : result ReviewerStats :=
  match comments with
  | [] =>
      Ok {| reviewer_name := "Unknown"; total_reviews := 0;
            approved_count := 0; requested_changes_count := 0;
            comment_only_count := 0; avg_sentiment_textblob := F.zero;
            avg_sentiment_vader := []; reviewed_authors := [];
            sentiment_by_author := [] |}
  | first :: _ =>
      let reviewer_name := author first in
      let total_reviews := len comments in
      let approved_count := count_status "approved" comments in
      let requested_changes_count :=
        count_status "requested_changes" comments in
      let comment_only_count := count_status "commented" comments in
      let textblob_scores := map sentiment_textblob comments in
      avg_sentiment_textblob <- average textblob_scores ;;
      avg_sentiment_vader <- vader_loop comments vader_keys ;;
      let reviewed_authors :=
        fold_left (fun d c => dd_update d (mr_author c) 0 (fun n => n + 1))
          comments [] in
      let sentiment_by_author :=
        fold_left
          (fun d c => dd_update d (mr_author c) []
                        (fun l => l ++ [sentiment_textblob c]))
          comments [] in
      Ok {| reviewer_name := reviewer_name;
            total_reviews := total_reviews;
            approved_count := approved_count;
            requested_changes_count := requested_changes_count;
            comment_only_count := comment_only_count;
            avg_sentiment_textblob := avg_sentiment_textblob;
            avg_sentiment_vader := avg_sentiment_vader;
            reviewed_authors := reviewed_authors;
            sentiment_by_author := sentiment_by_author |}
  end.

Fixpoint team_loop (items : dict (list ReviewComment))
  : result (dict ReviewerStats) :=
  match items with
  | [] => Ok []
  | (reviewer, comments) :: items' =>
      stats <- _calculate_reviewer_stats comments ;;
      rest <- team_loop items' ;;
      Ok ((reviewer, stats) :: rest)
  end.

(** The statistics of each reviewer, keyed by the reviewer; [asdict] turns
    the record into a dictionary with the same fields. *)
Definition _calculate_team_stats (all_comments : list ReviewComment)
  : result (dict ReviewerStats) :=
  match all_comments with
  | [] => Ok []
  | _ =>
      let reviewer_groups :=
        fold_left (fun d c => dd_update d (author c) [] (fun l => l ++ [c]))
          all_comments [] in
      team_loop reviewer_groups
  end.

End GitLabAnalyzer.

(** * Reference definitions

    The properties below compare the functions above with these
    definitions, which follow the wording of the specification. *)

(** The classification as the specification words it. *)
Module TreatmentSpec.

Definition change_request_rate (acts : BiasDetector.actions) (total : Z)
  : float :=
  if total >? 0
  then F.div (F.of_Z (BiasDetector.requested_changes acts)) (F.of_Z total)
  else F.zero.

Definition blocking_penalty (acts : BiasDetector.actions) (total : Z)
  (ba : BiasDetector.blocking_analysis) : float :=
  if F.gtb (change_request_rate acts total) f_0_7 then f_m0_3
  else
    match BiasDetector.avg_constructiveness ba with
    | Some avg =>
        if (BiasDetector.frequency ba >? 0) && F.ltb avg f_40
        then f_m0_2 else F.zero
    | None => F.zero
    end.

Definition composite (avg_sentiment avg_toxicity : float)
  (acts : BiasDetector.actions) (total : Z)
  (ba : BiasDetector.blocking_analysis) : float :=
  F.add (F.add avg_sentiment (F.mul (F.opp avg_toxicity) f_0_5))
        (blocking_penalty acts total ba).

(** Ordered thresholds, highest first, each bound inclusive. *)
Definition thresholds : list (float * string) :=
  [ (f_0_3, "Very Supportive"); (f_0_1, "Supportive");
    (f_m0_1, "Neutral"); (f_m0_3, "Critical");
    (f_m0_5, "Very Critical") ].

Definition level (c : float) : string :=
  match find (fun t => F.geb c (fst t)) thresholds with
  | Some t => snd t
  | None => "Potentially Toxic"
  end.

End TreatmentSpec.

(** The two scores of a comment body as the specification words them.

    Nothing here is taken from the scoring functions above: the word lists
    are written out again, a keyword is looked for in the text as it is,
    letter by letter with the case ignored, and a toxic pattern is a
    sequence of words with gaps, not a regular expression. *)
Module ScoreSpec.

(** *** Texts

    The texts of the reference are ASCII texts, for which a character is a
    byte. *)
Fixpoint ascii_text (t : string) : bool :=
  match t with
  | EmptyString => true
  | String c t' => (Nat.ltb (nat_of_ascii c) 128 && ascii_text t')%bool
  end.

Definition capitals : string := "ABCDEFGHIJKLMNOPQRSTUVWXYZ".
Definition smalls : string := "abcdefghijklmnopqrstuvwxyz".
Definition digits : string := "0123456789".

(** The small letter of a capital, read off the two alphabets; any other
    character is kept. *)
Fixpoint small_of (c : ascii) (caps sms : string) : ascii :=
  match caps, sms with
  | String a caps', String b sms' =>
      if Ascii.eqb c a then b else small_of c caps' sms'
  | _, _ => c
  end.

Definition fold_case (c : ascii) : ascii := small_of c capitals smalls.

(** The same character, or the same letter in another case. *)
Definition same_letter (a b : ascii) : bool :=
  Ascii.eqb (fold_case a) (fold_case b).

(** [begins_with k t]: the text begins with the keyword, case ignored. *)
Fixpoint begins_with (k t : string) : bool :=
  match k, t with
  | EmptyString, _ => true
  | String _ _, EmptyString => false
  | String a k', String b t' => (same_letter a b && begins_with k' t')%bool
  end.

(** [occurs k t]: the keyword is present in the text as a case-insensitive
    substring. *)
Fixpoint occurs (k t : string) : bool :=
  match t with
  | EmptyString => begins_with k t
  | String _ t' => (begins_with k t || occurs k t')%bool
  end.

(** The number of entries of a list that have a property. *)
Fixpoint how_many {A : Type} (p : A -> bool) (l : list A) : Z :=
  match l with
  | [] => 0
  | x :: l' => (if p x then 1 else 0) + how_many p l'
  end.

(** *** Word-gap patterns

    A toxic pattern is a sequence of words to be read in this order on one
    line, with anything between them.  A word may have to begin where a word
    of the text begins, and to end where one ends. *)
Record gap_word : Type := {
  spelling : string;
  at_word_start : bool;
  at_word_end : bool
}.

Definition whole (w : string) : gap_word :=
  {| spelling := w; at_word_start := true; at_word_end := true |}.

Definition beginning (w : string) : gap_word :=
  {| spelling := w; at_word_start := true; at_word_end := false |}.

(** The characters words are made of: letters, digits and the underscore. *)
Fixpoint char_in (c : ascii) (cs : string) : bool :=
  match cs with
  | EmptyString => false
  | String d cs' => (Ascii.eqb c d || char_in c cs')%bool
  end.

Definition in_word (c : ascii) : bool :=
  (char_in c smalls || char_in c capitals || char_in c digits
   || Ascii.eqb c "_")%bool.

Definition line_break : ascii := "010"%char.

(** A word begins or ends between the character [prev] and the text [t]:
    one side is a character of a word and the other is not. *)
Definition edge (prev : option ascii) (t : string) : bool :=
  let before := match prev with Some c => in_word c | None => false end in
  let after := match t with String c _ => in_word c | EmptyString => false end in
  negb (Bool.eqb before after).

(** [read w t prev]: the spelling [w] is read at the front of [t], case
    ignored; the result is the last character read and the text that
    follows. *)
Fixpoint read (w t : string) (prev : option ascii)
  : option (option ascii * string) :=
  match w with
  | EmptyString => Some (prev, t)
  | String a w' =>
      match t with
      | String b t' => if same_letter a b then read w' t' (Some b) else None
      | EmptyString => None
      end
  end.

Definition word_here (w : gap_word) (prev : option ascii) (t : string)
  : option (option ascii * string) :=
  if implb (at_word_start w) (edge prev t) then
    match read (spelling w) t prev with
    | Some (last, rest) =>
        if implb (at_word_end w) (edge last rest) then Some (last, rest)
        else None
    | None => None
    end
  else None.

(** [follow ws prev t]: the words of [ws] are read in this order in [t],
    each after a gap that stays on the line. *)
Fixpoint follow (ws : list gap_word) (prev : option ascii) (t : string)
  {struct ws} : bool :=
  match ws with
  | [] => true
  | w :: ws' =>
      (fix gap (prev : option ascii) (t : string) {struct t} : bool :=
         (match word_here w prev t with
          | Some (last, rest) => follow ws' last rest
          | None => false
          end
          || match t with
             | String d t' =>
                 if Ascii.eqb d line_break then false else gap (Some d) t'
             | EmptyString => false
             end)%bool) prev t
  end.

(** [found_from w ws prev t]: the first word is read somewhere in [t] and
    the others follow it. *)
Fixpoint found_from (w : gap_word) (ws : list gap_word)
  (prev : option ascii) (t : string) {struct t} : bool :=
  (match word_here w prev t with
   | Some (last, rest) => follow ws last rest
   | None => false
   end
   || match t with
      | String d t' => found_from w ws (Some d) t'
      | EmptyString => false
      end)%bool.

(** The pattern matches the text. *)
Definition found (p : list gap_word) (t : string) : bool :=
  match p with
  | [] => true
  | w :: ws => found_from w ws None t
  end.

(** *** The word lists *)

(** The negative keywords; the list names "horrible" twice, and each entry
    counts. *)
Definition negative_terms : list string :=
  ["terrible"; "awful"; "horrible"; "stupid"; "dumb"; "ridiculous"; "waste";
   "nonsense"; "garbage"; "trash"; "pathetic"; "useless"; "incompetent";
   "lazy"; "sloppy"; "unprofessional"; "horrible"; "disgusting"; "idiotic";
   "moronic"; "shameful"].

(** "bad ... code", "wrong ... way", "hate ... this",
    "terrible ... implementation" and "what... wrong... you". *)
Definition toxic_word_gaps : list (list gap_word) :=
  [ [whole "bad"; whole "code"];
    [whole "wrong"; whole "way"];
    [whole "hate"; whole "this"];
    [whole "terrible"; whole "implementation"];
    [beginning "what"; beginning "wrong"; whole "you"] ].

Definition attack_phrases : list string :=
  ["you are"; "you're"; "your fault"; "you did"; "you made"].

Definition constructive_terms : list string :=
  ["suggest"; "recommend"; "consider"; "try"; "maybe"; "could"; "would";
   "perhaps"; "how about"; "what if"; "alternative"].

(** The constructive indicators of the constructiveness score, which the
    specification does not list. *)
Definition constructive_words : list string :=
  ["suggest"; "recommend"; "consider"; "try"; "how about"; "maybe"; "could"].

Definition solution_words : list string :=
  ["here is"; "you can"; "try this"; "example"; "documentation"].

Definition destructive_words : list string :=
  ["bad"; "terrible"; "wrong"; "stupid"; "awful"].

Definition url_marker : string := "http".

(** *** The scores *)

(** Clamping to an interval of integers. *)
Definition clamp_Z (lo hi x : Z) : Z :=
  if x <? lo then lo else if x >? hi then hi else x.

(** Start at 50; 5 per constructive indicator present, 10 per solution
    indicator present, minus 10 per destructive indicator present, 15 more
    when the text holds a URL marker or the word "example"; clamp to
    [0, 100]. *)
Definition constructiveness (text : string) : Z :=
  let bonus :=
    if occurs url_marker text || occurs "example" text then 15 else 0 in
  clamp_Z 0 100
    (50 + 5 * how_many (fun k => occurs k text) constructive_words
        + 10 * how_many (fun k => occurs k text) solution_words
        - 10 * how_many (fun k => occurs k text) destructive_words
        + bonus).

(** Clamping to the unit interval. *)
Definition clamp_unit (x : float) : float :=
  if F.ltb x F.zero then F.zero
  else if F.gtb x F.one then F.one
  else x.

(** The raw toxicity for given numbers of negative keywords, toxic
    patterns, personal-attack phrases and constructive keywords present. *)
Definition raw_toxicity (negative patterns attacks constructive : Z) : float :=
  F.sub
    (F.add
       (F.add
          (F.add F.zero (F.mul f_0_2 (F.of_Z negative)))
          (F.mul f_0_3 (F.of_Z patterns)))
       (F.mul f_0_25 (F.of_Z attacks)))
    (F.mul f_0_1 (F.of_Z constructive)).

(** Start at 0.0; 0.2 per negative keyword present, 0.3 per toxic pattern
    that matches, 0.25 per personal-attack phrase present, minus 0.1 per
    constructive keyword present; clamp to [0, 1]. *)
Definition toxicity (text : string) : float :=
  clamp_unit
    (raw_toxicity
       (how_many (fun k => occurs k text) negative_terms)
       (how_many (fun p => found p text) toxic_word_gaps)
       (how_many (fun k => occurs k text) attack_phrases)
       (how_many (fun k => occurs k text) constructive_terms)).

End ScoreSpec.

(** The regular expression that spells a word-gap pattern: [\b] where a
    word has to begin or end, [.*] for a gap. *)
Definition regex_of_word (w : ScoreSpec.gap_word) : list atom :=
  (if ScoreSpec.at_word_start w then [WordB] else [])
  ++ lit (ScoreSpec.spelling w)
  ++ (if ScoreSpec.at_word_end w then [WordB] else []).

Fixpoint regex_of_gaps (ws : list ScoreSpec.gap_word) : list atom :=
  match ws with
  | [] => []
  | w :: ws' => DotStar :: regex_of_word w ++ regex_of_gaps ws'
  end.

Definition regex_of_pattern (p : list ScoreSpec.gap_word) : list atom :=
  match p with
  | [] => []
  | w :: ws => regex_of_word w ++ regex_of_gaps ws
  end.

(** A keyword written in small letters only. *)
Fixpoint in_small_letters (k : string) : bool :=
  match k with
  | EmptyString => true
  | String c k' =>
      (Ascii.eqb (ScoreSpec.fold_case c) c && in_small_letters k')%bool
  end.

(** The three values of the approval-status enumeration. *)
Definition known_status (s : string) : bool :=
  String.eqb s "approved" || String.eqb s "requested_changes"
  || String.eqb s "commented".

(** The number of conditions that hold, each counted once. *)
Definition count_true (bs : list bool) : Z :=
  len (filter (fun b : bool => b) bs).

(** ** Invariants of the analysis *)

(** The aggregates of one reviewer, as the analysis builds them: the counts
    are those of the reviewer's comments, the total is their sum, and the
    blocking events are the comments that request changes. *)
Definition reviewer_aggregate (acts : BiasDetector.actions) (total : Z)
  (ba : BiasDetector.blocking_analysis) : Prop :=
  0 <= BiasDetector.approved acts
  /\ 0 <= BiasDetector.requested_changes acts
  /\ 0 <= BiasDetector.commented acts
  /\ total = BiasDetector.sum_actions acts
  /\ BiasDetector.frequency ba = BiasDetector.requested_changes acts
  /\ (0 < BiasDetector.frequency ba ->
      BiasDetector.avg_constructiveness ba <> None).

(** Every reviewer met so far has at least one sentiment and one toxicity
    score on record. *)
Definition groups_ok (g : BiasDetector.groups) : Prop :=
  Forall (fun kv : string * list float =>
            snd kv <> []
            /\ dd_get (BiasDetector.reviewer_toxicity g) (fst kv) [] <> [])
    (BiasDetector.reviewer_sentiments g).

(** The counters of every reviewer are non-negative, and the blocking
    events on record are as many as the change requests counted. *)
Definition actions_ok (g : BiasDetector.groups) : Prop :=
  forall r : string,
    let a := dd_get (BiasDetector.reviewer_actions g) r BiasDetector.no_actions in
    0 <= BiasDetector.approved a
    /\ 0 <= BiasDetector.requested_changes a
    /\ 0 <= BiasDetector.commented a
    /\ len (dd_get (BiasDetector.reviewer_blocking_behavior g) r [])
       = BiasDetector.requested_changes a.

(** ** Checking the toxicity arithmetic on every possible count

    The four counts are bounded by the lengths of the four tables, so the
    arithmetic of the score can be compared with the reference on each
    combination. *)

(** Structural equality of two binary64 values. *)
Definition same_float (x y : float) : bool :=
  match x, y with
  | S754_zero a, S754_zero b => Bool.eqb a b
  | S754_infinity a, S754_infinity b => Bool.eqb a b
  | S754_nan, S754_nan => true
  | S754_finite a m e, S754_finite b m' e' =>
      Bool.eqb a b && Pos.eqb m m' && Z.eqb e e'
  | _, _ => false
  end.

(** The arithmetic of [_calculate_toxicity_score] once the four counts are
    known. *)
Definition toxicity_of_counts (negative_count pattern_matches
  personal_attack_count constructive_count : Z) : float :=
  let toxicity_score := F.zero in
  let toxicity_score :=
    F.add toxicity_score (F.mul (F.of_Z negative_count) f_0_2) in
  let toxicity_score :=
    F.add toxicity_score (F.mul (F.of_Z pattern_matches) f_0_3) in
  let toxicity_score :=
    F.add toxicity_score (F.mul (F.of_Z personal_attack_count) f_0_25) in
  let toxicity_score :=
    F.sub toxicity_score (F.mul (F.of_Z constructive_count) f_0_1) in
  F.py_max F.zero (F.py_min F.one toxicity_score).

Definition counts_agree (n p a c : nat) : bool :=
  let r := toxicity_of_counts (Z.of_nat n) (Z.of_nat p) (Z.of_nat a)
             (Z.of_nat c) in
  same_float r
    (ScoreSpec.clamp_unit
       (ScoreSpec.raw_toxicity (Z.of_nat n) (Z.of_nat p) (Z.of_nat a)
          (Z.of_nat c)))
  && F.leb F.zero r && F.leb r F.one.

(** A test on every combination of four bounded counts. *)
Definition forall4b (f : nat -> nat -> nat -> nat -> bool)
  (N P A C : nat) : bool :=
  forallb (fun n =>
    forallb (fun p =>
      forallb (fun a =>
        forallb (fun c => f n p a c) (seq 0 C)) (seq 0 A)) (seq 0 P))
    (seq 0 N).

(** ** Worked inputs *)

(** The action counts of the blocking scenario: five change requests. *)
Definition scenario_actions : BiasDetector.actions :=
  {| BiasDetector.approved := 0; BiasDetector.requested_changes := 5;
     BiasDetector.commented := 0 |}.

(** A comment of the blocking scenario, for a given id and body. *)
Definition scenario_comment (id_ body_ : string) : ReviewComment :=
  {| id := id_; author := "rev"; body := body_; created_at := 0;
     mr_id := 1; mr_title := "Add cache"; mr_author := "dev_a";
     approval_status := REQUESTED_CHANGES;
     sentiment := {| textblob_score := f_m0_5; vader_compound := f_m0_5;
                     vader_positive := F.zero; vader_neutral := f_0_5;
                     vader_negative := f_0_5 |} |}.

(** The comments of the scenario that only say where to look. *)
Definition example_comments : list ReviewComment :=
  [scenario_comment "n1" "See the example.";
   scenario_comment "n2" "See the example.";
   scenario_comment "n3" "See the example.";
   scenario_comment "n4" "See the example.";
   scenario_comment "n5" "See the example."].

(** What the analysis of one developer with one reviewer reports: the
    developer, the reviewer, the treatment level and the negative
    patterns. *)
Definition scenario_outcome (r : result (dict BiasDetector.DeveloperTreatment))
  : option (string * string * string * list string) :=
  match r with
  | Ok [(developer, dt)] =>
      match BiasDetector.reviewer_stats dt with
      | [(reviewer, st)] =>
          Some (developer, reviewer, BiasDetector.treatment st,
                BiasDetector.negative_patterns st)
      | _ => None
      end
  | _ => None
  end.

(** The comments of the blocking scenario in the record of the older
    analyser. *)
Definition scenario_comment_old (body_ : string) : Models.ReviewComment :=
  {| Models.author := "rev"; Models.mr_author := "dev_a";
     Models.mr_title := "Add cache"; Models.body := body_;
     Models.sentiment_textblob := f_m0_5;
     Models.approval_status := "requested_changes";
     Models.created_at := 0 |}.

(** Five comments on the merge requests of one author, each with sentiment
    -0.25. *)
Definition mild_sentiment : SentimentScore :=
  {| textblob_score := F.dec (-25) 2; vader_compound := F.dec (-25) 2;
     vader_positive := F.zero; vader_neutral := F.one;
     vader_negative := F.zero |}.

Definition mild_comment (id_ author_ : string) : ReviewComment :=
  {| id := id_; author := author_; body := "Please rename this variable.";
     created_at := 0; mr_id := 1; mr_title := "Add cache";
     mr_author := "dev_a"; approval_status := COMMENTED;
     sentiment := mild_sentiment |}.

Definition mild_comments : list ReviewComment :=
  [mild_comment "n1" "rev_1"; mild_comment "n2" "rev_2";
   mild_comment "n3" "rev_1"; mild_comment "n4" "rev_3";
   mild_comment "n5" "rev_2"].

(** The same five comments in the record of the older calculator, with a
    status its counters know. *)
Definition mild_comment_old (author_ : string) : Models.ReviewComment :=
  {| Models.author := author_; Models.mr_author := "dev_a";
     Models.mr_title := "Add cache";
     Models.body := "Please rename this variable.";
     Models.sentiment_textblob := F.dec (-25) 2;
     Models.approval_status := "approved"; Models.created_at := 0 |}.

Definition mild_comments_old : list Models.ReviewComment :=
  [mild_comment_old "rev_1"; mild_comment_old "rev_2";
   mild_comment_old "rev_1"; mild_comment_old "rev_3";
   mild_comment_old "rev_2"].

(** Two reviewers of one developer, with sentiments 0.8 and 0.2. *)
Definition plain_comment (id_ author_ body_ : string) (score : float)
  : ReviewComment :=
  {| id := id_; author := author_; body := body_; created_at := 0;
     mr_id := 1; mr_title := "Add cache"; mr_author := "dev_a";
     approval_status := COMMENTED;
     sentiment := {| textblob_score := score; vader_compound := score;
                     vader_positive := score; vader_neutral := F.zero;
                     vader_negative := F.zero |} |}.

Definition spread_comments : list ReviewComment :=
  [plain_comment "n1" "alice" "Great work on the cache." (F.dec 8 1);
   plain_comment "n2" "bob" "Fine with me." (F.dec 2 1)].

(** The six treatment levels and the five communication styles, from worst
    to best. *)
Definition level_rank (lvl : string) : Z :=
  if String.eqb lvl "Very Supportive" then 5
  else if String.eqb lvl "Supportive" then 4
  else if String.eqb lvl "Neutral" then 3
  else if String.eqb lvl "Critical" then 2
  else if String.eqb lvl "Very Critical" then 1
  else 0.

Definition style_rank (style : string) : Z :=
  if String.eqb style "Encouraging & Constructive" then 4
  else if String.eqb style "Professional & Balanced" then 3
  else if String.eqb style "Direct & Factual" then 2
  else if String.eqb style "Critical & Demanding" then 1
  else 0.

(** ** Grouping

    The loops that fill a [defaultdict(list)] all have this form: each item
    is appended to the list of its key. *)
Definition grouped {A V : Type} (key : A -> string) (val : A -> V)
  (items : list A) (d : dict (list V)) : dict (list V) :=
  fold_left (fun d c => dd_update d (key c) [] (fun l => l ++ [val c]))
    items d.

(** [sum(xs)] on ints. *)
Definition sum_Z (xs : list Z) : Z := fold_right Z.add 0 xs.

(** The number of items held by a dictionary of lists. *)
Definition total_len {V : Type} (d : dict (list V)) : Z :=
  sum_Z (map (fun kv => len (snd kv)) d).


(** ** Counting loops

    The loops that fill a [defaultdict(int)]: the counter of the key of each
    item is incremented. *)
Definition counted {A : Type} (key : A -> string) (items : list A)
  (d : dict Z) : dict Z :=
  fold_left (fun d c => dd_update d (key c) 0 (fun n => n + 1)) items d.

(** The values that are not below zero in any comparison: zeros, positive
    numbers, plus infinity, and NaN (which is below nothing). *)
Definition not_negative (x : float) : Prop :=
  match x with
  | S754_zero _ | S754_nan => True
  | S754_finite s _ _ | S754_infinity s => s = false
  end.

(** Sixteen comments of one reviewer on one merge request. *)
Definition sixteen_comments : list ReviewComment :=
  repeat (mild_comment "n" "rev_1") 16.



(** The keys of the approval counters of the older calculator. *)
Definition counter_key (status : string) : bool :=
  String.eqb status "approved" || String.eqb status "changes"
  || String.eqb status "comments".



(** Two states of the grouping loop hold the same data for a reviewer. *)
Definition same_at (r : string) (g1 g2 : BiasDetector.groups) : Prop :=
  dd_get (BiasDetector.reviewer_sentiments g1) r []
  = dd_get (BiasDetector.reviewer_sentiments g2) r []
  /\ dd_get (BiasDetector.reviewer_actions g1) r BiasDetector.no_actions
     = dd_get (BiasDetector.reviewer_actions g2) r BiasDetector.no_actions
  /\ dd_get (BiasDetector.reviewer_toxicity g1) r []
     = dd_get (BiasDetector.reviewer_toxicity g2) r []
  /\ dd_get (BiasDetector.reviewer_blocking_behavior g1) r []
     = dd_get (BiasDetector.reviewer_blocking_behavior g2) r [].



(** The values that every comparison orders: all but NaN. *)
Definition ordered (x : float) : bool :=
  match x with S754_nan => false | _ => true end.

(** Descending order of the toxicity scores. *)
Definition more_toxic (a b : BiasDetector.negative_instance) : Prop :=
  F.leb (BiasDetector.ni_toxicity_score b) (BiasDetector.ni_toxicity_score a)
  = true.


(** * Properties *)

(** ** Comparisons of binary64 values *)

Lemma ltb_leb (x y : float) : F.ltb x y = true -> F.leb x y = true.
Proof.
  unfold F.ltb, F.leb, SFltb, SFleb.
  destruct (SFcompare x y) as [[]|]; congruence.
Qed.

(** Nothing lies above a positive value and below a negative one. *)
Lemma above_pos_not_below_neg (mp mn : positive) (ep en : Z) (x : float) :
  F.gtb x (S754_finite false mp ep) = true ->
  F.ltb x (S754_finite true mn en) = false.
Proof.
  unfold F.gtb, F.ltb, SFltb.
  destruct x as [[]|[]| |[] m e]; simpl; congruence.
Qed.

Lemma gtb_0_2_not_ltb_m0_2 (x : float) :
  F.gtb x f_0_2 = true -> F.ltb x f_m0_2 = false.
Proof.
  exact (above_pos_not_below_neg _ _ _ _ x).
Qed.

(** ** Derived booleans of a sentiment score *)

(** C10. The three derived booleans of a sentiment score are the stated
    comparisons of its two scalars with 0.2 and -0.2; a score is never both
    positive and negative, and exactly one of the three booleans holds. *)
Theorem C10_sentiment_classes (s : SentimentScore) :
  is_negative s
    = (F.ltb (textblob_score s) f_m0_2 || F.ltb (vader_compound s) f_m0_2)
  /\ is_positive s
    = (F.gtb (textblob_score s) f_0_2 && F.gtb (vader_compound s) f_0_2)
  /\ is_neutral s = (negb (is_negative s) && negb (is_positive s))
  /\ (is_positive s && is_negative s) = false
  /\ ((is_negative s = true /\ is_positive s = false /\ is_neutral s = false)
      \/ (is_negative s = false /\ is_positive s = true /\ is_neutral s = false)
      \/ (is_negative s = false /\ is_positive s = false /\ is_neutral s = true)).
Proof.
  assert (E : (is_positive s && is_negative s) = false).
  { unfold is_positive, is_negative.
    destruct (F.gtb (textblob_score s) f_0_2) eqn:Ht; [|reflexivity].
    destruct (F.gtb (vader_compound s) f_0_2) eqn:Hv; [|reflexivity].
    rewrite (gtb_0_2_not_ltb_m0_2 _ Ht), (gtb_0_2_not_ltb_m0_2 _ Hv).
    reflexivity. }
  repeat split; try reflexivity; try exact E.
  unfold is_neutral.
  destruct (is_negative s), (is_positive s); cbn in *; try discriminate; auto.
Qed.

(** ** Treatment classification *)


(** A zero numerator never gives a quotient above a positive value. *)
Lemma zero_div_not_gtb (y : float) (mp : positive) (ep : Z) :
  F.gtb (F.div (F.of_Z 0) y) (S754_finite false mp ep) = false.
Proof.
  unfold F.gtb, F.ltb, SFltb, F.div, F.of_Z, binary_normalize.
  destruct y as [[]|[]| |[] m e]; reflexivity.
Qed.

Lemma level_of_composite_spec (c : float) :
  BiasDetector.level (BiasDetector.level_of_composite c)
  = TreatmentSpec.level c.
Proof.
  unfold BiasDetector.level_of_composite, TreatmentSpec.level,
    TreatmentSpec.thresholds.
  cbn [find fst snd].
  repeat match goal with
         | |- context [F.geb c ?t] => destruct (F.geb c t)
         end; reflexivity.
Qed.

Lemma composite_score_spec (s t : float) (acts : BiasDetector.actions)
  (total : Z) (ba : BiasDetector.blocking_analysis) :
  reviewer_aggregate acts total ba ->
  BiasDetector.composite_score s t acts total ba
  = Ok (TreatmentSpec.composite s t acts total ba).
Proof.
  intros (Ha & Hr & Hc & Ht & Hf & Hk).
  unfold BiasDetector.composite_score, TreatmentSpec.composite,
    TreatmentSpec.blocking_penalty, TreatmentSpec.change_request_rate,
    BiasDetector.guarded_rate.
  destruct (BiasDetector.frequency ba >? 0) eqn:Hfreq.
  - assert (Hpos : 0 < BiasDetector.frequency ba) by lia.
    specialize (Hk Hpos).
    destruct (total >? 0) eqn:Htot.
    + unfold int_truediv. replace (total =? 0) with false by lia. cbn [bind].
      destruct (F.gtb _ f_0_7); [reflexivity|].
      destruct (BiasDetector.avg_constructiveness ba) as [avg|];
        [|congruence].
      cbn [andb]. destruct (F.ltb avg f_40); reflexivity.
    + cbn [bind]. replace (F.gtb F.zero f_0_7) with false by reflexivity.
      destruct (BiasDetector.avg_constructiveness ba) as [avg|];
        [|congruence].
      cbn [andb]. destruct (F.ltb avg f_40); reflexivity.
  - cbn [bind].
    assert (Hz : BiasDetector.requested_changes acts = 0) by lia.
    rewrite Hz.
    match goal with
    | |- context [F.gtb ?r f_0_7] => assert (G : F.gtb r f_0_7 = false)
    end.
    { destruct (total >? 0); [|reflexivity].
      exact (zero_div_not_gtb (F.of_Z total) _ _). }
    rewrite G.
    destruct (BiasDetector.avg_constructiveness ba); reflexivity.
Qed.

(** The older classifier divides without a guard, but inside the test on the
    blocking frequency, so it agrees on every aggregate. *)
Lemma behavior_analyzer_agrees (s t : float) (acts : BiasDetector.actions)
  (total : Z) (ba : BiasDetector.blocking_analysis) :
  reviewer_aggregate acts total ba ->
  BehaviorAnalyzer._determine_treatment_level s t acts total ba
  = BiasDetector._determine_treatment_level s t acts total ba.
Proof.
  intros (Ha & Hr & Hc & Ht & Hf & Hk).
  unfold BehaviorAnalyzer._determine_treatment_level,
    BiasDetector._determine_treatment_level, BiasDetector.composite_score,
    BiasDetector.guarded_rate.
  destruct (BiasDetector.frequency ba >? 0) eqn:Hfreq; [|reflexivity].
  unfold BiasDetector.sum_actions in Ht.
  replace (total >? 0) with true by lia.
  unfold int_truediv. replace (total =? 0) with false by lia. cbn [bind].
  destruct (F.gtb _ f_0_7); [reflexivity|].
  destruct (BiasDetector.avg_constructiveness ba) as [avg|]; [|reflexivity].
  destruct (F.ltb avg f_40); reflexivity.
Qed.

(** C1. On every reviewer aggregate the classifier returns the level that
    the ordered thresholds assign to
    [avg_sentiment + (-avg_toxicity * 0.5) + blocking_penalty], the penalty
    being -0.3 when the change-request rate exceeds 0.7, else -0.2 when a
    blocking event exists and the average blocking constructiveness is below
    40, else 0; both copies of the classifier agree; and the lower bounds
    are inclusive: 0.3 is Very Supportive, 0.1 Supportive, -0.1 Neutral,
    -0.35 Very Critical and -0.6 Potentially Toxic. *)
Theorem C1_treatment_level (s t : float) (acts : BiasDetector.actions)
  (total : Z) (ba : BiasDetector.blocking_analysis) :
  reviewer_aggregate acts total ba ->
  (exists info,
      BiasDetector._determine_treatment_level s t acts total ba = Ok info
      /\ BehaviorAnalyzer._determine_treatment_level s t acts total ba
         = Ok info
      /\ BiasDetector.level info
         = TreatmentSpec.level (TreatmentSpec.composite s t acts total ba))
  /\ BiasDetector.level (BiasDetector.level_of_composite f_0_3)
     = "Very Supportive"
  /\ BiasDetector.level (BiasDetector.level_of_composite f_0_1)
     = "Supportive"
  /\ BiasDetector.level (BiasDetector.level_of_composite f_m0_1)
     = "Neutral"
  /\ BiasDetector.level (BiasDetector.level_of_composite (F.dec (-35) 2))
     = "Very Critical"
  /\ BiasDetector.level (BiasDetector.level_of_composite (F.dec (-6) 1))
     = "Potentially Toxic".
Proof.
  intros H. split; [|repeat split; vm_compute; reflexivity].
  exists (BiasDetector.level_of_composite
            (TreatmentSpec.composite s t acts total ba)).
  rewrite (behavior_analyzer_agrees s t acts total ba H).
  unfold BiasDetector._determine_treatment_level.
  rewrite (composite_score_spec s t acts total ba H). cbn [bind].
  repeat split. apply level_of_composite_spec.
Qed.

Lemma C1_treatment_level_witness :
  let acts := {| BiasDetector.approved := 0;
                 BiasDetector.requested_changes := 5;
                 BiasDetector.commented := 0 |} in
  let ba := {| BiasDetector.frequency := 5;
               BiasDetector.patterns := [];
               BiasDetector.avg_constructiveness := Some (F.of_Z 50) |} in
  reviewer_aggregate acts 5 ba
  /\ exists info,
      BiasDetector._determine_treatment_level f_m0_5 F.zero acts 5 ba = Ok info
      /\ BehaviorAnalyzer._determine_treatment_level f_m0_5 F.zero acts 5 ba
         = Ok info
      /\ BiasDetector.level info
         = TreatmentSpec.level
             (TreatmentSpec.composite f_m0_5 F.zero acts 5 ba).
Proof.
  intros acts ba.
  assert (H : reviewer_aggregate acts 5 ba).
  { unfold reviewer_aggregate, acts, ba; simpl.
    repeat split; try lia. discriminate. }
  split; [exact H|].
  exact (proj1 (C1_treatment_level f_m0_5 F.zero acts 5 ba H)).
Defined.

(** ** Substring tests *)

Lemma starts_with_spec (p s : string) :
  starts_with p s = true <-> exists b, s = (p ++ b)%string.
Proof.
  revert s. induction p as [|a p IH]; intros s; simpl.
  - split; [intros _; exists s; reflexivity | reflexivity].
  - destruct s as [|c s]; simpl.
    + split; [discriminate | intros [b Hb]; discriminate].
    + rewrite andb_true_iff, Ascii.eqb_eq, IH. split.
      * intros [-> [b ->]]. exists b. reflexivity.
      * intros [b Hb]. injection Hb as -> ->. split; [reflexivity|].
        exists b. reflexivity.
Qed.

(** [str_in] is the substring relation. *)
Lemma str_in_spec (p s : string) :
  str_in p s = true <-> exists a b, s = (a ++ p ++ b)%string.
Proof.
  induction s as [|c s IH].
  - cbn [str_in]. rewrite orb_false_r, starts_with_spec. split.
    + intros [b Hb]. exists EmptyString, b. exact Hb.
    + intros [a [b Hab]]. destruct a; [exists b; exact Hab | discriminate].
  - cbn [str_in]. rewrite orb_true_iff, starts_with_spec, IH. split.
    + intros [[b Hb] | [a [b Hab]]].
      * exists EmptyString, b. exact Hb.
      * exists (String c a), b. simpl. rewrite Hab. reflexivity.
    + intros [a [b Hab]]. destruct a as [|c' a].
      * left. exists b. exact Hab.
      * right. injection Hab as _ Hab. exists a, b. exact Hab.
Qed.

Lemma count_in_bounds (ks : list string) (s : string) :
  0 <= count_in ks s <= len ks.
Proof.
  unfold count_in, len. pose proof (filter_length_le (fun k => str_in k s) ks).
  lia.
Qed.

(** ** Constructiveness score *)

Lemma sum_if_in_count (w : Z) (ks : list string) (s : string) :
  BiasDetector.sum_if_in w ks s = w * count_in ks s.
Proof.
  unfold BiasDetector.sum_if_in, count_in, len.
  generalize (filter (fun word => str_in word s) ks). intros l.
  assert (G : forall acc, fold_left Z.add (map (fun _ : string => w) l) acc
                          = acc + w * Z.of_nat (List.length l)).
  { induction l as [|k l IH]; intros acc; simpl List.length; simpl fold_left.
    - lia.
    - rewrite IH. lia. }
  rewrite G. lia.
Qed.

Lemma max_min_clamp (x : Z) :
  Z.max 0 (Z.min 100 x) = ScoreSpec.clamp_Z 0 100 x.
Proof.
  unfold ScoreSpec.clamp_Z.
  destruct (x <? 0) eqn:E1; [lia|].
  destruct (x >? 100) eqn:E2; lia.
Qed.

(** *** Keywords, case ignored *)

Lemma fold_case_lower (c : ascii) : ScoreSpec.fold_case c = lower_ascii c.
Proof. destruct c as [[] [] [] [] [] [] [] []]; reflexivity. Qed.

Lemma begins_with_lower (k t : string) :
  in_small_letters k = true ->
  ScoreSpec.begins_with k t = starts_with k (lower t).
Proof.
  revert t. induction k as [|a k IH]; intros t H; [destruct t; reflexivity|].
  cbn [in_small_letters] in H. apply andb_prop in H. destruct H as [Ha Hk].
  apply Ascii.eqb_eq in Ha.
  destruct t as [|b t]; [reflexivity|].
  cbn [ScoreSpec.begins_with lower starts_with].
  unfold ScoreSpec.same_letter. rewrite Ha, fold_case_lower, (IH t Hk).
  reflexivity.
Qed.

Lemma occurs_lower (k t : string) :
  in_small_letters k = true ->
  ScoreSpec.occurs k t = str_in k (lower t).
Proof.
  intros H. induction t as [|b t IH].
  - cbn [ScoreSpec.occurs lower str_in]. rewrite orb_false_r.
    apply (begins_with_lower k EmptyString H).
  - cbn [ScoreSpec.occurs]. rewrite IH, (begins_with_lower k _ H).
    reflexivity.
Qed.

Lemma count_in_how_many (ks : list string) (t : string) :
  forallb in_small_letters ks = true ->
  count_in ks (lower t) = ScoreSpec.how_many (fun k => ScoreSpec.occurs k t) ks.
Proof.
  unfold count_in, len. induction ks as [|k ks IH]; intros H; [reflexivity|].
  cbn [forallb] in H. apply andb_prop in H. destruct H as [Hk Hks].
  cbn [filter ScoreSpec.how_many]. rewrite (occurs_lower k t Hk), <- (IH Hks).
  destruct (str_in k (lower t)); cbn [List.length]; lia.
Qed.

Lemma word_lists :
  BiasDetector.negative_keywords = ScoreSpec.negative_terms
  /\ BiasDetector.personal_attacks = ScoreSpec.attack_phrases
  /\ BiasDetector.constructive_keywords = ScoreSpec.constructive_terms
  /\ BiasDetector.constructive_indicators = ScoreSpec.constructive_words
  /\ BiasDetector.solution_indicators = ScoreSpec.solution_words
  /\ BiasDetector.destructive_indicators = ScoreSpec.destructive_words
  /\ forallb (forallb in_small_letters)
       [ScoreSpec.negative_terms; ScoreSpec.attack_phrases;
        ScoreSpec.constructive_terms; ScoreSpec.constructive_words;
        ScoreSpec.solution_words; ScoreSpec.destructive_words;
        [ScoreSpec.url_marker; "example"]] = true.
Proof. repeat split. Qed.

Lemma constructiveness_reference (text : string) :
  BiasDetector._assess_constructiveness text = ScoreSpec.constructiveness text.
Proof.
  unfold BiasDetector._assess_constructiveness, ScoreSpec.constructiveness.
  cbv zeta. rewrite !sum_if_in_count, <- max_min_clamp.
  destruct word_lists as (_ & _ & _ & -> & -> & -> & _).
  rewrite !count_in_how_many by reflexivity.
  unfold ScoreSpec.url_marker.
  rewrite !occurs_lower by reflexivity.
  destruct (str_in "http" (lower text) || str_in "example" (lower text));
    f_equal; f_equal; lia.
Qed.



(** ** The pattern matcher *)

Lemma match_here_star (re : list atom) (prev : option ascii) (s : string) :
  match_here (DotStar :: re) prev s
  = (match_here re prev s
     || match s with
        | String d s' =>
            if is_newline d then false
            else match_here (DotStar :: re) (Some d) s'
        | EmptyString => false
        end)%bool.
Proof. destruct s; reflexivity. Qed.

Lemma match_here_complete (re : list atom) (prev : option ascii) (s : string) :
  matches re prev s -> match_here re prev s = true.
Proof.
  induction 1 as [prev s | c re prev s _ IH | re prev s Hb _ IH
                 | re prev s _ IH | re prev d s Hd _ IH].
  - reflexivity.
  - cbn [match_here]. rewrite Ascii.eqb_refl. exact IH.
  - cbn [match_here]. rewrite Hb. exact IH.
  - rewrite match_here_star, IH. reflexivity.
  - rewrite match_here_star, Hd, IH. apply orb_true_r.
Qed.

Lemma match_here_sound (re : list atom) :
  forall (prev : option ascii) (s : string),
    match_here re prev s = true -> matches re prev s.
Proof.
  induction re as [|a re IH]; intros prev s H.
  - constructor.
  - destruct a as [c| |].
    + destruct s as [|d s]; cbn [match_here] in H; [discriminate|].
      destruct (Ascii.eqb c d) eqn:E; [|discriminate].
      apply Ascii.eqb_eq in E. subst d. constructor. apply IH, H.
    + cbn [match_here] in H.
      destruct (at_boundary prev s) eqn:E; [|discriminate].
      constructor; [exact E | apply IH, H].
    + revert prev H. induction s as [|d s IHs]; intros prev H;
        rewrite match_here_star in H; apply orb_prop in H.
      * destruct H as [H|H]; [|discriminate].
        apply matches_star_stop, IH, H.
      * destruct H as [H|H]; [apply matches_star_stop, IH, H|].
        destruct (is_newline d) eqn:E; [discriminate|].
        apply matches_star_step; [exact E | apply IHs, H].
Qed.

(** [re.search] succeeds exactly when the pattern matches at some
    position of the text. *)
Lemma re_search_spec (re : list atom) (s : string) :
  re_search re s = true
  <-> exists a b, s = (a ++ b)%string /\ matches re (last_char None a) b.
Proof.
  unfold re_search.
  assert (G : forall prev t,
             search_from re prev t = true
             <-> exists a b, t = (a ++ b)%string
                             /\ matches re (last_char prev a) b).
  { intros prev t. revert prev.
    induction t as [|d t IH]; intros prev; cbn [search_from].
    - rewrite orb_false_r. split.
      + intros H. exists EmptyString, EmptyString.
        split; [reflexivity | apply match_here_sound, H].
      + intros (a & b & E & M). destruct a; [|discriminate].
        cbn in E. subst b. apply match_here_complete, M.
    - rewrite orb_true_iff, IH. split.
      + intros [H | (a & b & E & M)].
        * exists EmptyString, (String d t).
          split; [reflexivity | apply match_here_sound, H].
        * exists (String d a), b. split; [cbn; rewrite E; reflexivity|].
          exact M.
      + intros (a & b & E & M). destruct a as [|c a].
        * left. cbn in E. subst b. apply match_here_complete, M.
        * right. cbn in E. injection E as -> ->. exists a, b.
          split; [reflexivity | exact M]. }
  apply G.
Qed.

(** ** Toxicity score *)

Lemma same_float_eq (x y : float) : same_float x y = true -> x = y.
Proof.
  destruct x as [a|a| |a m e], y as [b|b| |b m' e']; simpl;
    try discriminate; try reflexivity.
  - intros H. apply Bool.eqb_prop in H. congruence.
  - intros H. apply Bool.eqb_prop in H. congruence.
  - rewrite !andb_true_iff, Pos.eqb_eq, Z.eqb_eq.
    intros [[H1 H2] H3]. apply Bool.eqb_prop in H1. congruence.
Qed.

Lemma forall4b_spec (f : nat -> nat -> nat -> nat -> bool) (N P A C : nat) :
  forall4b f N P A C = true ->
  forall n p a c : nat,
    (n < N)%nat -> (p < P)%nat -> (a < A)%nat -> (c < C)%nat ->
    f n p a c = true.
Proof.
  unfold forall4b. intros H n p a c Hn Hp Ha Hc.
  rewrite forallb_forall in H.
  assert (H1 := H n (proj2 (in_seq N 0 n) (conj (Nat.le_0_l n) Hn))).
  rewrite forallb_forall in H1.
  assert (H2 := H1 p (proj2 (in_seq P 0 p) (conj (Nat.le_0_l p) Hp))).
  rewrite forallb_forall in H2.
  assert (H3 := H2 a (proj2 (in_seq A 0 a) (conj (Nat.le_0_l a) Ha))).
  rewrite forallb_forall in H3.
  exact (H3 c (proj2 (in_seq C 0 c) (conj (Nat.le_0_l c) Hc))).
Qed.

(** The tables hold 21 negative keywords, 5 patterns, 5 attack phrases and
    11 constructive keywords. *)
Lemma all_counts_agree : forall4b counts_agree 22 6 6 12 = true.
Proof. vm_compute. reflexivity. Qed.

Lemma counts_agree_bounded (n p a c : nat) :
  (n < 22)%nat -> (p < 6)%nat -> (a < 6)%nat -> (c < 12)%nat ->
  counts_agree n p a c = true.
Proof.
  exact (forall4b_spec counts_agree 22 6 6 12 all_counts_agree n p a c).
Qed.

Lemma filter_length_lt {A : Type} (f : A -> bool) (l : list A) (k : nat) :
  (List.length l < k)%nat -> (List.length (filter f l) < k)%nat.
Proof.
  intros H. pose proof (filter_length_le f l). lia.
Qed.

Lemma counts_spec (n p a c : nat) :
  (n < 22)%nat -> (p < 6)%nat -> (a < 6)%nat -> (c < 12)%nat ->
  let r := toxicity_of_counts (Z.of_nat n) (Z.of_nat p) (Z.of_nat a)
             (Z.of_nat c) in
  r = ScoreSpec.clamp_unit
        (ScoreSpec.raw_toxicity (Z.of_nat n) (Z.of_nat p) (Z.of_nat a)
           (Z.of_nat c))
  /\ F.leb F.zero r = true /\ F.leb r F.one = true.
Proof.
  intros Hn Hp Ha Hc r.
  pose proof (counts_agree_bounded n p a c Hn Hp Ha Hc) as H.
  unfold counts_agree in H. fold r in H.
  apply andb_prop in H. destruct H as [H H3].
  apply andb_prop in H. destruct H as [H1 H2].
  apply same_float_eq in H1. auto.
Qed.

Lemma toxicity_counts (text : string) :
  BiasDetector._calculate_toxicity_score text
  = toxicity_of_counts
      (Z.of_nat (List.length (filter (fun k => str_in k (lower text))
                                BiasDetector.negative_keywords)))
      (Z.of_nat (List.length (filter (fun re => re_search re (lower text))
                                BiasDetector.toxic_patterns)))
      (Z.of_nat (List.length (filter (fun k => str_in k (lower text))
                                BiasDetector.personal_attacks)))
      (Z.of_nat (List.length (filter (fun k => str_in k (lower text))
                                BiasDetector.constructive_keywords))).
Proof.
  unfold BiasDetector._calculate_toxicity_score, toxicity_of_counts,
    count_in, len.
  reflexivity.
Qed.

Lemma table_sizes :
  (List.length BiasDetector.negative_keywords < 22)%nat
  /\ (List.length BiasDetector.toxic_patterns < 6)%nat
  /\ (List.length BiasDetector.personal_attacks < 6)%nat
  /\ (List.length BiasDetector.constructive_keywords < 12)%nat.
Proof. repeat split; vm_compute; reflexivity. Qed.

(** *** Word-gap patterns and their regular expressions *)

Lemma in_word_lower (c : ascii) :
  ScoreSpec.in_word c = is_word_char (lower_ascii c).
Proof. destruct c as [[] [] [] [] [] [] [] []]; reflexivity. Qed.

Lemma line_break_lower (c : ascii) :
  Ascii.eqb c ScoreSpec.line_break = is_newline (lower_ascii c).
Proof. destruct c as [[] [] [] [] [] [] [] []]; reflexivity. Qed.

Lemma edge_lower (prev : option ascii) (t : string) :
  ScoreSpec.edge prev t = at_boundary (option_map lower_ascii prev) (lower t).
Proof.
  unfold ScoreSpec.edge, at_boundary, word_before, word_after.
  destruct prev as [c|], t as [|d t]; cbn [option_map lower];
    rewrite ?in_word_lower;
    repeat match goal with
           | |- context [is_word_char ?x] => destruct (is_word_char x)
           end; reflexivity.
Qed.

Lemma read_lower (w : string) (re : list atom) :
  in_small_letters w = true ->
  forall (t : string) (prev : option ascii),
    match_here (lit w ++ re) (option_map lower_ascii prev) (lower t)
    = match ScoreSpec.read w t prev with
      | Some (last, rest) =>
          match_here re (option_map lower_ascii last) (lower rest)
      | None => false
      end.
Proof.
  induction w as [|a w IH]; intros H t prev; [reflexivity|].
  cbn [in_small_letters] in H. apply andb_prop in H. destruct H as [Ha Hw].
  apply Ascii.eqb_eq in Ha.
  cbn [lit app match_here ScoreSpec.read].
  destruct t as [|b t]; [reflexivity|]. cbn [lower].
  unfold ScoreSpec.same_letter. rewrite Ha, fold_case_lower.
  destruct (Ascii.eqb a (lower_ascii b)); [|reflexivity].
  exact (IH Hw t (Some b)).
Qed.

Lemma word_here_lower (w : ScoreSpec.gap_word) (re : list atom)
  (t : string) (prev : option ascii) :
  in_small_letters (ScoreSpec.spelling w) = true ->
  match_here (regex_of_word w ++ re) (option_map lower_ascii prev) (lower t)
  = match ScoreSpec.word_here w prev t with
    | Some (last, rest) =>
        match_here re (option_map lower_ascii last) (lower rest)
    | None => false
    end.
Proof.
  intros H. unfold regex_of_word, ScoreSpec.word_here.
  rewrite <- !app_assoc.
  assert (R : forall re',
             match_here (lit (ScoreSpec.spelling w) ++ re')
               (option_map lower_ascii prev) (lower t)
             = match ScoreSpec.read (ScoreSpec.spelling w) t prev with
               | Some (last, rest) =>
                   match_here re' (option_map lower_ascii last) (lower rest)
               | None => false
               end)
    by (intros re'; apply read_lower, H).
  destruct (ScoreSpec.at_word_start w); cbn [implb app match_here].
  - rewrite <- edge_lower. destruct (ScoreSpec.edge prev t); [|reflexivity].
    rewrite R. destruct (ScoreSpec.read _ t prev) as [[last rest]|];
      [|reflexivity].
    destruct (ScoreSpec.at_word_end w); cbn [implb app match_here];
      [|reflexivity].
    rewrite <- edge_lower. destruct (ScoreSpec.edge last rest); reflexivity.
  - rewrite R. destruct (ScoreSpec.read _ t prev) as [[last rest]|];
      [|reflexivity].
    destruct (ScoreSpec.at_word_end w); cbn [implb app match_here];
      [|reflexivity].
    rewrite <- edge_lower. destruct (ScoreSpec.edge last rest); reflexivity.
Qed.

Lemma follow_cons (w : ScoreSpec.gap_word) (ws : list ScoreSpec.gap_word)
  (prev : option ascii) (t : string) :
  ScoreSpec.follow (w :: ws) prev t
  = (match ScoreSpec.word_here w prev t with
     | Some (last, rest) => ScoreSpec.follow ws last rest
     | None => false
     end
     || match t with
        | String d t' =>
            if Ascii.eqb d ScoreSpec.line_break then false
            else ScoreSpec.follow (w :: ws) (Some d) t'
        | EmptyString => false
        end)%bool.
Proof. destruct t; reflexivity. Qed.

Lemma follow_lower (ws : list ScoreSpec.gap_word) :
  forallb (fun w => in_small_letters (ScoreSpec.spelling w)) ws = true ->
  forall (t : string) (prev : option ascii),
    ScoreSpec.follow ws prev t
    = match_here (regex_of_gaps ws) (option_map lower_ascii prev) (lower t).
Proof.
  induction ws as [|w ws IH]; intros H; [reflexivity|].
  cbn [forallb] in H. apply andb_prop in H. destruct H as [Hw Hws].
  cbn [regex_of_gaps].
  induction t as [|d t IHt]; intros prev;
    rewrite follow_cons, match_here_star.
  - rewrite (word_here_lower w (regex_of_gaps ws) EmptyString prev Hw).
    destruct (ScoreSpec.word_here w prev EmptyString) as [[last rest]|];
      [rewrite (IH Hws)|]; reflexivity.
  - rewrite (word_here_lower w (regex_of_gaps ws) (String d t) prev Hw).
    cbn [lower]. rewrite <- line_break_lower, (IHt (Some d)).
    destruct (ScoreSpec.word_here w prev (String d t)) as [[last rest]|];
      [rewrite (IH Hws)|]; reflexivity.
Qed.

Lemma found_lower (p : list ScoreSpec.gap_word) (t : string) :
  forallb (fun w => in_small_letters (ScoreSpec.spelling w)) p = true ->
  ScoreSpec.found p t = re_search (regex_of_pattern p) (lower t).
Proof.
  destruct p as [|w ws]; intros H.
  - destruct t; reflexivity.
  - cbn [forallb] in H. apply andb_prop in H. destruct H as [Hw Hws].
    unfold ScoreSpec.found, re_search, regex_of_pattern.
    change (@None ascii) with (option_map lower_ascii None) at 2.
    generalize (@None ascii). induction t as [|d t IHt]; intros prev.
    + cbn [ScoreSpec.found_from].
      change (search_from (regex_of_word w ++ regex_of_gaps ws)
                (option_map lower_ascii prev) (lower EmptyString))
        with (match_here (regex_of_word w ++ regex_of_gaps ws)
                (option_map lower_ascii prev) (lower EmptyString)
              || false)%bool.
      rewrite (word_here_lower w (regex_of_gaps ws) EmptyString prev Hw).
      destruct (ScoreSpec.word_here w prev EmptyString) as [[last rest]|];
        [rewrite (follow_lower ws Hws)|]; reflexivity.
    + cbn [ScoreSpec.found_from].
      change (search_from (regex_of_word w ++ regex_of_gaps ws)
                (option_map lower_ascii prev) (lower (String d t)))
        with (match_here (regex_of_word w ++ regex_of_gaps ws)
                (option_map lower_ascii prev) (lower (String d t))
              || search_from (regex_of_word w ++ regex_of_gaps ws)
                   (option_map lower_ascii (Some d)) (lower t))%bool.
      rewrite (word_here_lower w (regex_of_gaps ws) (String d t) prev Hw).
      rewrite (IHt (Some d)).
      destruct (ScoreSpec.word_here w prev (String d t)) as [[last rest]|];
        [rewrite (follow_lower ws Hws)|]; reflexivity.
Qed.

Lemma pattern_list :
  BiasDetector.toxic_patterns
  = map regex_of_pattern ScoreSpec.toxic_word_gaps
  /\ forallb (forallb (fun w => in_small_letters (ScoreSpec.spelling w)))
       ScoreSpec.toxic_word_gaps = true.
Proof. split; reflexivity. Qed.

Lemma patterns_how_many (ps : list (list ScoreSpec.gap_word)) (t : string) :
  forallb (forallb (fun w => in_small_letters (ScoreSpec.spelling w))) ps
  = true ->
  len (filter (fun re => re_search re (lower t)) (map regex_of_pattern ps))
  = ScoreSpec.how_many (fun p => ScoreSpec.found p t) ps.
Proof.
  unfold len. induction ps as [|p ps IH]; intros H; [reflexivity|].
  cbn [forallb] in H. apply andb_prop in H. destruct H as [Hp Hps].
  cbn [map filter ScoreSpec.how_many]. rewrite (found_lower p t Hp), <- (IH Hps).
  destruct (re_search (regex_of_pattern p) (lower t)); cbn [List.length]; lia.
Qed.

Lemma toxicity_reference (text : string) :
  BiasDetector._calculate_toxicity_score text = ScoreSpec.toxicity text.
Proof.
  destruct table_sizes as (Tn & Tp & Ta & Tc).
  pose proof (counts_spec _ _ _ _
    (filter_length_lt (fun k => str_in k (lower text)) _ 22 Tn)
    (filter_length_lt (fun re => re_search re (lower text)) _ 6 Tp)
    (filter_length_lt (fun k => str_in k (lower text)) _ 6 Ta)
    (filter_length_lt (fun k => str_in k (lower text)) _ 12 Tc)) as H.
  cbv zeta in H. rewrite <- toxicity_counts in H.
  destruct H as (H1 & _). rewrite H1. unfold ScoreSpec.toxicity.
  destruct word_lists as (En & Ea & Ec & _).
  destruct pattern_list as (Ep & Hp).
  rewrite <- (count_in_how_many ScoreSpec.negative_terms text) by reflexivity.
  rewrite <- (count_in_how_many ScoreSpec.attack_phrases text) by reflexivity.
  rewrite <- (count_in_how_many ScoreSpec.constructive_terms text)
    by reflexivity.
  rewrite <- (patterns_how_many ScoreSpec.toxic_word_gaps text Hp).
  rewrite <- En, <- Ea, <- Ec, <- Ep.
  unfold count_in, len. reflexivity.
Qed.



(** ** Approval status: ingestion and construction *)

Lemma ApprovalStatus_of_value_known (s : string) :
  raises (ApprovalStatus_of_value s) = negb (known_status s).
Proof.
  unfold ApprovalStatus_of_value, known_status.
  destruct (String.eqb s "approved"); [reflexivity|].
  destruct (String.eqb s "requested_changes"); [reflexivity|].
  destruct (String.eqb s "commented"); reflexivity.
Qed.

Lemma ApprovalStatus_of_value_value (a : ApprovalStatus) :
  ApprovalStatus_of_value (value a) = Ok a.
Proof. destruct a; reflexivity. Qed.

Lemma ingestion_is_value (note_body : string) :
  exists a, _determine_approval_status note_body = value a.
Proof.
  unfold _determine_approval_status.
  destruct (any_in approval_keywords (lower note_body));
    [exists APPROVED; reflexivity|].
  destruct (any_in changes_keywords (lower note_body));
    [exists REQUESTED_CHANGES | exists COMMENTED]; reflexivity.
Qed.

(** C8, as the code has it.  Ingestion yields one of the three status
    values for every note, and 'commented' when no approval or
    change-request keyword occurs; the constructor of the core comment
    accepts a status string exactly when it is one of the three values and
    raises [ValueError] on any other string; it therefore accepts whatever
    ingestion yields, keeping that value. *)
Theorem C8_approval_status (note_body s id_ author_ body_ title_ dev_ : string)
  (at_ mr_ : Z) (sent : SentimentScore) :
  known_status (_determine_approval_status note_body) = true
  /\ implb (negb (any_in approval_keywords (lower note_body))
            && negb (any_in changes_keywords (lower note_body)))
           (String.eqb (_determine_approval_status note_body) "commented")
     = true
  /\ raises (ReviewComment_init id_ author_ body_ at_ mr_ title_ dev_
               (inr s) sent)
     = negb (known_status s)
  /\ (exists c,
        ReviewComment_init id_ author_ body_ at_ mr_ title_ dev_
          (inr (_determine_approval_status note_body)) sent = Ok c
        /\ value (approval_status c) = _determine_approval_status note_body).
Proof.
  split; [|split; [|split]].
  - destruct (ingestion_is_value note_body) as [a ->]. destruct a; reflexivity.
  - unfold _determine_approval_status.
    destruct (any_in approval_keywords (lower note_body)); [reflexivity|].
    destruct (any_in changes_keywords (lower note_body)); reflexivity.
  - unfold ReviewComment_init.
    rewrite <- ApprovalStatus_of_value_known.
    destruct (ApprovalStatus_of_value s); reflexivity.
  - destruct (ingestion_is_value note_body) as [a ->].
    unfold ReviewComment_init. rewrite ApprovalStatus_of_value_value.
    cbn [bind]. eexists. split; reflexivity.
Qed.

(** The status string "pending" is neither 'approved' nor
    'requested_changes', and constructing a comment from it raises
    [ValueError] instead of yielding a 'commented' comment. *)
Lemma C8_unknown_status_raises :
  String.eqb "pending" "approved" = false
  /\ String.eqb "pending" "requested_changes" = false
  /\ ReviewComment_init "n1" "reviewer" "Looks odd." 0 7 "Add cache" "dev"
       (inr "pending")
       {| textblob_score := F.zero; vader_compound := F.zero;
          vader_positive := F.zero; vader_neutral := F.one;
          vader_negative := F.zero |}
     = Raise ValueError.
Proof. repeat split. Qed.

(** ** Negative-pattern detection *)

Lemma float_truediv_int_ok (x : float) (n : Z) :
  n <> 0 -> float_truediv_int x n = Ok (F.div x (F.of_Z n)).
Proof.
  intros H. unfold float_truediv_int.
  destruct (n =? 0) eqn:E; [lia | reflexivity].
Qed.

Lemma len_cons_pos {A : Type} (x : A) (l : list A) : len (x :: l) <> 0.
Proof. unfold len. simpl List.length. lia. Qed.

(** The detector of [bias_detector.py] never raises. *)
Lemma filter_filter_both {A : Type} (f g : A -> bool) (l : list A) :
  filter g (filter f l) = filter (fun x => (f x && g x)%bool) l.
Proof.
  induction l as [|x l IH]; [reflexivity|]. cbn [filter].
  destruct (f x); cbn [filter andb]; [destruct (g x)|]; rewrite IH;
    reflexivity.
Qed.

Lemma filter_none {A : Type} (f : A -> bool) (l : list A) :
  (forall x, f x = false) -> filter f l = [].
Proof.
  intros H. induction l as [|x l IH]; [reflexivity|].
  cbn [filter]. rewrite H. exact IH.
Qed.

Lemma identify_negative_patterns_total (reviewer : string)
  (comments : list ReviewComment) :
  exists ps,
    BiasDetector._identify_negative_patterns reviewer comments = Ok ps.
Proof.
  unfold BiasDetector._identify_negative_patterns.
  destruct (filter (fun c => String.eqb (author c) reviewer) comments)
    as [|c rest] eqn:E.
  - exists []. reflexivity.
  - rewrite float_truediv_int_ok.
    + cbn [bind]. eexists. reflexivity.
    + unfold len. rewrite length_map. simpl List.length. lia.
Qed.

(** It returns the empty list as soon as the reviewer wrote none of the
    comments. *)
Lemma identify_negative_patterns_empty (reviewer : string)
  (comments : list ReviewComment) :
  filter (fun c => String.eqb (author c) reviewer) comments = [] ->
  BiasDetector._identify_negative_patterns reviewer comments = Ok [].
Proof.
  intros E. unfold BiasDetector._identify_negative_patterns.
  rewrite E. reflexivity.
Qed.

(** The older detector raises on the empty list only. *)
Lemma behavior_analyzer_patterns_nonempty (reviewer : string)
  (c : Models.ReviewComment) (comments : list Models.ReviewComment) :
  raises (BehaviorAnalyzer._identify_negative_patterns reviewer (c :: comments))
  = false.
Proof.
  unfold BehaviorAnalyzer._identify_negative_patterns.
  rewrite float_truediv_int_ok
    by (unfold len; rewrite length_map; simpl List.length; lia).
  reflexivity.
Qed.

(** The copy of the detector in [behavior_analyzer.py] divides before any
    test and raises on the empty list; it is only called, if at all, from
    inside a loop over the reviewers of a list that is not empty. *)
Lemma behavior_analyzer_patterns_empty (reviewer : string) :
  BehaviorAnalyzer._identify_negative_patterns reviewer []
  = Raise ZeroDivisionError.
Proof. reflexivity. Qed.

(** C9. The negative-pattern detector returns the empty list, raising
    nothing, on the empty comment list and on every list that is empty
    after filtering, that is, that holds no comment of the reviewer; and it
    raises nothing on any list, so no ratio is ever divided by zero. *)
Theorem C9_empty_comment_set (reviewer : string)
  (comments : list ReviewComment) :
  BiasDetector._identify_negative_patterns reviewer [] = Ok []
  /\ BiasDetector._identify_negative_patterns reviewer
       (filter (fun c => negb (String.eqb (author c) reviewer)) comments)
     = Ok []
  /\ raises (BiasDetector._identify_negative_patterns reviewer comments)
     = false.
Proof.
  split; [reflexivity|]. split.
  - apply identify_negative_patterns_empty.
    rewrite filter_filter_both. apply filter_none.
    intros c. destruct (String.eqb (author c) reviewer); reflexivity.
  - destruct (identify_negative_patterns_total reviewer comments) as [ps ->].
    reflexivity.
Qed.

(** ** Dictionaries *)

Lemma dd_get_update_same {V : Type} (d : dict V) (k : string) (dflt : V)
  (f : V -> V) :
  dd_get (dd_update d k dflt f) k dflt = f (dd_get d k dflt).
Proof.
  induction d as [|[k0 v] d IH]; cbn [dd_update dd_get].
  - rewrite String.eqb_refl. reflexivity.
  - destruct (String.eqb k0 k) eqn:E; cbn [dd_get]; rewrite E;
      [reflexivity | exact IH].
Qed.

Lemma dd_get_update_other {V : Type} (d : dict V) (k k' : string) (dflt : V)
  (f : V -> V) :
  String.eqb k k' = false ->
  dd_get (dd_update d k dflt f) k' dflt = dd_get d k' dflt.
Proof.
  intros H. induction d as [|[k0 v] d IH]; cbn [dd_update dd_get].
  - rewrite H. reflexivity.
  - destruct (String.eqb k0 k) eqn:E; cbn [dd_get].
    + apply String.eqb_eq in E. subst k0. rewrite H. reflexivity.
    + destruct (String.eqb k0 k'); [reflexivity | exact IH].
Qed.

Lemma Forall_dd_update {V : Type} (Q : string * V -> Prop) (d : dict V)
  (k : string) (dflt : V) (f : V -> V) :
  (forall kv, In kv d -> Q kv) ->
  (forall v, In (k, v) d -> Q (k, f v)) ->
  Q (k, f dflt) ->
  Forall Q (dd_update d k dflt f).
Proof.
  induction d as [|[k0 v] d IH]; intros H1 H2 H3; cbn [dd_update].
  - constructor; [exact H3 | constructor].
  - destruct (String.eqb k0 k) eqn:E.
    + apply String.eqb_eq in E. subst k0. constructor.
      * apply H2. left. reflexivity.
      * apply Forall_forall. intros kv Hin. apply H1. right. exact Hin.
    + constructor.
      * apply H1. left. reflexivity.
      * apply IH.
        -- intros kv Hin. apply H1. right. exact Hin.
        -- intros w Hin. apply H2. right. exact Hin.
        -- exact H3.
Qed.

Lemma app_one_not_nil {A : Type} (l : list A) (x : A) : l ++ [x] <> [].
Proof. destruct l; discriminate. Qed.

(** ** The per-developer analysis never raises *)

Lemma group_step_ok (g : BiasDetector.groups) (c : ReviewComment) :
  groups_ok g -> groups_ok (BiasDetector.group_step g c).
Proof.
  unfold groups_ok. intros H. rewrite Forall_forall in H.
  unfold BiasDetector.group_step.
  cbn [BiasDetector.reviewer_sentiments BiasDetector.reviewer_toxicity].
  apply Forall_dd_update.
  - intros kv Hin. destruct (H kv Hin) as [Hs Ht]. split; [exact Hs|].
    destruct (String.eqb (author c) (fst kv)) eqn:E.
    + apply String.eqb_eq in E. rewrite <- E, dd_get_update_same.
      apply app_one_not_nil.
    + rewrite dd_get_update_other by exact E. exact Ht.
  - intros v _. cbn [fst snd]. split; [apply app_one_not_nil|].
    rewrite dd_get_update_same. apply app_one_not_nil.
  - cbn [fst snd]. split; [apply app_one_not_nil|].
    rewrite dd_get_update_same. apply app_one_not_nil.
Qed.

Lemma group_by_reviewer_ok (comments : list ReviewComment) :
  groups_ok (BiasDetector.group_by_reviewer comments).
Proof.
  unfold BiasDetector.group_by_reviewer.
  assert (G : forall g, groups_ok g ->
                        groups_ok (fold_left BiasDetector.group_step comments g)).
  { induction comments as [|c cs IH]; intros g Hg; cbn [fold_left].
    - exact Hg.
    - apply IH, group_step_ok, Hg. }
  apply G. constructor.
Qed.

Lemma len_not_nil {A : Type} (l : list A) : l <> [] -> len l <> 0.
Proof. destruct l; [congruence | intros _; apply len_cons_pos]. Qed.

Lemma int_truediv_ok (a b : Z) :
  b <> 0 -> int_truediv a b = Ok (F.div (F.of_Z a) (F.of_Z b)).
Proof.
  intros H. unfold int_truediv. destruct (b =? 0) eqn:E; [lia | reflexivity].
Qed.

Lemma guarded_rate_total (x total : Z) :
  exists r, BiasDetector.guarded_rate x total = Ok r.
Proof.
  unfold BiasDetector.guarded_rate. destruct (total >? 0) eqn:E.
  - rewrite int_truediv_ok by lia. eexists. reflexivity.
  - eexists. reflexivity.
Qed.

(** The blocking analysis never raises; its frequency is the number of
    blocking events, and the average is present as soon as there is one. *)
Lemma analyze_blocking_patterns_total (l : list BiasDetector.blocking_behavior) :
  exists ba,
    BiasDetector._analyze_blocking_patterns l = Ok ba
    /\ BiasDetector.frequency ba = len l
    /\ (0 < BiasDetector.frequency ba ->
        BiasDetector.avg_constructiveness ba <> None).
Proof.
  destruct l as [|b l].
  - eexists. split; [reflexivity|]. split; [reflexivity|].
    cbn [BiasDetector.frequency]. lia.
  - unfold BiasDetector._analyze_blocking_patterns.
    rewrite int_truediv_ok
      by (unfold len; rewrite length_map; simpl List.length; lia).
    cbn [bind]. eexists. split; [reflexivity|].
    cbn [BiasDetector.frequency BiasDetector.avg_constructiveness].
    split; [reflexivity | discriminate].
Qed.

Lemma determine_treatment_level_total (s t : float)
  (acts : BiasDetector.actions) (total : Z)
  (ba : BiasDetector.blocking_analysis) :
  (0 < BiasDetector.frequency ba ->
   BiasDetector.avg_constructiveness ba <> None) ->
  exists info,
    BiasDetector._determine_treatment_level s t acts total ba = Ok info.
Proof.
  intros Hk.
  unfold BiasDetector._determine_treatment_level,
    BiasDetector.composite_score.
  destruct (BiasDetector.frequency ba >? 0) eqn:Hf.
  - destruct (guarded_rate_total (BiasDetector.requested_changes acts) total)
      as [r ->]. cbn [bind].
    destruct (F.gtb r f_0_7); [cbn [bind]; eexists; reflexivity|].
    destruct (BiasDetector.avg_constructiveness ba) as [avg|] eqn:Ha.
    + destruct (F.ltb avg f_40); cbn [bind]; eexists; reflexivity.
    + exfalso. apply Hk; [lia | reflexivity].
  - cbn [bind]. eexists. reflexivity.
Qed.

Lemma stat_of_reviewer_total (g : BiasDetector.groups)
  (comments : list ReviewComment) (reviewer : string)
  (sentiments : list float) :
  sentiments <> [] ->
  dd_get (BiasDetector.reviewer_toxicity g) reviewer [] <> [] ->
  exists st,
    BiasDetector.stat_of_reviewer g comments reviewer sentiments = Ok st.
Proof.
  intros Hs Ht. unfold BiasDetector.stat_of_reviewer.
  rewrite (float_truediv_int_ok _ _ (len_not_nil _ Hs)). cbn [bind].
  rewrite (float_truediv_int_ok _ _ (len_not_nil _ Ht)). cbn [bind].
  destruct (analyze_blocking_patterns_total
              (dd_get (BiasDetector.reviewer_blocking_behavior g) reviewer []))
    as (ba & -> & _ & Hk). cbn [bind].
  match goal with
  | |- context [BiasDetector._determine_treatment_level ?s ?t ?a ?n ba] =>
      destruct (determine_treatment_level_total s t a n ba Hk) as [info ->]
  end. cbn [bind].
  destruct (identify_negative_patterns_total reviewer comments) as [ps ->].
  cbn [bind].
  match goal with
  | |- context [BiasDetector.guarded_rate ?x ?n] =>
      destruct (guarded_rate_total x n) as [r1 ->]
  end. cbn [bind].
  match goal with
  | |- context [BiasDetector.guarded_rate ?x ?n] =>
      destruct (guarded_rate_total x n) as [r2 ->]
  end. cbn [bind].
  eexists. reflexivity.
Qed.

Lemma stats_loop_total (g : BiasDetector.groups)
  (comments : list ReviewComment) (items : dict (list float)) :
  Forall (fun kv : string * list float =>
            snd kv <> []
            /\ dd_get (BiasDetector.reviewer_toxicity g) (fst kv) [] <> [])
    items ->
  exists sts,
    BiasDetector.stats_loop g comments items = Ok sts
    /\ List.length sts = List.length items.
Proof.
  induction items as [|[r sents] items IH]; intros H; cbn [BiasDetector.stats_loop].
  - exists []. split; reflexivity.
  - inversion H as [|kv rest Hkv Hrest]; subst.
    destruct Hkv as [Hs Ht]. cbn [fst snd] in Hs, Ht.
    destruct (stat_of_reviewer_total g comments r sents Hs Ht) as [st ->].
    cbn [bind].
    destruct (IH Hrest) as (sts & -> & Hlen). cbn [bind].
    eexists. split; [reflexivity|]. simpl List.length. congruence.
Qed.

Lemma analyze_individual_total (developer : string)
  (comments : list ReviewComment) :
  exists dt,
    BiasDetector._analyze_individual_developer_treatment developer comments
    = Ok dt.
Proof.
  unfold BiasDetector._analyze_individual_developer_treatment.
  destruct (stats_loop_total (BiasDetector.group_by_reviewer comments)
              comments _ (group_by_reviewer_ok comments))
    as (sts & -> & _).
  cbn [bind].
  destruct comments as [|c cs].
  - cbn [map bind]. destruct sts; eexists; reflexivity.
  - cbn [map].
    rewrite float_truediv_int_ok by apply len_cons_pos.
    cbn [bind]. destruct sts; eexists; reflexivity.
Qed.

(** C7. Each rate of the aggregation (the approval rate and the
    change-request rate of a reviewer, and the change-request rate inside
    the classifier, all of the form [guarded_rate]) is 0 when its
    denominator is 0; the analysis of an empty comment group returns the
    default treatment with low bias risk; and for every comment group the
    analysis returns normally, with low bias risk whenever it holds no
    reviewer statistics. *)
Theorem C7_guarded_ratios (x : Z) (developer : string)
  (comments : list ReviewComment) :
  BiasDetector.guarded_rate x 0 = Ok F.zero
  /\ BiasDetector._analyze_individual_developer_treatment developer []
     = Ok {| BiasDetector.developer_name := developer;
             BiasDetector.overall_sentiment := F.zero;
             BiasDetector.total_reviews := 0;
             BiasDetector.total_negative_reviews := 0;
             BiasDetector.sentiment_range := F.zero;
             BiasDetector.bias_indicators := [];
             BiasDetector.bias_risk := LOW;
             BiasDetector.reviewer_stats := [] |}
  /\ match BiasDetector._analyze_individual_developer_treatment
             developer comments with
     | Ok dt =>
         match BiasDetector.reviewer_stats dt with
         | [] => BiasDetector.bias_risk dt = LOW
         | _ :: _ => True
         end
     | Raise _ => False
     end.
Proof.
  split; [reflexivity|]. split; [reflexivity|].
  unfold BiasDetector._analyze_individual_developer_treatment.
  destruct (stats_loop_total (BiasDetector.group_by_reviewer comments)
              comments _ (group_by_reviewer_ok comments))
    as (sts & -> & _).
  cbn [bind].
  assert (G : exists o,
             match map (fun c => textblob_score (sentiment c)) comments with
             | [] => Ok F.zero
             | _ :: _ =>
                 float_truediv_int
                   (py_sum (map (fun c => textblob_score (sentiment c))
                              comments))
                   (len (map (fun c => textblob_score (sentiment c))
                           comments))
             end = Ok o).
  { destruct comments as [|c cs]; cbn [map].
    - eexists. reflexivity.
    - rewrite float_truediv_int_ok by apply len_cons_pos. eexists.
      reflexivity. }
  destruct G as [o ->]. cbn [bind].
  destruct sts; cbn [BiasDetector.reviewer_stats BiasDetector.bias_risk];
    [reflexivity | exact I].
Qed.

(** The two labels of the scenario are raised exactly on these
    conditions. *)
Lemma identify_negative_patterns_flags (reviewer : string)
  (comments : list ReviewComment) :
  let reviewer_comments :=
    filter (fun c => String.eqb (author c) reviewer) comments in
  let sentiments :=
    map (fun c => textblob_score (sentiment c)) reviewer_comments in
  let change_requests :=
    filter (fun c => String.eqb (value (approval_status c))
                       "requested_changes") reviewer_comments in
  let non_constructive :=
    filter (fun c => negb (any_in BiasDetector.pattern_keywords
                             (lower (body c)))) change_requests in
  reviewer_comments <> [] ->
  exists ps,
    BiasDetector._identify_negative_patterns reviewer comments = Ok ps
    /\ (In "Consistently negative sentiment in reviews" ps <->
        F.ltb (F.div (py_sum sentiments) (F.of_Z (len sentiments))) f_m0_3
        = true)
    /\ (In "Blocks MRs without providing constructive feedback" ps <->
        change_requests <> []
        /\ F.gtb (F.of_Z (len non_constructive))
                 (F.mul (F.of_Z (len change_requests)) f_0_5) = true).
Proof.
  intros rc sentiments crs ncs Hne.
  subst ncs crs sentiments. unfold BiasDetector._identify_negative_patterns.
  fold rc. destruct rc as [|c0 rest]; [congruence|]. clear Hne.
  rewrite float_truediv_int_ok
    by (unfold len; rewrite length_map; simpl List.length; lia).
  cbn [bind]. eexists. split; [reflexivity|].
  match goal with
  | |- context [F.gtb ?a (F.mul ?b f_0_3)] =>
      destruct (F.gtb a (F.mul b f_0_3))
  end;
  match goal with
  | |- context [F.ltb ?a f_m0_3] => destruct (F.ltb a f_m0_3)
  end;
  match goal with
  | |- context [F.gtb ?a (F.mul ?b f_0_4)] =>
      destruct (F.gtb a (F.mul b f_0_4))
  end;
  (destruct (filter
               (fun c => String.eqb (value (approval_status c))
                           "requested_changes") (c0 :: rest))
     as [|cr crs];
   [| match goal with
      | |- context [F.gtb ?a (F.mul ?b f_0_5)] =>
          destruct (F.gtb a (F.mul b f_0_5))
      end ]);
  cbn [app In]; repeat split; intros;
  repeat match goal with
         | H : _ \/ _ |- _ => destruct H
         | H : _ /\ _ |- _ => destruct H
         | H : False |- _ => contradiction
         end;
  try congruence; auto 10.
Qed.

Lemma rc_value_test :
  String.eqb (value REQUESTED_CHANGES) "requested_changes" = true.
Proof. reflexivity. Qed.

Lemma five_sentiments :
  float_truediv_int (py_sum [f_m0_5; f_m0_5; f_m0_5; f_m0_5; f_m0_5])
    (len [f_m0_5; f_m0_5; f_m0_5; f_m0_5; f_m0_5]) = Ok f_m0_5.
Proof. vm_compute. reflexivity. Qed.

Lemma five_toxicities :
  float_truediv_int (py_sum [F.zero; F.zero; F.zero; F.zero; F.zero])
    (len [F.zero; F.zero; F.zero; F.zero; F.zero]) = Ok F.zero.
Proof. vm_compute. reflexivity. Qed.

Lemma scenario_composite (ba : BiasDetector.blocking_analysis) :
  BiasDetector.frequency ba = 5 ->
  BiasDetector.composite_score f_m0_5 F.zero scenario_actions 5 ba
  = Ok (F.dec (-8) 1).
Proof.
  intros Hf. unfold BiasDetector.composite_score. rewrite Hf.
  replace (5 >? 0) with true by reflexivity.
  replace (BiasDetector.guarded_rate
             (BiasDetector.requested_changes scenario_actions) 5)
    with (Ok F.one) by (vm_compute; reflexivity).
  cbn [bind].
  replace (F.gtb F.one f_0_7) with true by (vm_compute; reflexivity).
  cbn [bind]. vm_compute. reflexivity.
Qed.

(** C2. Five comments by one reviewer on the merge requests of one
    developer, each with sentiment -0.5, toxicity 0, a change request, and
    none of the five words the detector looks for ("suggest", "recommend",
    "consider", "try", "example") in its body: the composite score is -0.8,
    the treatment level is Potentially Toxic, and the detector raises both
    "consistently negative" and "blocks without constructive feedback". *)
Theorem C2_scenario (developer r : string) (c1 c2 c3 c4 c5 : ReviewComment) :
  (forall c, In c [c1; c2; c3; c4; c5] ->
     author c = r
     /\ mr_author c = developer
     /\ textblob_score (sentiment c) = f_m0_5
     /\ approval_status c = REQUESTED_CHANGES
     /\ BiasDetector._calculate_toxicity_score (body c) = F.zero
     /\ any_in BiasDetector.pattern_keywords (lower (body c)) = false) ->
  exists dt st,
    BiasDetector.analyze_developer_treatment [c1; c2; c3; c4; c5]
    = Ok [(developer, dt)]
    /\ BiasDetector.reviewer_stats dt = [(r, st)]
    /\ BiasDetector.composite_score (BiasDetector.avg_sentiment st)
         (BiasDetector.avg_toxicity st) scenario_actions 5
         (BiasDetector.rs_blocking_analysis st) = Ok (F.dec (-8) 1)
    /\ BiasDetector.treatment st = "Potentially Toxic"
    /\ In "Consistently negative sentiment in reviews"
         (BiasDetector.negative_patterns st)
    /\ In "Blocks MRs without providing constructive feedback"
         (BiasDetector.negative_patterns st).
Proof.
  intros H.
  destruct (H c1 (or_introl eq_refl)) as (A1 & D1 & S1 & R1 & T1 & K1).
  destruct (H c2 (or_intror (or_introl eq_refl))) as (A2 & D2 & S2 & R2 & T2 & K2).
  destruct (H c3 (or_intror (or_intror (or_introl eq_refl))))
    as (A3 & D3 & S3 & R3 & T3 & K3).
  destruct (H c4 (or_intror (or_intror (or_intror (or_introl eq_refl)))))
    as (A4 & D4 & S4 & R4 & T4 & K4).
  destruct (H c5 (or_intror (or_intror (or_intror (or_intror
                                                     (or_introl eq_refl))))))
    as (A5 & D5 & S5 & R5 & T5 & K5).
  clear H.
  assert (P : exists ps,
             BiasDetector._identify_negative_patterns r [c1; c2; c3; c4; c5]
             = Ok ps
             /\ In "Consistently negative sentiment in reviews" ps
             /\ In "Blocks MRs without providing constructive feedback" ps).
  { pose proof (identify_negative_patterns_flags r [c1; c2; c3; c4; c5]) as L.
    cbv zeta in L. cbn [filter] in L.
    rewrite A1, A2, A3, A4, A5, !String.eqb_refl in L.
    cbn [filter map] in L.
    rewrite R1, R2, R3, R4, R5, !rc_value_test in L.
    cbn [filter] in L.
    rewrite K1, K2, K3, K4, K5 in L. cbn [negb] in L.
    rewrite S1, S2, S3, S4, S5 in L.
    destruct L as (ps & E & Hc & Hb); [discriminate|].
    exists ps. split; [exact E|]. split.
    - apply Hc. vm_compute. reflexivity.
    - apply Hb. split; [discriminate | vm_compute; reflexivity]. }
  destruct P as (ps & Eps & Pc & Pb).
  unfold BiasDetector.analyze_developer_treatment,
    BiasDetector.comments_by_developer.
  cbn [fold_left]. rewrite D1, D2, D3, D4, D5.
  repeat (progress (rewrite ?String.eqb_refl; cbn [dd_update app])).
  cbn [BiasDetector.analyze_groups].
  unfold BiasDetector._analyze_individual_developer_treatment.
  unfold BiasDetector.group_by_reviewer. cbn [fold_left].
  unfold BiasDetector.group_step.
  cbn [BiasDetector.reviewer_sentiments BiasDetector.reviewer_actions
       BiasDetector.reviewer_toxicity BiasDetector.reviewer_blocking_behavior].
  rewrite A1, A2, A3, A4, A5, S1, S2, S3, S4, S5, R1, R2, R3, R4, R5,
    T1, T2, T3, T4, T5.
  rewrite !rc_value_test.
  repeat (progress (rewrite ?String.eqb_refl; cbn [dd_update app])).
  cbn [BiasDetector.stats_loop].
  unfold BiasDetector.stat_of_reviewer.
  cbn [BiasDetector.reviewer_sentiments BiasDetector.reviewer_actions
       BiasDetector.reviewer_toxicity BiasDetector.reviewer_blocking_behavior
       dd_get].
  rewrite !String.eqb_refl.
  match goal with
  | |- context [float_truediv_int ?a ?b] =>
      replace (float_truediv_int a b) with (Ok f_m0_5)
        by (vm_compute; reflexivity)
  end.
  cbn [bind].
  match goal with
  | |- context [float_truediv_int ?a ?b] =>
      replace (float_truediv_int a b) with (Ok F.zero)
        by (vm_compute; reflexivity)
  end.
  cbn [bind].
  match goal with
  | |- context [BiasDetector._analyze_blocking_patterns ?l] =>
      destruct (analyze_blocking_patterns_total l) as (ba & -> & Hf & _)
  end.
  cbn [bind].
  replace (len _) with 5 in Hf by reflexivity.
  unfold BiasDetector._determine_treatment_level.
  cbn [BiasDetector.incr BiasDetector.no_actions BiasDetector.approved
       BiasDetector.requested_changes BiasDetector.commented].
  change (0 + 1 + 1 + 1 + 1 + 1) with 5.
  replace (BiasDetector.sum_actions _) with 5 by reflexivity.
  change {| BiasDetector.approved := 0; BiasDetector.requested_changes := 5;
            BiasDetector.commented := 0 |} with scenario_actions.
  rewrite (scenario_composite ba Hf). cbn [bind].
  replace (BiasDetector.level_of_composite (F.dec (-8) 1))
    with {| BiasDetector.level := "Potentially Toxic";
            BiasDetector.color := "#e74c3c" |}
    by (vm_compute; reflexivity).
  rewrite Eps. cbn [bind].
  replace (BiasDetector.guarded_rate 0 5) with (Ok F.zero)
    by (vm_compute; reflexivity).
  cbn [bind].
  replace (BiasDetector.guarded_rate 5 5) with (Ok F.one)
    by (vm_compute; reflexivity).
  cbn [bind map].
  rewrite float_truediv_int_ok by apply len_cons_pos. cbn [bind].
  eexists. eexists. split; [reflexivity|].
  cbn [BiasDetector.reviewer_stats BiasDetector.avg_sentiment
       BiasDetector.avg_toxicity BiasDetector.rs_blocking_analysis
       BiasDetector.treatment BiasDetector.negative_patterns
       BiasDetector.level].
  split; [reflexivity|]. split; [exact (scenario_composite ba Hf)|].
  split; [reflexivity|]. split; assumption.
Qed.

Lemma C2_scenario_witness :
  let cs := [scenario_comment "n1" "This needs work.";
             scenario_comment "n2" "Not like that.";
             scenario_comment "n3" "Redo the cache layer.";
             scenario_comment "n4" "Still not right.";
             scenario_comment "n5" "No."] in
  (forall c, In c cs ->
     author c = "rev"
     /\ mr_author c = "dev_a"
     /\ textblob_score (sentiment c) = f_m0_5
     /\ approval_status c = REQUESTED_CHANGES
     /\ BiasDetector._calculate_toxicity_score (body c) = F.zero
     /\ any_in BiasDetector.pattern_keywords (lower (body c)) = false)
  /\ exists dt st,
      BiasDetector.analyze_developer_treatment cs = Ok [("dev_a", dt)]
      /\ BiasDetector.reviewer_stats dt = [("rev", st)]
      /\ BiasDetector.treatment st = "Potentially Toxic".
Proof.
  intros cs.
  assert (H : forall c, In c cs ->
     author c = "rev"
     /\ mr_author c = "dev_a"
     /\ textblob_score (sentiment c) = f_m0_5
     /\ approval_status c = REQUESTED_CHANGES
     /\ BiasDetector._calculate_toxicity_score (body c) = F.zero
     /\ any_in BiasDetector.pattern_keywords (lower (body c)) = false).
  { intros c [<-|[<-|[<-|[<-|[<-|[]]]]]]; repeat split;
      vm_compute; reflexivity. }
  split; [exact H|].
  destruct (C2_scenario "dev_a" "rev" _ _ _ _ _ H)
    as (dt & st & E1 & E2 & _ & E3 & _).
  exists dt, st. repeat split; assumption.
Defined.

(** Five change requests that read "See the example.": sentiment -0.5,
    toxicity 0, no negative keyword, toxic pattern or personal-attack
    phrase, and none of the constructive keywords or constructive indicators
    of the scores.  The level is Potentially Toxic, but "example" is one of
    the five words the detector looks for, so it does not report blocking
    without constructive feedback. *)
Lemma C2_example_not_flagged :
  forallb
    (fun c =>
       String.eqb (author c) "rev" && String.eqb (mr_author c) "dev_a"
       && same_float (textblob_score (sentiment c)) f_m0_5
       && String.eqb (value (approval_status c)) "requested_changes"
       && same_float (BiasDetector._calculate_toxicity_score (body c)) F.zero
       && (count_in BiasDetector.negative_keywords (lower (body c)) =? 0)
       && (count_in BiasDetector.personal_attacks (lower (body c)) =? 0)
       && (ScoreSpec.how_many (fun p => ScoreSpec.found p (body c))
             ScoreSpec.toxic_word_gaps =? 0)
       && (count_in BiasDetector.constructive_keywords (lower (body c)) =? 0)
       && (count_in BiasDetector.constructive_indicators (lower (body c))
           =? 0)
       && (ScoreSpec.how_many (fun k => ScoreSpec.occurs k (body c))
             ScoreSpec.constructive_terms =? 0)
       && (ScoreSpec.how_many (fun k => ScoreSpec.occurs k (body c))
             ScoreSpec.constructive_words =? 0))%bool
    example_comments = true
  /\ BiasDetector._identify_negative_patterns "rev" example_comments
     = Ok ["Consistently negative sentiment in reviews";
           "Shows nitpicking behavior with short critical comments"]
  /\ scenario_outcome (BiasDetector.analyze_developer_treatment
                         example_comments)
     = Some ("dev_a", "rev", "Potentially Toxic",
             ["Consistently negative sentiment in reviews";
              "Shows nitpicking behavior with short critical comments"]).
Proof. repeat split; vm_compute; reflexivity. Qed.

(** ** Team-wide bias indicators *)

(** C3. Five comments with sentiment -0.25 on one author: the mean, -0.25,
    is not below -0.3, and the only author gives a bias score of 0; yet
    [bias_detector.py] compares the mean with its threshold -0.2, flags the
    author and reports a high overall risk, while rating the author
    itself as medium.  The older [metrics_calculator.py] compares with -0.3
    and flags nobody. *)
Theorem C3_flag_threshold (stdev : list float -> float) :
  Statistics.mean (map (fun c => textblob_score (sentiment c)) mild_comments)
  = Ok (F.dec (-25) 2)
  /\ F.ltb (F.dec (-25) 2) f_m0_3 = false
  /\ BiasDetector.overall_bias_score_of stdev
       (BiasDetector.author_sentiments mild_comments) = Ok F.zero
  /\ BiasDetector.calculate_bias_indicators stdev mild_comments
     = Ok {| BiasDetector.overall_risk := HIGH;
             BiasDetector.specific_risks :=
               ["High bias risk detected for dev_a"];
             BiasDetector.author_analysis :=
               [("dev_a",
                 {| BiasDetector.ae_avg_sentiment := F.dec (-25) 2;
                    BiasDetector.ae_review_count := 5;
                    BiasDetector.sentiment_std :=
                      stdev (map (fun c => textblob_score (sentiment c))
                               mild_comments);
                    BiasDetector.risk_level := MEDIUM;
                    BiasDetector.ae_patterns :=
                      ["Tendency towards negative feedback"] |})];
             BiasDetector.mitigation_strategies :=
               ["Implement anonymous code review processes";
                "Use structured review templates and checklists";
                "Provide bias awareness training for reviewers";
                "Monitor review patterns regularly";
                "Establish clear review guidelines and standards"];
             BiasDetector.sentiment_variance :=
               [("dev_a",
                 {| BiasDetector.mean := F.dec (-25) 2;
                    BiasDetector.std_dev :=
                      stdev (map (fun c => textblob_score (sentiment c))
                               mild_comments);
                    BiasDetector.sample_size := 5 |})] |}
  /\ (exists sv,
        MetricsCalculator.calculate_bias_indicators stdev mild_comments_old
        = Ok {| MetricsCalculator.sentiment_variance := sv;
                MetricsCalculator.potential_bias_targets := [];
                MetricsCalculator.overall_bias_score := F.zero |}).
Proof.
  split; [vm_compute; reflexivity|].
  split; [vm_compute; reflexivity|].
  split; [vm_compute; reflexivity|].
  split; [vm_compute; reflexivity|].
  eexists. vm_compute. reflexivity.
Qed.

(** ** Bias indicators of one developer *)

(** C4. Two reviewers with mean sentiments 0.8 and 0.2: the sentiment range
    computed by the analysis, [0.8 - 0.2], exceeds 0.6, but the analysis
    compares it with [0.4 + 0.2], which in binary64 is the next value above
    0.6 and equals the range; no indicator is raised. *)
Theorem C4_range_threshold :
  exists dt,
    BiasDetector._analyze_individual_developer_treatment "dev_a"
      spread_comments = Ok dt
    /\ map fst (BiasDetector.reviewer_stats dt) = ["alice"; "bob"]
    /\ BiasDetector.sentiment_range dt = F.sub (F.dec 8 1) (F.dec 2 1)
    /\ F.gtb (BiasDetector.sentiment_range dt) f_0_6 = true
    /\ F.gtb (BiasDetector.sentiment_range dt)
         (F.add BiasDetector.sentiment_variance_threshold f_0_2) = false
    /\ F.gtb (F.add BiasDetector.sentiment_variance_threshold f_0_2) f_0_6
       = true
    /\ BiasDetector.bias_indicators dt = []
    /\ BiasDetector.bias_risk dt = LOW.
Proof.
  eexists. split; [vm_compute; reflexivity|].
  repeat split; vm_compute; reflexivity.
Qed.

(** ** The aggregates built by the analysis *)

Lemma len_app_one {A : Type} (l : list A) (x : A) : len (l ++ [x]) = len l + 1.
Proof. unfold len. rewrite length_app. simpl List.length. lia. Qed.

Lemma group_step_actions_ok (g : BiasDetector.groups) (c : ReviewComment) :
  actions_ok g -> actions_ok (BiasDetector.group_step g c).
Proof.
  intros H r. specialize (H r). cbv zeta in H |- *.
  destruct H as (Ha & Hr & Hc & Hl).
  unfold BiasDetector.group_step.
  cbn [BiasDetector.reviewer_actions BiasDetector.reviewer_blocking_behavior].
  destruct (String.eqb (author c) r) eqn:E.
  - apply String.eqb_eq in E. subst r.
    rewrite dd_get_update_same.
    destruct (approval_status c);
      cbn [value BiasDetector.incr BiasDetector.approved
           BiasDetector.requested_changes BiasDetector.commented].
    + change (String.eqb "approved" "requested_changes") with false.
      cbv iota. repeat split; lia.
    + change (String.eqb "requested_changes" "requested_changes") with true.
      cbv iota. rewrite dd_get_update_same, len_app_one.
      repeat split; lia.
    + change (String.eqb "commented" "requested_changes") with false.
      cbv iota. repeat split; lia.
  - rewrite dd_get_update_other by exact E.
    destruct (String.eqb (value (approval_status c)) "requested_changes").
    + rewrite dd_get_update_other by exact E. repeat split; assumption.
    + repeat split; assumption.
Qed.

Lemma group_by_reviewer_actions_ok (comments : list ReviewComment) :
  actions_ok (BiasDetector.group_by_reviewer comments).
Proof.
  unfold BiasDetector.group_by_reviewer.
  assert (G : forall g, actions_ok g ->
                        actions_ok (fold_left BiasDetector.group_step comments g)).
  { induction comments as [|c cs IH]; intros g Hg; cbn [fold_left].
    - exact Hg.
    - apply IH, group_step_actions_ok, Hg. }
  apply G. intros r. cbv zeta.
  cbn [BiasDetector.reviewer_actions BiasDetector.reviewer_blocking_behavior
       dd_get BiasDetector.no_actions BiasDetector.approved
       BiasDetector.requested_changes BiasDetector.commented].
  repeat split; try lia.
Qed.

(** What the analysis hands to the classifier for a reviewer is a reviewer
    aggregate. *)
Lemma analysis_builds_aggregates (comments : list ReviewComment)
  (reviewer : string) :
  let g := BiasDetector.group_by_reviewer comments in
  let acts :=
    dd_get (BiasDetector.reviewer_actions g) reviewer BiasDetector.no_actions in
  exists ba,
    BiasDetector._analyze_blocking_patterns
      (dd_get (BiasDetector.reviewer_blocking_behavior g) reviewer []) = Ok ba
    /\ reviewer_aggregate acts (BiasDetector.sum_actions acts) ba.
Proof.
  intros g acts.
  destruct (analyze_blocking_patterns_total
              (dd_get (BiasDetector.reviewer_blocking_behavior g) reviewer []))
    as (ba & E & Hf & Hk).
  exists ba. split; [exact E|].
  destruct (group_by_reviewer_actions_ok comments reviewer)
    as (Ha & Hr & Hc & Hl).
  fold g in Ha, Hr, Hc, Hl. fold acts in Ha, Hr, Hc, Hl.
  unfold reviewer_aggregate. repeat split; try assumption.
  rewrite Hf. exact Hl.
Qed.

(** ** The indicators of one developer *)

Lemma len_map {A B : Type} (f : A -> B) (l : list A) : len (map f l) = len l.
Proof. unfold len. rewrite length_map. reflexivity. Qed.

(** The indicators are as many as the conditions that hold, so the bias
    risk only depends on that number. *)
Lemma bias_indicators_count (overall range_ : float)
  (stats : dict BiasDetector.reviewer_stat) :
  len (BiasDetector.bias_indicators_of overall range_ stats)
  = count_true
      [ F.ltb overall BiasDetector.negative_sentiment_threshold;
        F.gtb range_ (F.add BiasDetector.sentiment_variance_threshold f_0_2);
        F.gtb
          (F.of_Z (len (filter
                          (fun rs => BiasDetector.mem
                                       (BiasDetector.treatment (snd rs))
                                       BiasDetector.critical_levels) stats)))
          (F.mul (F.of_Z (len stats)) f_0_5);
        existsb (fun rs => F.gtb (BiasDetector.avg_toxicity (snd rs)) f_0_5)
          stats ].
Proof.
  unfold BiasDetector.bias_indicators_of, keys.
  rewrite len_map.
  assert (T : existsb (fun rs => F.gtb (BiasDetector.avg_toxicity (snd rs))
                                   f_0_5) stats
              = match map fst (filter (fun rs =>
                        F.gtb (BiasDetector.avg_toxicity (snd rs)) f_0_5)
                        stats) with
                | [] => false
                | _ :: _ => true
                end).
  { induction stats as [|rs stats IH]; [reflexivity|].
    cbn [existsb filter].
    destruct (F.gtb (BiasDetector.avg_toxicity (snd rs)) f_0_5);
      [reflexivity | exact IH]. }
  rewrite T. clear T.
  destruct (F.ltb overall BiasDetector.negative_sentiment_threshold);
    destruct (F.gtb range_ _);
    destruct (F.gtb _ (F.mul _ f_0_5));
    destruct (map fst (filter (fun rs =>
                 F.gtb (BiasDetector.avg_toxicity (snd rs)) f_0_5) stats));
    reflexivity.
Qed.

Lemma constructive_only_zero (c : nat) :
  (c < 12)%nat -> toxicity_of_counts 0 0 0 (Z.of_nat c) = F.zero.
Proof.
  intros H.
  assert (G : forallb
                (fun c => same_float
                            (toxicity_of_counts 0 0 0 (Z.of_nat c)) F.zero)
                (seq 0 12) = true) by (vm_compute; reflexivity).
  rewrite forallb_forall in G. apply same_float_eq, G, in_seq. lia.
Qed.

Lemma count_in_length (ks : list string) (s : string) :
  count_in ks s = Z.of_nat (List.length (filter (fun k => str_in k s) ks)).
Proof. reflexivity. Qed.

Lemma zero_counts (n p a c : nat) :
  n = 0%nat -> p = 0%nat -> a = 0%nat -> (c < 12)%nat ->
  toxicity_of_counts (Z.of_nat n) (Z.of_nat p) (Z.of_nat a) (Z.of_nat c)
  = F.zero.
Proof.
  intros -> -> -> H. apply constructive_only_zero. exact H.
Qed.

(** A text without negative keyword, toxic pattern or personal-attack phrase
    has toxicity 0, whatever constructive keywords it holds. *)
Lemma no_match_no_toxicity (text : string) :
  count_in BiasDetector.negative_keywords (lower text) = 0 ->
  filter (fun re => re_search re (lower text)) BiasDetector.toxic_patterns
  = [] ->
  count_in BiasDetector.personal_attacks (lower text) = 0 ->
  BiasDetector._calculate_toxicity_score text = F.zero.
Proof.
  intros Hn Hp Ha. rewrite toxicity_counts.
  destruct table_sizes as (_ & _ & _ & Tc).
  rewrite count_in_length in Hn, Ha.
  apply zero_counts.
  - apply Nat2Z.inj. exact Hn.
  - rewrite Hp. reflexivity.
  - apply Nat2Z.inj. exact Ha.
  - apply filter_length_lt, Tc.
Qed.

(** On the comments of the blocking scenario the older detector, which
    tests the constructiveness score of a blocking comment against 40
    instead of looking for constructive keywords, raises "consistently
    negative" and "nitpicking" only. *)
Lemma behavior_analyzer_scenario :
  BehaviorAnalyzer._identify_negative_patterns "rev"
    [scenario_comment_old "This needs work.";
     scenario_comment_old "Not like that.";
     scenario_comment_old "Redo the cache layer.";
     scenario_comment_old "Still not right.";
     scenario_comment_old "No."]
  = Ok ["Consistently negative sentiment in reviews";
        "Shows nitpicking behavior with short critical comments"].
Proof. vm_compute. reflexivity. Qed.

(** The level recorded for a reviewer by the analysis is the level of the
    reference composite of that reviewer's aggregates. *)
Lemma analysis_treatment_level (comments : list ReviewComment)
  (reviewer : string) (sentiments : list float)
  (st : BiasDetector.reviewer_stat) :
  let g := BiasDetector.group_by_reviewer comments in
  let acts :=
    dd_get (BiasDetector.reviewer_actions g) reviewer BiasDetector.no_actions in
  BiasDetector.stat_of_reviewer g comments reviewer sentiments = Ok st ->
  BiasDetector.treatment st
  = TreatmentSpec.level
      (TreatmentSpec.composite (BiasDetector.avg_sentiment st)
         (BiasDetector.avg_toxicity st) acts (BiasDetector.sum_actions acts)
         (BiasDetector.rs_blocking_analysis st)).
Proof.
  intros g acts. unfold BiasDetector.stat_of_reviewer.
  destruct (float_truediv_int (py_sum sentiments) (len sentiments))
    as [s|] ; [cbn [bind] | discriminate].
  destruct (float_truediv_int _ _) as [t|]; [cbn [bind] | discriminate].
  destruct (analysis_builds_aggregates comments reviewer) as (ba & E & Hagg).
  fold g in E, Hagg. fold acts in Hagg. rewrite E. cbn [bind]. fold acts.
  unfold BiasDetector._determine_treatment_level.
  rewrite (composite_score_spec s t acts _ ba Hagg). cbn [bind].
  destruct (BiasDetector._identify_negative_patterns reviewer comments);
    [cbn [bind] | discriminate].
  destruct (BiasDetector.guarded_rate (BiasDetector.approved acts) _);
    [cbn [bind] | discriminate].
  destruct (BiasDetector.guarded_rate (BiasDetector.requested_changes acts) _);
    [cbn [bind] | discriminate].
  intros H. injection H as <-.
  cbn [BiasDetector.treatment BiasDetector.avg_sentiment
       BiasDetector.avg_toxicity BiasDetector.rs_blocking_analysis].
  apply level_of_composite_spec.
Qed.

(** ** Worked values *)

(** The literals, as mantissa and exponent (0.3 is 0x1.3333333333333p-2,
    0.1 is 0x1.999999999999ap-4, and so on). *)
Example literals_binary64 :
  f_0_1 = S754_finite false 7205759403792794 (-56)
  /\ f_0_2 = S754_finite false 7205759403792794 (-55)
  /\ f_0_25 = S754_finite false 4503599627370496 (-54)
  /\ f_0_3 = S754_finite false 5404319552844595 (-54)
  /\ f_0_4 = S754_finite false 7205759403792794 (-54)
  /\ f_0_5 = S754_finite false 4503599627370496 (-53)
  /\ f_0_6 = S754_finite false 5404319552844595 (-53)
  /\ f_0_7 = S754_finite false 6305039478318694 (-53)
  /\ F.add f_0_4 f_0_2 = S754_finite false 5404319552844596 (-53)
  /\ F.sub (F.dec 8 1) (F.dec 2 1) = S754_finite false 5404319552844596 (-53).
Proof. repeat split. Qed.

Example lower_example : lower "Bad CODE [Z]@`{" = "bad code [z]@`{".
Proof. reflexivity. Qed.

Example str_in_examples :
  str_in "you're" "i think you're right" = true
  /\ str_in "try" "poetry" = true
  /\ str_in "how about" "how  about" = false.
Proof. repeat split. Qed.

(** [\bbad\b.*\bcode\b]: both words must stand alone, on one line. *)
Example toxic_pattern_examples :
  let bad_code := nth 0 BiasDetector.toxic_patterns [] in
  let what_wrong_you := nth 4 BiasDetector.toxic_patterns [] in
  re_search bad_code "this is bad, really bad code!" = true
  /\ re_search bad_code "badly written code" = false
  /\ re_search bad_code "bad_code" = false
  /\ re_search bad_code ("bad" ++ String (ascii_of_nat 10) "code")%string
     = false
  /\ re_search what_wrong_you "whatever is wrongly done by you?" = true
  /\ re_search what_wrong_you "what the... wrong_you" = false.
Proof. repeat split. Qed.

(** "horrible" stands twice in the keyword table and counts twice. *)
Example toxicity_examples :
  BiasDetector._calculate_toxicity_score "Horrible." = f_0_4
  /\ BiasDetector._calculate_toxicity_score "This is BAD, really bad code!"
     = f_0_3
  /\ BiasDetector._calculate_toxicity_score
       "Horrible and stupid; you're lazy" = F.one
  /\ BiasDetector._assess_constructiveness
       "you made a terrible, awful, horrible, stupid, dumb mess" = 20.
Proof. repeat split; vm_compute; reflexivity. Qed.

(** The reference scores on such texts: capitals are ignored, a pattern
    needs whole words and does not reach over a line break. *)
Example reference_examples :
  ScoreSpec.toxicity "Excellent work, consider refactoring" = F.zero
  /\ ScoreSpec.toxicity "Horrible." = f_0_4
  /\ ScoreSpec.toxicity "This is BAD, really bad code!" = f_0_3
  /\ ScoreSpec.toxicity "What is wrong with you?" = f_0_3
  /\ ScoreSpec.toxicity "badly written code" = F.zero
  /\ ScoreSpec.toxicity ("bad" ++ String ScoreSpec.line_break "code")
     = F.zero
  /\ ScoreSpec.toxicity "Horrible and stupid; you're lazy" = F.one
  /\ ScoreSpec.constructiveness "Excellent work, consider refactoring" = 55
  /\ ScoreSpec.constructiveness
       "you made a terrible, awful, horrible, stupid, dumb mess" = 20
  /\ ScoreSpec.constructiveness "See HTTPS://example.org" = 75.
Proof. repeat split; vm_compute; reflexivity. Qed.

(** ** The order of binary64 values *)

Ltac order_cases :=
  repeat match goal with
         | H : context [PosDef.Pos.compare_cont Eq ?a ?b] |- _ =>
             change (PosDef.Pos.compare_cont Eq a b) with (Pos.compare a b)
               in H
         | |- context [PosDef.Pos.compare_cont Eq ?a ?b] =>
             change (PosDef.Pos.compare_cont Eq a b) with (Pos.compare a b)
         | H : context [Z.compare ?a ?b] |- _ =>
             destruct (Z.compare_spec a b)
         | |- context [Z.compare ?a ?b] =>
             destruct (Z.compare_spec a b)
         | H : context [Pos.compare ?a ?b] |- _ =>
             destruct (Pos.compare_spec a b)
         | |- context [Pos.compare ?a ?b] =>
             destruct (Pos.compare_spec a b)
         end;
  simpl in *; try congruence; try lia.

(** [<] is transitive on all values, NaN and infinities included. *)
Lemma ltb_trans (x y z : float) :
  F.ltb x y = true -> F.ltb y z = true -> F.ltb x z = true.
Proof.
  unfold F.ltb, SFltb, SFcompare.
  destruct x as [[]|[]| |[] mx ex], y as [[]|[]| |[] my ey],
    z as [[]|[]| |[] mz ez];
    try discriminate; try reflexivity;
    intros H1 H2; order_cases.
Qed.

Lemma leb_trans (x y z : float) :
  F.leb x y = true -> F.leb y z = true -> F.leb x z = true.
Proof.
  unfold F.leb, SFleb, SFcompare.
  destruct x as [[]|[]| |[] mx ex], y as [[]|[]| |[] my ey],
    z as [[]|[]| |[] mz ez];
    try discriminate; try reflexivity;
    intros H1 H2; order_cases.
Qed.

Lemma ltb_leb_trans (x y z : float) :
  F.ltb x y = true -> F.leb y z = true -> F.ltb x z = true.
Proof.
  unfold F.ltb, F.leb, SFltb, SFleb, SFcompare.
  destruct x as [[]|[]| |[] mx ex], y as [[]|[]| |[] my ey],
    z as [[]|[]| |[] mz ez];
    try discriminate; try reflexivity;
    intros H1 H2; order_cases.
Qed.

Lemma leb_ltb_trans (x y z : float) :
  F.leb x y = true -> F.ltb y z = true -> F.ltb x z = true.
Proof.
  unfold F.ltb, F.leb, SFltb, SFleb, SFcompare.
  destruct x as [[]|[]| |[] mx ex], y as [[]|[]| |[] my ey],
    z as [[]|[]| |[] mz ez];
    try discriminate; try reflexivity;
    intros H1 H2; order_cases.
Qed.

(** [<] and [>=] exclude each other. *)
Lemma ltb_not_geb (x y : float) : F.ltb x y = true -> F.geb x y = false.
Proof.
  unfold F.geb, F.ltb, F.leb, SFltb, SFleb, SFcompare.
  destruct x as [[]|[]| |[] mx ex], y as [[]|[]| |[] my ey];
    try discriminate; try reflexivity;
    intros H1; order_cases.
Qed.

(** ** Treatment levels and communication styles are monotone *)

(** A composite that is not smaller never gets a worse level. *)
Theorem level_of_composite_monotone (c1 c2 : float) :
  F.leb c1 c2 = true ->
  level_rank (BiasDetector.level (BiasDetector.level_of_composite c1))
  <= level_rank (BiasDetector.level (BiasDetector.level_of_composite c2)).
Proof.
  intros H.
  assert (M : forall t, F.geb c1 t = true -> F.geb c2 t = true).
  { intros t Ht. unfold F.geb in *. exact (leb_trans t c1 c2 Ht H). }
  unfold BiasDetector.level_of_composite.
  destruct (F.geb c1 f_0_3) eqn:E1; [rewrite (M _ E1)|];
    [vm_compute; discriminate|].
  destruct (F.geb c2 f_0_3); [destruct (F.geb c1 f_0_1), (F.geb c1 f_m0_1),
    (F.geb c1 f_m0_3), (F.geb c1 f_m0_5); vm_compute; discriminate|].
  destruct (F.geb c1 f_0_1) eqn:E2; [rewrite (M _ E2)|];
    [vm_compute; discriminate|].
  destruct (F.geb c2 f_0_1); [destruct (F.geb c1 f_m0_1),
    (F.geb c1 f_m0_3), (F.geb c1 f_m0_5); vm_compute; discriminate|].
  destruct (F.geb c1 f_m0_1) eqn:E3; [rewrite (M _ E3)|];
    [vm_compute; discriminate|].
  destruct (F.geb c2 f_m0_1); [destruct (F.geb c1 f_m0_3),
    (F.geb c1 f_m0_5); vm_compute; discriminate|].
  destruct (F.geb c1 f_m0_3) eqn:E4; [rewrite (M _ E4)|];
    [vm_compute; discriminate|].
  destruct (F.geb c2 f_m0_3); [destruct (F.geb c1 f_m0_5);
    vm_compute; discriminate|].
  destruct (F.geb c1 f_m0_5) eqn:E5; [rewrite (M _ E5)|];
    [vm_compute; discriminate|].
  destruct (F.geb c2 f_m0_5); vm_compute; discriminate.
Qed.

Lemma level_of_composite_monotone_witness :
  F.leb f_m0_5 f_0_1 = true
  /\ level_rank (BiasDetector.level (BiasDetector.level_of_composite f_m0_5))
     <= level_rank (BiasDetector.level (BiasDetector.level_of_composite f_0_1)).
Proof.
  assert (H : F.leb f_m0_5 f_0_1 = true) by reflexivity.
  split; [exact H | exact (level_of_composite_monotone f_m0_5 f_0_1 H)].
Defined.

(** More positive sentiment together with less toxicity never gives a worse
    communication style. *)
Theorem communication_style_monotone (s1 s2 t1 t2 : float) :
  F.leb s1 s2 = true -> F.leb t2 t1 = true ->
  style_rank (BiasDetector.style_of_averages s1 t1)
  <= style_rank (BiasDetector.style_of_averages s2 t2).
Proof.
  intros Hs Ht.
  assert (M : forall a b,
             F.gtb s1 a && F.ltb t1 b = true ->
             F.gtb s2 a && F.ltb t2 b = true).
  { intros a b Hab. apply andb_prop in Hab. destruct Hab as [Ha Hb].
    unfold F.gtb in *.
    rewrite (ltb_leb_trans a s1 s2 Ha Hs), (leb_ltb_trans t2 t1 b Ht Hb).
    reflexivity. }
  unfold BiasDetector.style_of_averages.
  destruct (F.gtb s1 f_0_2 && F.ltb t1 f_0_2) eqn:E1; [rewrite (M _ _ E1)|];
    [vm_compute; discriminate|].
  destruct (F.gtb s2 f_0_2 && F.ltb t2 f_0_2);
    [destruct (F.gtb s1 F.zero && F.ltb t1 f_0_3),
       (F.gtb s1 f_m0_2 && F.ltb t1 f_0_4),
       (F.gtb s1 f_m0_4 && F.ltb t1 f_0_6); vm_compute; discriminate|].
  destruct (F.gtb s1 F.zero && F.ltb t1 f_0_3) eqn:E2; [rewrite (M _ _ E2)|];
    [vm_compute; discriminate|].
  destruct (F.gtb s2 F.zero && F.ltb t2 f_0_3);
    [destruct (F.gtb s1 f_m0_2 && F.ltb t1 f_0_4),
       (F.gtb s1 f_m0_4 && F.ltb t1 f_0_6); vm_compute; discriminate|].
  destruct (F.gtb s1 f_m0_2 && F.ltb t1 f_0_4) eqn:E3;
    [rewrite (M _ _ E3)|]; [vm_compute; discriminate|].
  destruct (F.gtb s2 f_m0_2 && F.ltb t2 f_0_4);
    [destruct (F.gtb s1 f_m0_4 && F.ltb t1 f_0_6);
     vm_compute; discriminate|].
  destruct (F.gtb s1 f_m0_4 && F.ltb t1 f_0_6) eqn:E4;
    [rewrite (M _ _ E4)|]; [vm_compute; discriminate|].
  destruct (F.gtb s2 f_m0_4 && F.ltb t2 f_0_6); vm_compute; discriminate.
Qed.

Lemma communication_style_monotone_witness :
  F.leb f_m0_5 f_0_3 = true /\ F.leb f_0_1 f_0_5 = true
  /\ style_rank (BiasDetector.style_of_averages f_m0_5 f_0_5)
     <= style_rank (BiasDetector.style_of_averages f_0_3 f_0_1).
Proof.
  assert (H1 : F.leb f_m0_5 f_0_3 = true) by reflexivity.
  assert (H2 : F.leb f_0_1 f_0_5 = true) by reflexivity.
  split; [exact H1|]. split; [exact H2|].
  exact (communication_style_monotone f_m0_5 f_0_3 f_0_5 f_0_1 H1 H2).
Defined.

(** An average toxicity that is not below 0.6 gives the harshest style
    whatever the sentiment is (also when the average is undefined). *)
Theorem communication_style_toxic (s t : float) :
  F.ltb t f_0_6 = false ->
  BiasDetector.style_of_averages s t = "Harsh & Potentially Problematic".
Proof.
  intros H.
  assert (N : forall b, F.ltb b f_0_6 = true -> F.ltb t b = false).
  { intros b Hb. destruct (F.ltb t b) eqn:E; [|reflexivity].
    rewrite (ltb_trans t b f_0_6 E Hb) in H. discriminate. }
  unfold BiasDetector.style_of_averages.
  rewrite (N f_0_2), (N f_0_3), (N f_0_4), H by reflexivity.
  rewrite !andb_false_r. reflexivity.
Qed.

Lemma communication_style_toxic_witness :
  F.ltb f_0_7 f_0_6 = false
  /\ BiasDetector.style_of_averages f_0_5 f_0_7
     = "Harsh & Potentially Problematic".
Proof.
  assert (H : F.ltb f_0_7 f_0_6 = false) by reflexivity.
  split; [exact H | exact (communication_style_toxic f_0_5 f_0_7 H)].
Defined.

(** The style function of [bias_detector.py] returns for every input, and
    gives "Direct & Factual" when there is nothing to average; the copy in
    [behavior_analyzer.py] raises [ZeroDivisionError] exactly when one of
    the two lists is empty, and agrees otherwise. *)
Theorem communication_style_guard (sentiments toxicity_scores : list float) :
  raises (BiasDetector._determine_communication_style sentiments
            toxicity_scores) = false
  /\ BiasDetector._determine_communication_style [] [] = Ok "Direct & Factual"
  /\ BehaviorAnalyzer._determine_communication_style sentiments
       toxicity_scores
     = match sentiments, toxicity_scores with
       | _ :: _, _ :: _ =>
           BiasDetector._determine_communication_style sentiments
             toxicity_scores
       | _, _ => Raise ZeroDivisionError
       end.
Proof.
  split; [|split; [reflexivity|]].
  - unfold BiasDetector._determine_communication_style,
      BiasDetector.guarded_average.
    destruct sentiments as [|s ss], toxicity_scores as [|t ts];
      rewrite ?float_truediv_int_ok by apply len_cons_pos; reflexivity.
  - unfold BehaviorAnalyzer._determine_communication_style,
      BiasDetector._determine_communication_style,
      BiasDetector.guarded_average.
    destruct sentiments as [|s ss], toxicity_scores as [|t ts];
      reflexivity.
Qed.

(** ** Grouping loops *)

Lemma keys_dd_update_in {V : Type} (d : dict V) (k : string) (dflt : V)
  (f : V -> V) :
  In k (keys d) -> keys (dd_update d k dflt f) = keys d.
Proof.
  unfold keys. induction d as [|[k0 v] d IH]; intros H; [contradiction|].
  cbn [dd_update]. destruct (String.eqb k0 k) eqn:E; [reflexivity|].
  cbn [map fst]. f_equal. apply IH. destruct H as [H|H]; [|exact H].
  cbn [fst] in H. subst k0. rewrite String.eqb_refl in E. discriminate.
Qed.

Lemma keys_dd_update_new {V : Type} (d : dict V) (k : string) (dflt : V)
  (f : V -> V) :
  ~ In k (keys d) -> keys (dd_update d k dflt f) = keys d ++ [k].
Proof.
  unfold keys. induction d as [|[k0 v] d IH]; intros H; [reflexivity|].
  cbn [dd_update]. destruct (String.eqb k0 k) eqn:E.
  - apply String.eqb_eq in E. subst k0. exfalso. apply H. left. reflexivity.
  - cbn [map fst app]. f_equal. apply IH. intros Hin. apply H. right.
    exact Hin.
Qed.

Lemma keys_dd_update_iff {V : Type} (d : dict V) (k k' : string) (dflt : V)
  (f : V -> V) :
  In k' (keys (dd_update d k dflt f)) <-> In k' (keys d) \/ k' = k.
Proof.
  destruct (in_dec string_dec k (keys d)) as [Hin|Hnin].
  - rewrite keys_dd_update_in by exact Hin. split; [auto|].
    intros [H| ->]; assumption.
  - rewrite keys_dd_update_new by exact Hnin. rewrite in_app_iff.
    cbn [In]. split; intros [H|H]; auto.
    + destruct H as [H|[]]. auto.
Qed.

Lemma NoDup_keys_dd_update {V : Type} (d : dict V) (k : string) (dflt : V)
  (f : V -> V) :
  NoDup (keys d) -> NoDup (keys (dd_update d k dflt f)).
Proof.
  intros H. destruct (in_dec string_dec k (keys d)) as [Hin|Hnin].
  - rewrite keys_dd_update_in by exact Hin. exact H.
  - rewrite keys_dd_update_new by exact Hnin.
    apply NoDup_app; [exact H | repeat constructor; intros [] |].
    intros x Hx [Hk|[]]. subst x. contradiction.
Qed.

Lemma total_len_dd_update {V : Type} (d : dict (list V)) (k : string)
  (x : V) :
  total_len (dd_update d k [] (fun l => l ++ [x])) = total_len d + 1.
Proof.
  unfold total_len, sum_Z. induction d as [|[k0 v] d IH]; cbn [dd_update].
  - reflexivity.
  - destruct (String.eqb k0 k); cbn [map fold_right snd].
    + rewrite len_app_one. lia.
    + rewrite IH. lia.
Qed.

Lemma dd_get_unique {V : Type} (d : dict V) (k : string) (v dflt : V) :
  NoDup (keys d) -> In (k, v) d -> dd_get d k dflt = v.
Proof.
  unfold keys. induction d as [|[k0 v0] d IH]; intros Hnd Hin; [contradiction|].
  cbn [dd_get]. cbn [map fst] in Hnd. inversion Hnd as [|? ? Hnotin Hnd']; subst.
  destruct Hin as [Hin|Hin].
  - injection Hin as -> ->. rewrite String.eqb_refl. reflexivity.
  - destruct (String.eqb k0 k) eqn:E.
    + apply String.eqb_eq in E. subst k0. exfalso. apply Hnotin.
      apply (in_map fst) in Hin. exact Hin.
    + apply IH; assumption.
Qed.

Section Grouping.

Context {A V : Type} (key : A -> string) (val : A -> V).

Lemma grouped_cons (c : A) (items : list A) (d : dict (list V)) :
  grouped key val (c :: items) d
  = grouped key val items (dd_update d (key c) [] (fun l => l ++ [val c])).
Proof. reflexivity. Qed.

Lemma grouped_NoDup (items : list A) (d : dict (list V)) :
  NoDup (keys d) -> NoDup (keys (grouped key val items d)).
Proof.
  revert d. induction items as [|c items IH]; intros d H; [exact H|].
  rewrite grouped_cons. apply IH, NoDup_keys_dd_update, H.
Qed.

Lemma grouped_keys (items : list A) (d : dict (list V)) (k : string) :
  In k (keys (grouped key val items d))
  <-> In k (keys d) \/ exists c, In c items /\ key c = k.
Proof.
  revert d. induction items as [|c items IH]; intros d.
  - cbn. split; [auto|]. intros [H|(c & [] & _)]. exact H.
  - rewrite grouped_cons, IH, keys_dd_update_iff. split.
    + intros [[H| ->]|(c' & Hin & E)]; auto.
      * right. exists c. split; [left|]; reflexivity.
      * right. exists c'. split; [right|]; assumption.
    + intros [H|(c' & [<-|Hin] & E)]; auto.
      right. exists c'. split; assumption.
Qed.

Lemma grouped_total_len (items : list A) (d : dict (list V)) :
  total_len (grouped key val items d) = total_len d + len items.
Proof.
  revert d. induction items as [|c items IH]; intros d.
  - unfold grouped. cbn [fold_left]. change (len (@nil A)) with 0. lia.
  - rewrite grouped_cons, IH, total_len_dd_update.
    change (len (c :: items)) with (Z.of_nat (S (List.length items))).
    unfold len. lia.
Qed.

Lemma grouped_get (items : list A) (d : dict (list V)) (k : string) :
  dd_get (grouped key val items d) k []
  = dd_get d k []
    ++ map val (filter (fun c => String.eqb (key c) k) items).
Proof.
  revert d. induction items as [|c items IH]; intros d.
  - cbn. rewrite app_nil_r. reflexivity.
  - rewrite grouped_cons, IH. cbn [filter].
    destruct (String.eqb (key c) k) eqn:E.
    + apply String.eqb_eq in E. subst k. rewrite dd_get_update_same.
      cbn [map]. rewrite <- app_assoc. reflexivity.
    + rewrite dd_get_update_other by exact E. reflexivity.
Qed.

End Grouping.

(** ** Review counts are conserved by the per-developer analysis *)

Lemma reviewer_sentiments_grouped (comments : list ReviewComment)
  (g : BiasDetector.groups) :
  BiasDetector.reviewer_sentiments (fold_left BiasDetector.group_step comments g)
  = grouped author (fun c => textblob_score (sentiment c)) comments
      (BiasDetector.reviewer_sentiments g).
Proof.
  revert g. induction comments as [|c cs IH]; intros g; [reflexivity|].
  cbn [fold_left]. rewrite IH. reflexivity.
Qed.

Lemma stat_of_reviewer_count (g : BiasDetector.groups)
  (comments : list ReviewComment) (reviewer : string)
  (sentiments : list float) (st : BiasDetector.reviewer_stat) :
  BiasDetector.stat_of_reviewer g comments reviewer sentiments = Ok st ->
  BiasDetector.review_count st = len sentiments.
Proof.
  unfold BiasDetector.stat_of_reviewer.
  repeat match goal with
         | |- bind ?r _ = Ok _ -> _ =>
             destruct r; cbn [bind]; [|discriminate]
         end.
  intros H. injection H as <-. reflexivity.
Qed.

Lemma stats_loop_shape (g : BiasDetector.groups)
  (comments : list ReviewComment) (items : dict (list float))
  (sts : dict BiasDetector.reviewer_stat) :
  BiasDetector.stats_loop g comments items = Ok sts ->
  Forall2 (fun rs kv => fst rs = fst kv
                        /\ BiasDetector.review_count (snd rs) = len (snd kv))
    sts items.
Proof.
  revert sts. induction items as [|[r sents] items IH]; intros sts;
    cbn [BiasDetector.stats_loop].
  - intros H. injection H as <-. constructor.
  - destruct (BiasDetector.stat_of_reviewer g comments r sents) as [st|]
      eqn:E; cbn [bind]; [|discriminate].
    destruct (BiasDetector.stats_loop g comments items) as [rest|];
      cbn [bind]; [|discriminate].
    intros H. injection H as <-. constructor.
    + split; [reflexivity | exact (stat_of_reviewer_count _ _ _ _ _ E)].
    + apply IH. reflexivity.
Qed.

Lemma Forall2_keys {X Y : Type} (P : X -> Y -> Prop) (xs : dict X)
  (ys : dict Y) :
  Forall2 (fun a b => fst a = fst b /\ P (snd a) (snd b)) xs ys ->
  keys xs = keys ys.
Proof.
  unfold keys. induction 1 as [|a b xs ys [E _] _ IH]; [reflexivity|].
  cbn [map]. rewrite E, IH. reflexivity.
Qed.

Lemma Forall2_total (sts : dict BiasDetector.reviewer_stat)
  (items : dict (list float)) :
  Forall2 (fun rs kv => fst rs = fst kv
                        /\ BiasDetector.review_count (snd rs) = len (snd kv))
    sts items ->
  sum_Z (map (fun rs => BiasDetector.review_count (snd rs)) sts)
  = total_len items.
Proof.
  unfold total_len, sum_Z.
  induction 1 as [|a b xs ys [_ E] _ IH]; [reflexivity|].
  cbn [map fold_right]. rewrite E, IH. reflexivity.
Qed.

Lemma Forall2_entry (sts : dict BiasDetector.reviewer_stat)
  (items : dict (list float)) (r : string) (st : BiasDetector.reviewer_stat) :
  Forall2 (fun rs kv => fst rs = fst kv
                        /\ BiasDetector.review_count (snd rs) = len (snd kv))
    sts items ->
  In (r, st) sts ->
  exists sents, In (r, sents) items
                /\ BiasDetector.review_count st = len sents.
Proof.
  induction 1 as [|a [k v] xs ys [E1 E2] _ IH]; intros Hin; [contradiction|].
  destruct Hin as [Hin|Hin].
  - subst a. cbn [fst snd] in E1, E2. subst k. exists v. split;
      [left; reflexivity | exact E2].
  - destruct (IH Hin) as (sents & H1 & H2). exists sents. split;
      [right; exact H1 | exact H2].
Qed.

(** The analysis of one developer returns for every comment list; its
    reviewer statistics have one entry per author of a comment, without
    repetition; the review count of a reviewer is the number of that
    reviewer's comments; and the review counts add up to the total number of
    reviews, which is the number of comments. *)
Theorem developer_review_counts (developer : string)
  (comments : list ReviewComment) :
  exists dt,
    BiasDetector._analyze_individual_developer_treatment developer comments
    = Ok dt
    /\ BiasDetector.developer_name dt = developer
    /\ BiasDetector.total_reviews dt = len comments
    /\ NoDup (keys (BiasDetector.reviewer_stats dt))
    /\ (forall r, In r (keys (BiasDetector.reviewer_stats dt))
                  <-> exists c, In c comments /\ author c = r)
    /\ (forall r st,
          In (r, st) (BiasDetector.reviewer_stats dt) ->
          BiasDetector.review_count st
          = len (filter (fun c => String.eqb (author c) r) comments))
    /\ sum_Z (map (fun rs => BiasDetector.review_count (snd rs))
                (BiasDetector.reviewer_stats dt))
       = BiasDetector.total_reviews dt.
Proof.
  pose proof (analyze_individual_total developer comments) as [dt E].
  exists dt. split; [exact E|].
  unfold BiasDetector._analyze_individual_developer_treatment in E.
  destruct (BiasDetector.stats_loop _ comments _) as [sts|] eqn:Es;
    cbn [bind] in E; [|discriminate].
  apply stats_loop_shape in Es.
  unfold BiasDetector.group_by_reviewer in Es.
  rewrite reviewer_sentiments_grouped in Es.
  cbn [BiasDetector.reviewer_sentiments] in Es.
  set (items := grouped author (fun c => textblob_score (sentiment c))
                  comments []) in Es.
  assert (Hnd : NoDup (keys items)) by (apply grouped_NoDup; constructor).
  assert (F : BiasDetector.developer_name dt = developer
              /\ BiasDetector.total_reviews dt = len comments
              /\ BiasDetector.reviewer_stats dt = sts).
  { destruct (match map (fun c => textblob_score (sentiment c)) comments with
              | [] => Ok F.zero
              | _ :: _ => _
              end) as [o|]; cbn [bind] in E; [|discriminate].
    destruct sts; injection E as <-; repeat split. }
  destruct F as (F1 & F2 & F3). rewrite F3, F2.
  split; [exact F1|]. split; [reflexivity|].
  rewrite (Forall2_keys
             (fun st sents => BiasDetector.review_count st = len sents)
             sts items Es).
  split; [exact Hnd|]. split; [|split].
  - intros r. unfold items. rewrite grouped_keys. cbn [keys map In].
    split; [intros [[]|H]; exact H | auto].
  - intros r st Hin.
    destruct (Forall2_entry _ _ _ _ Es Hin) as (sents & H1 & H2).
    rewrite H2. rewrite <- (dd_get_unique items r sents [] Hnd H1).
    unfold items. rewrite grouped_get. cbn [dd_get app]. apply len_map.
  - rewrite (Forall2_total _ _ Es). unfold items.
    rewrite grouped_total_len. reflexivity.
Qed.

(** ** Every comment is analysed under exactly one developer *)

Lemma analyze_individual_header (developer : string)
  (comments : list ReviewComment) (dt : BiasDetector.DeveloperTreatment) :
  BiasDetector._analyze_individual_developer_treatment developer comments
  = Ok dt ->
  BiasDetector.developer_name dt = developer
  /\ BiasDetector.total_reviews dt = len comments.
Proof.
  unfold BiasDetector._analyze_individual_developer_treatment.
  destruct (BiasDetector.stats_loop _ comments _) as [sts|];
    cbn [bind]; [|discriminate].
  destruct (match map (fun c => textblob_score (sentiment c)) comments with
            | [] => Ok F.zero
            | _ :: _ => _
            end) as [o|]; cbn [bind]; [|discriminate].
  destruct sts; intros E; injection E as <-; split; reflexivity.
Qed.

Lemma analyze_groups_shape (items : dict (list ReviewComment)) :
  exists da,
    BiasDetector.analyze_groups items = Ok da
    /\ Forall2 (fun a kv =>
                  fst a = fst kv
                  /\ (BiasDetector.developer_name (snd a) = fst kv
                      /\ BiasDetector.total_reviews (snd a) = len (snd kv)))
         da items.
Proof.
  induction items as [|[developer dev_comments] items (rest & E & IH)];
    cbn [BiasDetector.analyze_groups].
  - exists []. split; [reflexivity | constructor].
  - destruct (analyze_individual_total developer dev_comments) as [dt Ed].
    rewrite Ed, E. cbn [bind]. eexists. split; [reflexivity|].
    constructor; [|exact IH].
    cbn [fst snd]. split; [reflexivity|].
    exact (analyze_individual_header _ _ _ Ed).
Qed.

(** The developer analysis returns for every list of comments.  Its keys are
    the merge-request authors of the comments, each once; the entry of a
    developer carries that developer's name and counts exactly the comments
    on that developer's merge requests; the counts add up to the number of
    comments. *)
Theorem developer_analysis_partition (all_comments : list ReviewComment) :
  exists da,
    BiasDetector.analyze_developer_treatment all_comments = Ok da
    /\ NoDup (keys da)
    /\ (forall d, In d (keys da)
                  <-> exists c, In c all_comments /\ mr_author c = d)
    /\ (forall d dt,
          In (d, dt) da ->
          BiasDetector.developer_name dt = d
          /\ BiasDetector.total_reviews dt
             = len (filter (fun c => String.eqb (mr_author c) d)
                      all_comments))
    /\ sum_Z (map (fun a => BiasDetector.total_reviews (snd a)) da)
       = len all_comments.
Proof.
  unfold BiasDetector.analyze_developer_treatment.
  change (BiasDetector.comments_by_developer all_comments)
    with (grouped mr_author (fun c : ReviewComment => c) all_comments []).
  set (items := grouped mr_author (fun c : ReviewComment => c)
                  all_comments []).
  destruct (analyze_groups_shape items) as (da & E & Sh).
  exists da. split; [exact E|].
  assert (Hnd : NoDup (keys items)) by (apply grouped_NoDup; constructor).
  assert (Hk : keys da = keys items).
  { clear - Sh. unfold keys.
    induction Sh as [|a b xs ys [Ek _] _ IH]; [reflexivity|].
    cbn [map]. rewrite Ek, IH. reflexivity. }
  rewrite Hk. split; [exact Hnd|]. split; [|split].
  - intros d. unfold items. rewrite grouped_keys. cbn [keys map In].
    split; [intros [[]|H]; exact H | auto].
  - intros d dt Hin.
    assert (Hex : exists cs, In (d, cs) items
                             /\ BiasDetector.developer_name dt = d
                             /\ BiasDetector.total_reviews dt = len cs).
    { clear - Sh Hin.
      induction Sh as [|a [k v] xs ys (E1 & E2 & E3) _ IH];
        [contradiction|].
      destruct Hin as [Hin|Hin].
      - subst a. cbn [fst snd] in E1, E2, E3. rewrite <- E1 in E2 |- *.
        exists v. split; [left; reflexivity | split; [exact E2|exact E3]].
      - destruct (IH Hin) as (cs & H1 & H2). exists cs.
        split; [right; exact H1 | exact H2]. }
    destruct Hex as (cs & H1 & H2 & H3). split; [exact H2|].
    rewrite H3. rewrite <- (dd_get_unique items d cs [] Hnd H1).
    unfold items. rewrite grouped_get. cbn [dd_get app].
    rewrite map_id. reflexivity.
  - assert (Ht : sum_Z (map (fun a => BiasDetector.total_reviews (snd a)) da)
                 = total_len items).
    { clear - Sh. unfold total_len, sum_Z.
      induction Sh as [|a b xs ys (_ & _ & E3) _ IH]; [reflexivity|].
      cbn [map fold_right]. rewrite E3, IH. reflexivity. }
    rewrite Ht. unfold items. rewrite grouped_total_len. reflexivity.
Qed.

(** ** Signs of rounded products *)

Lemma binary_round_aux_sign (prec emax : Z) (s : bool) (m e : Z)
  (l : location) :
  match binary_round_aux prec emax s m e l with
  | S754_zero s' | S754_infinity s' | S754_finite s' _ _ => s' = s
  | S754_nan => True
  end.
Proof.
  unfold binary_round_aux.
  destruct (shr_fexp prec emax m e l) as [mrs' e'].
  destruct (shr_fexp prec emax _ e' loc_Exact) as [mrs'' e''].
  destruct (shr_m mrs''); [reflexivity | | exact I].
  destruct (e'' <=? emax - prec); reflexivity.
Qed.

Lemma of_Z_not_negative (n : Z) : 0 <= n -> not_negative (F.of_Z n).
Proof.
  intros H. destruct n as [|p|p]; [exact I | | lia].
  unfold F.of_Z, binary_normalize, binary_round.
  destruct (shl_align p 0 _) as [mz ez].
  pose proof (binary_round_aux_sign F.prec F.emax false (Zpos mz) ez loc_Exact)
    as G.
  destruct (binary_round_aux F.prec F.emax false (Zpos mz) ez loc_Exact);
    try exact I; exact G.
Qed.

Lemma mul_not_negative (x : float) (m : positive) (e : Z) :
  not_negative x -> not_negative (F.mul x (S754_finite false m e)).
Proof.
  intros H. destruct x as [s| s | |s mx ex]; try exact I.
  - cbn in H. subst s. reflexivity.
  - cbn in H. subst s. unfold F.mul, SFmul. cbv [xorb].
    pose proof (binary_round_aux_sign F.prec F.emax false
                  (Zpos (mx * m)) (ex + e) loc_Exact) as G.
    destruct (binary_round_aux F.prec F.emax false (Zpos (mx * m)) (ex + e)
                loc_Exact); try exact I; exact G.
Qed.

Lemma zero_not_above (x : float) :
  not_negative x -> F.gtb (S754_zero false) x = false.
Proof.
  destruct x as [s|s| |s m e]; cbn; intros H; try subst s; reflexivity.
Qed.

Lemma no_count_above_share (n : Z) (m : positive) (e : Z) :
  0 <= n ->
  F.gtb (F.of_Z 0) (F.mul (F.of_Z n) (S754_finite false m e)) = false.
Proof.
  intros H. apply zero_not_above, mul_not_negative, of_Z_not_negative, H.
Qed.

(** ** Counting loops *)

Section Counting.

Context {A : Type} (key : A -> string).

Lemma counted_cons (c : A) (items : list A) (d : dict Z) :
  counted key (c :: items) d
  = counted key items (dd_update d (key c) 0 (fun n => n + 1)).
Proof. reflexivity. Qed.

Lemma counted_NoDup (items : list A) (d : dict Z) :
  NoDup (keys d) -> NoDup (keys (counted key items d)).
Proof.
  revert d. induction items as [|c items IH]; intros d H; [exact H|].
  rewrite counted_cons. apply IH, NoDup_keys_dd_update, H.
Qed.

Lemma counted_get (items : list A) (d : dict Z) (k : string) :
  dd_get (counted key items d) k 0
  = dd_get d k 0 + len (filter (fun c => String.eqb (key c) k) items).
Proof.
  revert d. induction items as [|c items IH]; intros d.
  - cbn. lia.
  - rewrite counted_cons, IH. cbn [filter].
    destruct (String.eqb (key c) k) eqn:E.
    + apply String.eqb_eq in E. subst k. rewrite dd_get_update_same.
      change (len (c :: ?l)) with (Z.of_nat (S (List.length l))).
      unfold len. lia.
    + rewrite dd_get_update_other by exact E. reflexivity.
Qed.

End Counting.

Lemma filter_filter {A : Type} (f g : A -> bool) (l : list A) :
  filter g (filter f l) = filter (fun x => f x && g x) l.
Proof. apply filter_filter_both. Qed.

(** ** Over-commenting *)

(** A reviewer is labelled as over-commenting only if more than fifteen of
    the comments are that reviewer's comments on one and the same merge
    request. *)
Theorem over_comment_needs_sixteen (reviewer : string)
  (comments : list ReviewComment) (ps : list string) :
  BiasDetector._identify_negative_patterns reviewer comments = Ok ps ->
  In "Tends to over-comment on merge requests" ps ->
  exists title,
    len (filter (fun c => String.eqb (author c) reviewer
                          && String.eqb (mr_title c) title) comments) > 15.
Proof.
  unfold BiasDetector._identify_negative_patterns.
  set (rc := filter (fun c => String.eqb (author c) reviewer) comments).
  fold (counted mr_title rc []).
  set (counts := counted mr_title rc []).
  destruct rc as [|c0 rest] eqn:Erc.
  { intros H. injection H as <-. intros []. }
  rewrite float_truediv_int_ok by apply len_cons_pos. cbn [bind].
  destruct (filter (fun count => count >? BiasDetector.excessive_comment_threshold)
              (values counts)) as [|n ns] eqn:Eex.
  - assert (Hlen : 0 <= len counts) by (unfold len; lia).
    match goal with
    | |- context [F.gtb ?a (F.mul ?b f_0_3)] =>
        replace (F.gtb a (F.mul b f_0_3)) with false
          by (symmetry; exact (no_count_above_share (len counts) _ _ Hlen))
    end.
    intros H. injection H as <-. intros Hin. exfalso. revert Hin.
    repeat match goal with
           | |- context [if ?b then _ else _] => destruct b
           | |- context [match ?l with [] => _ | _ :: _ => _ end] =>
               destruct l
           end;
      cbn [app In]; intros Hin;
      repeat match goal with
             | H : _ \/ _ |- _ => destruct H
             | H : False |- _ => contradiction
             end; discriminate.
  - intros _ _.
    assert (Hn : In n (filter (fun count =>
                                 count >? BiasDetector.excessive_comment_threshold)
                         (values counts)))
      by (rewrite Eex; left; reflexivity).
    apply filter_In in Hn. destruct Hn as [Hn Hgt].
    unfold values in Hn. apply in_map_iff in Hn.
    destruct Hn as ([title n'] & En & Hin). cbn [snd] in En. subst n'.
    exists title.
    assert (Hnd : NoDup (keys counts))
      by (apply counted_NoDup; constructor).
    pose proof (dd_get_unique counts title n 0 Hnd Hin) as G.
    unfold counts in G. rewrite counted_get in G. cbn [dd_get] in G.
    rewrite <- Erc in G. unfold rc in G. rewrite filter_filter in G.
    unfold BiasDetector.excessive_comment_threshold in Hgt. lia.
Qed.

Lemma over_comment_needs_sixteen_witness :
  exists title,
    len (filter (fun c => String.eqb (author c) "rev_1"
                          && String.eqb (mr_title c) title)
           sixteen_comments) > 15.
Proof.
  apply (over_comment_needs_sixteen "rev_1" sixteen_comments
           ["Tends to over-comment on merge requests";
            "Shows nitpicking behavior with short critical comments"]).
  - vm_compute. reflexivity.
  - left. reflexivity.
Defined.

(** ** The team-wide bias analysis *)

Lemma mean_total (data : list float) :
  data <> [] -> exists m, Statistics.mean data = Ok m.
Proof.
  intros H. destruct data as [|x xs]; [congruence|].
  unfold Statistics.mean.
  destruct (filter (fun x => negb (F.is_finite x)) (x :: xs));
    eexists; reflexivity.
Qed.

Lemma len_three_not_nil {A : Type} (l : list A) :
  (len l >=? 3) = true -> l <> [].
Proof. intros H ->. discriminate H. Qed.

Lemma sentiment_variance_of_shape (stdev : list float -> float)
  (items : dict (list float)) :
  exists sv,
    BiasDetector.sentiment_variance_of stdev items = Ok sv
    /\ map (fun e => (fst e, BiasDetector.sample_size (snd e))) sv
       = map (fun kv => (fst kv, len (snd kv)))
           (filter (fun kv => len (snd kv) >=? 3) items).
Proof.
  induction items as [|[author_ sentiments] items (rest & E & IH)];
    cbn [BiasDetector.sentiment_variance_of filter snd].
  - exists []. split; reflexivity.
  - destruct (len sentiments >=? 3) eqn:E3.
    + destruct (mean_total sentiments (len_three_not_nil _ E3)) as [m Em].
      rewrite Em, E. cbn [bind]. eexists. split; [reflexivity|].
      cbn [map fst snd BiasDetector.sample_size]. rewrite IH. reflexivity.
    + exists rest. split; assumption.
Qed.

Lemma means_of_total (items : list (list float)) :
  exists ms, BiasDetector.means_of items = Ok ms.
Proof.
  induction items as [|sentiments items [rest E]];
    cbn [BiasDetector.means_of].
  - eexists. reflexivity.
  - destruct (len sentiments >=? 3) eqn:E3.
    + destruct (mean_total sentiments (len_three_not_nil _ E3)) as [m Em].
      rewrite Em, E. cbn [bind]. eexists. reflexivity.
    + exists rest. exact E.
Qed.

Lemma overall_bias_score_of_total (stdev : list float -> float)
  (asent : dict (list float)) :
  exists score, BiasDetector.overall_bias_score_of stdev asent = Ok score.
Proof.
  unfold BiasDetector.overall_bias_score_of.
  destruct (len asent >? 1); [|eexists; reflexivity].
  destruct (means_of_total (values asent)) as [ms ->]. cbn [bind].
  destruct (len ms >? 1); eexists; reflexivity.
Qed.

Section GroupSizes.

Context {A V : Type} (key : A -> string) (val : A -> V).

(** The groups with at least three items, with their sizes. *)
Lemma grouped_sizes (items : list A) (k : string) (n : Z) :
  In (k, n)
    (map (fun kv => (fst kv, len (snd kv)))
       (filter (fun kv => len (snd kv) >=? 3) (grouped key val items [])))
  <-> n = len (filter (fun c => String.eqb (key c) k) items) /\ 3 <= n.
Proof.
  set (d := grouped key val items []).
  assert (Hnd : NoDup (keys d)) by (apply grouped_NoDup; constructor).
  assert (Hget : forall v, In (k, v) d ->
                   len v = len (filter (fun c => String.eqb (key c) k) items)).
  { intros v Hin. rewrite <- (dd_get_unique d k v [] Hnd Hin).
    unfold d. rewrite grouped_get. cbn [dd_get app]. apply len_map. }
  rewrite in_map_iff. split.
  - intros ([k' v] & E & Hin). cbn [fst snd] in E. injection E as -> <-.
    apply filter_In in Hin. destruct Hin as [Hin H3]. cbn [snd] in H3.
    split; [apply Hget, Hin | lia].
  - intros [-> H3].
    destruct (filter (fun c => String.eqb (key c) k) items) as [|c0 rest]
      eqn:Ef; [cbn in H3; lia|].
    assert (Hc : In c0 (filter (fun c => String.eqb (key c) k) items))
      by (rewrite Ef; left; reflexivity).
    apply filter_In in Hc. destruct Hc as [Hc Hk].
    apply String.eqb_eq in Hk.
    assert (Hkey : In k (keys d)).
    { unfold d. apply grouped_keys. right. exists c0. split; assumption. }
    unfold keys in Hkey. apply in_map_iff in Hkey.
    destruct Hkey as ([k' v] & Ek & Hin). cbn [fst] in Ek. subst k'.
    exists (k, v). cbn [fst snd].
    pose proof (Hget v Hin) as Hv.
    split; [rewrite Hv; reflexivity|].
    apply filter_In. split; [exact Hin|]. cbn [snd]. rewrite Hv. lia.
Qed.

End GroupSizes.

Lemma NoDup_keys_filter {V : Type} (f : string * V -> bool) (d : dict V) :
  NoDup (keys d) -> NoDup (keys (filter f d)).
Proof.
  unfold keys. induction d as [|kv d IH]; intros H; [constructor|].
  cbn [map] in H. inversion H as [|? ? Hn Hd]; subst. cbn [filter].
  destruct (f kv); [|apply IH, Hd].
  cbn [map]. constructor; [|apply IH, Hd].
  intros Hin. apply Hn. apply in_map_iff in Hin.
  destruct Hin as (x & Ex & Hx). apply filter_In in Hx.
  rewrite <- Ex. apply in_map, Hx.
Qed.

(** The team-wide analysis returns for every comment list and every
    standard-deviation function.  Its variance table has one entry for each
    merge-request author with at least three comments, and no other; the
    sample size of an author is the number of comments on that author's
    merge requests; the author analysis lists the same authors with the same
    counts. *)
Theorem team_bias_samples (stdev : list float -> float)
  (all_comments : list ReviewComment) :
  exists ba,
    BiasDetector.calculate_bias_indicators stdev all_comments = Ok ba
    /\ NoDup (keys (BiasDetector.sentiment_variance ba))
    /\ (forall a n,
          (exists v, In (a, v) (BiasDetector.sentiment_variance ba)
                     /\ BiasDetector.sample_size v = n)
          <-> n = len (filter (fun c => String.eqb (mr_author c) a)
                         all_comments)
              /\ 3 <= n)
    /\ map (fun ae => (fst ae, BiasDetector.ae_review_count (snd ae)))
         (BiasDetector.author_analysis ba)
       = map (fun av => (fst av, BiasDetector.sample_size (snd av)))
           (BiasDetector.sentiment_variance ba).
Proof.
  unfold BiasDetector.calculate_bias_indicators.
  change (BiasDetector.author_sentiments all_comments)
    with (grouped mr_author (fun c => textblob_score (sentiment c))
            all_comments []).
  set (asent := grouped mr_author (fun c => textblob_score (sentiment c))
                  all_comments []).
  destruct (sentiment_variance_of_shape stdev asent) as (sv & -> & Hsv).
  destruct (overall_bias_score_of_total stdev asent) as [score ->].
  cbn [bind]. eexists. split; [reflexivity|].
  cbn [BiasDetector.sentiment_variance BiasDetector.author_analysis].
  assert (Hk : keys sv
               = keys (filter (fun kv => len (snd kv) >=? 3) asent)).
  { unfold keys.
    transitivity (map fst (map (fun e => (fst e, BiasDetector.sample_size
                                                   (snd e))) sv)).
    - rewrite map_map. reflexivity.
    - rewrite Hsv, map_map. reflexivity. }
  split; [|split].
  - rewrite Hk. apply NoDup_keys_filter, grouped_NoDup. constructor.
  - intros a n. unfold asent in Hsv.
    rewrite <- (grouped_sizes mr_author
                  (fun c => textblob_score (sentiment c)) all_comments a n).
    rewrite <- Hsv, in_map_iff. split.
    + intros (v & Hin & <-). exists (a, v). split; [reflexivity|exact Hin].
    + intros ([a' v] & E & Hin). cbn [fst snd] in E. injection E as -> <-.
      exists v. split; [exact Hin|reflexivity].
  - rewrite map_map. apply map_ext. intros [a v]. reflexivity.
Qed.

(** The risk levels of the team-wide analysis are coherent: a reported
    specific risk means a high overall risk; mitigation strategies are
    proposed exactly when the overall risk is not low; there are no more
    specific risks than analysed authors; an analysed author with at least
    five comments whose mean sentiment is below the threshold for negative
    sentiment is reported as a specific risk and is never rated low; and no
    other author is reported. *)
Theorem team_bias_risk (stdev : list float -> float)
  (all_comments : list ReviewComment) :
  exists ba,
    BiasDetector.calculate_bias_indicators stdev all_comments = Ok ba
    /\ (BiasDetector.specific_risks ba <> [] ->
        BiasDetector.overall_risk ba = HIGH)
    /\ (BiasDetector.mitigation_strategies ba = [] <->
        BiasDetector.overall_risk ba = LOW)
    /\ len (BiasDetector.specific_risks ba)
       <= len (BiasDetector.author_analysis ba)
    /\ (forall a e,
          In (a, e) (BiasDetector.author_analysis ba) ->
          F.ltb (BiasDetector.ae_avg_sentiment e)
            BiasDetector.negative_sentiment_threshold = true ->
          5 <= BiasDetector.ae_review_count e ->
          In ("High bias risk detected for " ++ a)%string
            (BiasDetector.specific_risks ba)
          /\ BiasDetector.risk_level e <> LOW)
    /\ (forall a,
          In ("High bias risk detected for " ++ a)%string
            (BiasDetector.specific_risks ba) ->
          exists e,
            In (a, e) (BiasDetector.author_analysis ba)
            /\ F.ltb (BiasDetector.ae_avg_sentiment e)
                 BiasDetector.negative_sentiment_threshold = true
            /\ 5 <= BiasDetector.ae_review_count e).
Proof.
  unfold BiasDetector.calculate_bias_indicators.
  set (asent := BiasDetector.author_sentiments all_comments).
  destruct (sentiment_variance_of_shape stdev asent) as (sv & -> & _).
  destruct (overall_bias_score_of_total stdev asent) as [score ->].
  cbn [bind]. eexists. split; [reflexivity|].
  cbn [BiasDetector.overall_risk BiasDetector.specific_risks
       BiasDetector.mitigation_strategies BiasDetector.author_analysis].
  set (targets := BiasDetector.potential_bias_targets_of sv).
  split; [|split; [|split; [|split]]].
  - intros Hne. unfold BiasDetector.overall_risk_of.
    destruct targets as [|t ts]; [contradiction Hne; reflexivity|].
    replace (len (t :: ts) >? 0) with true
      by (symmetry; apply Z.gtb_lt; unfold len; cbn [List.length]; lia).
    rewrite orb_true_r. reflexivity.
  - destruct (BiasDetector.overall_risk_of score targets);
      split; intros H; try reflexivity; discriminate H.
  - rewrite !len_map. unfold targets, BiasDetector.potential_bias_targets_of.
    rewrite len_map. unfold len. apply inj_le, filter_length_le.
  - intros a e Hin Hlt H5. apply in_map_iff in Hin.
    destruct Hin as ([a' v] & E & Hin). cbn [fst snd] in E.
    injection E as -> <-. cbn [BiasDetector.author_entry_of
      BiasDetector.ae_avg_sentiment BiasDetector.ae_review_count
      BiasDetector.risk_level] in *.
    split.
    + apply in_map_iff.
      exists {| BiasDetector.bt_author := a;
                BiasDetector.mean_sentiment := BiasDetector.mean v;
                BiasDetector.bt_review_count := BiasDetector.sample_size v |}.
      split; [reflexivity|].
      unfold targets, BiasDetector.potential_bias_targets_of.
      apply in_map_iff. exists (a, v). split; [reflexivity|].
      apply filter_In. split; [exact Hin|]. cbn [snd]. rewrite Hlt.
      apply Z.geb_le. exact H5.
    + assert (G : F.ltb (BiasDetector.mean v) f_m0_1 = true).
      { apply (ltb_trans _ _ _ Hlt). reflexivity. }
      rewrite G. destruct (F.ltb (BiasDetector.mean v) f_m0_3); discriminate.
  - intros a Hin. apply in_map_iff in Hin. destruct Hin as (t & Et & Ht).
    cbn [String.append] in Et. injection Et as Et.
    unfold targets, BiasDetector.potential_bias_targets_of in Ht.
    apply in_map_iff in Ht. destruct Ht as ([a' v] & <- & Hv).
    cbn [BiasDetector.bt_author fst] in Et. subst a'.
    apply filter_In in Hv. destruct Hv as [Hv Hc]. cbn [snd] in Hc.
    apply andb_true_iff in Hc. destruct Hc as [Hlt H5].
    exists (BiasDetector.author_entry_of v). split; [|split].
    + apply in_map_iff. exists (a, v). split; [reflexivity|exact Hv].
    + exact Hlt.
    + apply Z.geb_le, H5.
Qed.

(** ** The approval counters of the older calculator *)

Lemma incr_counter_key (status : string) (a : MetricsCalculator.approvals) :
  if counter_key status
  then exists a', MetricsCalculator.incr status a = Ok a'
  else MetricsCalculator.incr status a = Raise KeyError.
Proof.
  unfold counter_key, MetricsCalculator.incr.
  destruct (String.eqb status "approved"); cbn [orb];
    [eexists; reflexivity|].
  destruct (String.eqb status "changes"); cbn [orb];
    [eexists; reflexivity|].
  destruct (String.eqb status "comments"); [eexists|]; reflexivity.
Qed.

Lemma group_loop_counter_keys (cs : list Models.ReviewComment)
  (asent : dict (list float)) (arates : dict MetricsCalculator.approvals) :
  if forallb (fun c => counter_key (Models.approval_status c)) cs
  then exists arates',
         MetricsCalculator.group_loop cs asent arates
         = Ok (grouped Models.mr_author Models.sentiment_textblob cs asent,
               arates')
  else MetricsCalculator.group_loop cs asent arates = Raise KeyError.
Proof.
  revert asent arates. induction cs as [|c cs IH]; intros asent arates;
    cbn [forallb MetricsCalculator.group_loop].
  - eexists. reflexivity.
  - pose proof (incr_counter_key (Models.approval_status c)
                  (dd_get arates (Models.mr_author c)
                     MetricsCalculator.no_approvals)) as Hi.
    destruct (counter_key (Models.approval_status c)); cbn [andb].
    + destruct Hi as [a' ->]. cbn [bind]. rewrite grouped_cons. apply IH.
    + rewrite Hi. reflexivity.
Qed.

Lemma reviewer_loop_counter_keys (cs : list Models.ReviewComment)
  (rsent : dict (list float)) (rrates : dict MetricsCalculator.approvals) :
  if forallb (fun c => counter_key (Models.approval_status c)) cs
  then exists rrates',
         MetricsCalculator.reviewer_loop cs rsent rrates
         = Ok (grouped Models.author Models.sentiment_textblob cs rsent,
               rrates')
  else MetricsCalculator.reviewer_loop cs rsent rrates = Raise KeyError.
Proof.
  revert rsent rrates. induction cs as [|c cs IH]; intros rsent rrates;
    cbn [forallb MetricsCalculator.reviewer_loop].
  - eexists. reflexivity.
  - pose proof (incr_counter_key (Models.approval_status c)
                  (dd_get rrates (Models.author c)
                     MetricsCalculator.no_approvals)) as Hi.
    destruct (counter_key (Models.approval_status c)); cbn [andb].
    + destruct Hi as [a' ->]. cbn [bind]. rewrite grouped_cons. apply IH.
    + rewrite Hi. reflexivity.
Qed.

Lemma variance_loop_total (stdev : list float -> float)
  (items : dict (list float)) :
  exists vt, MetricsCalculator.variance_loop stdev items = Ok vt.
Proof.
  induction items as [|[author_ sentiments] items [rest E]];
    cbn [MetricsCalculator.variance_loop].
  - eexists. reflexivity.
  - destruct (len sentiments >=? 3) eqn:E3; [|exists rest; exact E].
    destruct (mean_total sentiments (len_three_not_nil _ E3)) as [m ->].
    rewrite E. cbn [bind].
    destruct (F.ltb m f_m0_3 && (len sentiments >=? 5)); eexists;
      reflexivity.
Qed.

(** The older calculator's bias indicators are computed exactly for the
    comment lists whose statuses are all keys of its counters, 'approved',
    'changes' and 'comments'; any other status raises [KeyError], and so
    do the statuses 'requested_changes' and 'commented' that the
    calculator's own developer metrics test for. *)
Theorem metrics_bias_indicators_key_error (stdev : list float -> float)
  (cs : list Models.ReviewComment) :
  (if forallb (fun c => counter_key (Models.approval_status c)) cs
   then exists bi, MetricsCalculator.calculate_bias_indicators stdev cs = Ok bi
   else MetricsCalculator.calculate_bias_indicators stdev cs = Raise KeyError)
  /\ counter_key "requested_changes" = false
  /\ counter_key "commented" = false.
Proof.
  split; [|split; reflexivity].
  unfold MetricsCalculator.calculate_bias_indicators.
  pose proof (group_loop_counter_keys cs [] []) as G.
  destruct (forallb (fun c => counter_key (Models.approval_status c)) cs).
  - destruct G as [arates' ->]. cbn [bind fst].
    destruct (variance_loop_total stdev
                (grouped Models.mr_author Models.sentiment_textblob cs []))
      as [vt ->].
    cbn [bind].
    destruct (len _ >? 1); cbn [bind]; [|eexists; reflexivity].
    destruct (means_of_total
                (values (grouped Models.mr_author Models.sentiment_textblob
                           cs []))) as [ms ->].
    cbn [bind]. destruct (len ms >? 1); cbn [bind]; eexists; reflexivity.
  - rewrite G. reflexivity.
Qed.

Lemma consistency_of_total (stdev : list float -> float)
  (rrates : dict MetricsCalculator.approvals) (reviewer : string)
  (sentiments : list float) :
  exists score,
    MetricsCalculator.consistency_of stdev rrates reviewer sentiments
    = Ok score
    /\ (len sentiments < 3 -> score = f_50).
Proof.
  unfold MetricsCalculator.consistency_of.
  destruct (len sentiments <? 3) eqn:E3.
  - exists f_50. split; reflexivity.
  - apply Z.ltb_ge in E3.
    destruct (_ + _ + _ >? 0) eqn:Et.
    + rewrite !int_truediv_ok by lia. cbn [bind].
      rewrite float_truediv_int_ok by lia. eexists. split; [reflexivity|lia].
    + cbn [bind]. rewrite float_truediv_int_ok by lia. eexists.
      split; [reflexivity|lia].
Qed.

Lemma consistency_loop_shape (stdev : list float -> float)
  (rrates : dict MetricsCalculator.approvals) (items : dict (list float)) :
  exists scores,
    MetricsCalculator.consistency_loop stdev rrates items = Ok scores
    /\ Forall2 (fun rs kv => fst rs = fst kv
                             /\ (len (snd kv) < 3 -> snd rs = f_50))
         scores items.
Proof.
  induction items as [|[reviewer sentiments] items (rest & E & IH)];
    cbn [MetricsCalculator.consistency_loop].
  - exists []. split; [reflexivity|constructor].
  - destruct (consistency_of_total stdev rrates reviewer sentiments)
      as (score & -> & Hs).
    rewrite E. cbn [bind]. eexists. split; [reflexivity|].
    constructor; [|exact IH]. split; [reflexivity|exact Hs].
Qed.

(** The reviewer consistency of the older calculator raises [KeyError] on
    exactly the same comment lists.  When it returns, it holds one score for
    each comment author, and a reviewer with fewer than three comments gets
    the neutral score 50. *)
Theorem reviewer_consistency_key_error (stdev : list float -> float)
  (cs : list Models.ReviewComment) :
  if forallb (fun c => counter_key (Models.approval_status c)) cs
  then exists scores,
         MetricsCalculator.calculate_reviewer_consistency stdev cs = Ok scores
         /\ NoDup (keys scores)
         /\ (forall r, In r (keys scores)
                       <-> exists c, In c cs /\ Models.author c = r)
         /\ (forall r score,
               In (r, score) scores ->
               len (filter (fun c => String.eqb (Models.author c) r) cs) < 3 ->
               score = f_50)
  else MetricsCalculator.calculate_reviewer_consistency stdev cs
       = Raise KeyError.
Proof.
  unfold MetricsCalculator.calculate_reviewer_consistency.
  pose proof (reviewer_loop_counter_keys cs [] []) as G.
  destruct (forallb (fun c => counter_key (Models.approval_status c)) cs);
    [|rewrite G; reflexivity].
  destruct G as [rrates ->]. cbn [bind fst snd].
  set (items := grouped Models.author Models.sentiment_textblob cs []).
  destruct (consistency_loop_shape stdev rrates items) as (scores & -> & Sh).
  exists scores. split; [reflexivity|].
  assert (Hnd : NoDup (keys items)) by (apply grouped_NoDup; constructor).
  assert (Hk : keys scores = keys items).
  { clear - Sh. unfold keys.
    induction Sh as [|a b xs ys [Ek _] _ IH]; [reflexivity|].
    cbn [map]. rewrite Ek, IH. reflexivity. }
  rewrite Hk. split; [exact Hnd|]. split.
  - intros r. unfold items. rewrite grouped_keys. cbn [keys map In].
    split; [intros [[]|H]; exact H | auto].
  - intros r score Hin Hlt.
    assert (Hex : exists sents, In (r, sents) items
                                /\ (len sents < 3 -> score = f_50)).
    { clear - Sh Hin.
      induction Sh as [|a [k v] xs ys (E1 & E2) _ IH]; [contradiction|].
      destruct Hin as [Hin|Hin].
      - subst a. cbn [fst snd] in E1, E2. subst k. exists v.
        split; [left; reflexivity | exact E2].
      - destruct (IH Hin) as (sents & H1 & H2). exists sents.
        split; [right; exact H1 | exact H2]. }
    destruct Hex as (sents & H1 & H2). apply H2.
    rewrite <- (dd_get_unique items r sents [] Hnd H1).
    unfold items. rewrite grouped_get. cbn [dd_get app]. rewrite len_map.
    exact Hlt.
Qed.

(** ** The statistics of a reviewer only depend on that reviewer's comments *)

Lemma filter_idem {A : Type} (f : A -> bool) (l : list A) :
  filter f (filter f l) = filter f l.
Proof.
  rewrite filter_filter. apply filter_ext. intros x. destruct (f x);
    reflexivity.
Qed.

Lemma group_step_same (r : string) (g1 g2 : BiasDetector.groups)
  (c : ReviewComment) :
  author c = r -> same_at r g1 g2 ->
  same_at r (BiasDetector.group_step g1 c) (BiasDetector.group_step g2 c).
Proof.
  intros <- (H1 & H2 & H3 & H4). unfold same_at, BiasDetector.group_step.
  cbn [BiasDetector.reviewer_sentiments BiasDetector.reviewer_actions
       BiasDetector.reviewer_toxicity BiasDetector.reviewer_blocking_behavior].
  rewrite !dd_get_update_same, H1, H2, H3.
  repeat split.
  destruct (String.eqb (value (approval_status c)) "requested_changes");
    [|exact H4].
  rewrite !dd_get_update_same, H4. reflexivity.
Qed.

Lemma group_step_other (r : string) (g1 g2 : BiasDetector.groups)
  (c : ReviewComment) :
  String.eqb (author c) r = false -> same_at r g1 g2 ->
  same_at r (BiasDetector.group_step g1 c) g2.
Proof.
  intros E (H1 & H2 & H3 & H4). unfold same_at, BiasDetector.group_step.
  cbn [BiasDetector.reviewer_sentiments BiasDetector.reviewer_actions
       BiasDetector.reviewer_toxicity BiasDetector.reviewer_blocking_behavior].
  rewrite !dd_get_update_other by exact E.
  repeat split; try assumption.
  destruct (String.eqb (value (approval_status c)) "requested_changes");
    [|exact H4].
  rewrite dd_get_update_other by exact E. exact H4.
Qed.

Lemma group_loop_local (r : string) (comments : list ReviewComment)
  (g1 g2 : BiasDetector.groups) :
  same_at r g1 g2 ->
  same_at r (fold_left BiasDetector.group_step comments g1)
    (fold_left BiasDetector.group_step
       (filter (fun c => String.eqb (author c) r) comments) g2).
Proof.
  revert g1 g2. induction comments as [|c cs IH]; intros g1 g2 H;
    [exact H|].
  cbn [fold_left filter]. destruct (String.eqb (author c) r) eqn:E.
  - cbn [fold_left]. apply IH, group_step_same; [|exact H].
    apply String.eqb_eq, E.
  - apply IH, group_step_other; assumption.
Qed.

Lemma identify_negative_patterns_local (r : string)
  (cs1 cs2 : list ReviewComment) :
  filter (fun c => String.eqb (author c) r) cs1
  = filter (fun c => String.eqb (author c) r) cs2 ->
  BiasDetector._identify_negative_patterns r cs1
  = BiasDetector._identify_negative_patterns r cs2.
Proof.
  intros H. unfold BiasDetector._identify_negative_patterns. rewrite H.
  reflexivity.
Qed.

Lemma stat_of_reviewer_local (r : string) (g1 g2 : BiasDetector.groups)
  (cs1 cs2 : list ReviewComment) (sentiments : list float) :
  same_at r g1 g2 ->
  filter (fun c => String.eqb (author c) r) cs1
  = filter (fun c => String.eqb (author c) r) cs2 ->
  BiasDetector.stat_of_reviewer g1 cs1 r sentiments
  = BiasDetector.stat_of_reviewer g2 cs2 r sentiments.
Proof.
  intros (_ & H2 & H3 & H4) Hf. unfold BiasDetector.stat_of_reviewer.
  rewrite H2, H3, H4, (identify_negative_patterns_local r cs1 cs2 Hf).
  reflexivity.
Qed.

Lemma stats_loop_entries (g : BiasDetector.groups)
  (comments : list ReviewComment) (items : dict (list float))
  (sts : dict BiasDetector.reviewer_stat) :
  BiasDetector.stats_loop g comments items = Ok sts ->
  forall r st, In (r, st) sts ->
  exists sentiments,
    In (r, sentiments) items
    /\ BiasDetector.stat_of_reviewer g comments r sentiments = Ok st.
Proof.
  revert sts. induction items as [|[r0 sents] items IH]; intros sts;
    cbn [BiasDetector.stats_loop].
  - intros H. injection H as <-. intros r st [].
  - destruct (BiasDetector.stat_of_reviewer g comments r0 sents) as [st0|]
      eqn:E; cbn [bind]; [|discriminate].
    destruct (BiasDetector.stats_loop g comments items) as [rest|];
      cbn [bind]; [|discriminate].
    intros H. injection H as <-. intros r st [Hin|Hin].
    + injection Hin as <- <-. exists sents. split; [left; reflexivity|exact E].
    + destruct (IH rest eq_refl r st Hin) as (s & H1 & H2).
      exists s. split; [right; exact H1 | exact H2].
Qed.

Lemma analysis_reviewer_stats (developer : string)
  (comments : list ReviewComment) (dt : BiasDetector.DeveloperTreatment) :
  BiasDetector._analyze_individual_developer_treatment developer comments
  = Ok dt ->
  BiasDetector.stats_loop (BiasDetector.group_by_reviewer comments) comments
    (BiasDetector.reviewer_sentiments (BiasDetector.group_by_reviewer comments))
  = Ok (BiasDetector.reviewer_stats dt).
Proof.
  unfold BiasDetector._analyze_individual_developer_treatment.
  destruct (BiasDetector.stats_loop _ comments _) as [sts|];
    cbn [bind]; [|discriminate].
  destruct (match map (fun c => textblob_score (sentiment c)) comments with
            | [] => Ok F.zero
            | _ :: _ => _
            end) as [o|]; cbn [bind]; [|discriminate].
  destruct sts; intros E; injection E as <-; reflexivity.
Qed.

Lemma grouped_one_key {A V : Type} (key : A -> string) (val : A -> V)
  (k : string) (items : list A) (l : list V) :
  (forall c, In c items -> key c = k) ->
  grouped key val items [(k, l)] = [(k, l ++ map val items)].
Proof.
  revert l. induction items as [|c items IH]; intros l H.
  - cbn. rewrite app_nil_r. reflexivity.
  - rewrite grouped_cons. cbn [dd_update].
    rewrite (H c (or_introl eq_refl)), String.eqb_refl.
    rewrite IH by (intros c' Hc'; apply H; right; exact Hc').
    cbn [map]. rewrite <- app_assoc. reflexivity.
Qed.

Lemma grouped_single {A V : Type} (key : A -> string) (val : A -> V)
  (k : string) (items : list A) :
  (forall c, In c items -> key c = k) -> items <> [] ->
  grouped key val items [] = [(k, map val items)].
Proof.
  intros H Hne. destruct items as [|c items]; [congruence|].
  rewrite grouped_cons. cbn [dd_update].
  rewrite (H c (or_introl eq_refl)).
  rewrite grouped_one_key by (intros c' Hc'; apply H; right; exact Hc').
  reflexivity.
Qed.

(** The statistics that the analysis of a developer records for a reviewer
    are the ones it records when it is given that reviewer's comments alone:
    the comments of the other reviewers have no influence on them. *)
Theorem reviewer_stat_local (developer r : string)
  (comments : list ReviewComment) :
  exists dt dt',
    BiasDetector._analyze_individual_developer_treatment developer comments
    = Ok dt
    /\ BiasDetector._analyze_individual_developer_treatment developer
         (filter (fun c => String.eqb (author c) r) comments) = Ok dt'
    /\ forall st,
         In (r, st) (BiasDetector.reviewer_stats dt) ->
         BiasDetector.reviewer_stats dt' = [(r, st)].
Proof.
  set (own := filter (fun c => String.eqb (author c) r) comments).
  destruct (analyze_individual_total developer comments) as [dt E].
  destruct (analyze_individual_total developer own) as [dt' E'].
  exists dt, dt'. split; [exact E|]. split; [exact E'|].
  intros st Hin.
  apply analysis_reviewer_stats in E. apply analysis_reviewer_stats in E'.
  destruct (stats_loop_entries _ _ _ _ E r st Hin) as (sents & Hs & Hst).
  unfold BiasDetector.group_by_reviewer in Hs.
  rewrite reviewer_sentiments_grouped in Hs.
  cbn [BiasDetector.reviewer_sentiments] in Hs.
  assert (Hnd : NoDup (keys (grouped author
                               (fun c => textblob_score (sentiment c))
                               comments [])))
    by (apply grouped_NoDup; constructor).
  assert (Hsents : sents = map (fun c => textblob_score (sentiment c)) own).
  { rewrite <- (dd_get_unique _ r sents [] Hnd Hs), grouped_get.
    reflexivity. }
  assert (Hne : own <> []).
  { assert (Hk : In r (keys (grouped author
                               (fun c => textblob_score (sentiment c))
                               comments [])))
      by (apply (in_map fst) in Hs; exact Hs).
    apply grouped_keys in Hk. destruct Hk as [[]|(c & Hc & Ec)].
    intros Hown.
    assert (Hc' : In c own)
      by (apply filter_In; split; [exact Hc | apply String.eqb_eq, Ec]).
    rewrite Hown in Hc'. exact Hc'. }
  assert (Hown : forall c, In c own -> author c = r).
  { intros c Hc. apply filter_In in Hc. apply String.eqb_eq, Hc. }
  assert (Hitems : BiasDetector.reviewer_sentiments
                     (BiasDetector.group_by_reviewer own) = [(r, sents)]).
  { unfold BiasDetector.group_by_reviewer.
    rewrite reviewer_sentiments_grouped.
    cbn [BiasDetector.reviewer_sentiments].
    rewrite (grouped_single author _ r own Hown Hne), Hsents. reflexivity. }
  rewrite Hitems in E'. cbn [BiasDetector.stats_loop] in E'.
  assert (Hloc : BiasDetector.stat_of_reviewer
                   (BiasDetector.group_by_reviewer own) own r sents = Ok st).
  { rewrite <- Hst. symmetry. apply stat_of_reviewer_local.
    - apply group_loop_local. repeat split.
    - unfold own. rewrite filter_idem. reflexivity. }
  rewrite Hloc in E'. cbn [bind] in E'. injection E' as <-. reflexivity.
Qed.

(** ** Documented negative comments *)

Lemma not_ltb_leb (x y : float) :
  ordered x = true -> ordered y = true ->
  F.ltb x y = false -> F.leb y x = true.
Proof.
  unfold F.ltb, F.leb, SFltb, SFleb, SFcompare.
  destruct x as [[]|[]| |[] mx ex], y as [[]|[]| |[] my ey];
    try discriminate; try reflexivity;
    intros _ _ H1; order_cases.
Qed.

Lemma clamp_ordered (t : float) :
  ordered (F.py_max F.zero (F.py_min F.one t)) = true.
Proof.
  unfold F.py_max, F.py_min.
  destruct (F.ltb t F.one) eqn:E1; destruct (F.gtb _ F.zero);
    try reflexivity.
  destruct t; try reflexivity. vm_compute in E1. discriminate E1.
Qed.

Lemma toxicity_ordered (text : string) :
  ordered (BiasDetector._calculate_toxicity_score text) = true.
Proof. unfold BiasDetector._calculate_toxicity_score. apply clamp_ordered. Qed.

Lemma insert_by_toxicity_perm (x : BiasDetector.negative_instance)
  (l : list BiasDetector.negative_instance) :
  Permutation (BiasDetector.insert_by_toxicity x l) (x :: l).
Proof.
  induction l as [|y l IH]; cbn [BiasDetector.insert_by_toxicity].
  - apply Permutation_refl.
  - destruct (F.ltb _ _); [apply Permutation_refl|].
    apply perm_trans with (y :: x :: l); [|apply perm_swap].
    apply perm_skip, IH.
Qed.

Lemma sorted_by_toxicity_perm_from (l acc : list BiasDetector.negative_instance) :
  Permutation (fold_left (fun acc x => BiasDetector.insert_by_toxicity x acc)
                 l acc)
    (acc ++ l).
Proof.
  revert acc. induction l as [|x l IH]; intros acc; cbn [fold_left].
  - rewrite app_nil_r. apply Permutation_refl.
  - eapply perm_trans; [apply IH|].
    eapply perm_trans;
      [apply Permutation_app_tail, insert_by_toxicity_perm|].
    cbn [app]. apply Permutation_middle.
Qed.

Lemma insert_by_toxicity_sorted (x : BiasDetector.negative_instance)
  (l : list BiasDetector.negative_instance) :
  ordered (BiasDetector.ni_toxicity_score x) = true ->
  Forall (fun y => ordered (BiasDetector.ni_toxicity_score y) = true) l ->
  Sorted more_toxic l ->
  Sorted more_toxic (BiasDetector.insert_by_toxicity x l).
Proof.
  intros Hx Hl Hs. induction l as [|y l IH];
    cbn [BiasDetector.insert_by_toxicity].
  - repeat constructor.
  - inversion Hl as [|? ? Hy Hl']; subst.
    inversion Hs as [|? ? Hs' Hd]; subst.
    destruct (F.ltb (BiasDetector.ni_toxicity_score y)
                (BiasDetector.ni_toxicity_score x)) eqn:E.
    + constructor; [exact Hs|]. constructor. apply ltb_leb, E.
    + constructor; [apply IH; assumption|].
      destruct l as [|z l]; cbn [BiasDetector.insert_by_toxicity].
      * constructor. apply not_ltb_leb; assumption.
      * destruct (F.ltb (BiasDetector.ni_toxicity_score z)
                    (BiasDetector.ni_toxicity_score x)).
        -- constructor. apply not_ltb_leb; assumption.
        -- inversion Hd; subst. constructor. assumption.
Qed.

Lemma insert_by_toxicity_ordered (x : BiasDetector.negative_instance)
  (l : list BiasDetector.negative_instance) :
  ordered (BiasDetector.ni_toxicity_score x) = true ->
  Forall (fun y => ordered (BiasDetector.ni_toxicity_score y) = true) l ->
  Forall (fun y => ordered (BiasDetector.ni_toxicity_score y) = true)
    (BiasDetector.insert_by_toxicity x l).
Proof.
  intros Hx Hl. induction Hl as [|y l Hy Hl IH];
    cbn [BiasDetector.insert_by_toxicity].
  - repeat constructor. exact Hx.
  - destruct (F.ltb _ _); repeat constructor; assumption.
Qed.

Lemma sorted_by_toxicity_sorted_from
  (l acc : list BiasDetector.negative_instance) :
  Forall (fun y => ordered (BiasDetector.ni_toxicity_score y) = true) l ->
  Forall (fun y => ordered (BiasDetector.ni_toxicity_score y) = true) acc ->
  Sorted more_toxic acc ->
  Sorted more_toxic
    (fold_left (fun acc x => BiasDetector.insert_by_toxicity x acc) l acc).
Proof.
  intros Hl. revert acc. induction Hl as [|x l Hx Hl IH]; intros acc Ha Hs;
    cbn [fold_left]; [exact Hs|].
  apply IH.
  - apply insert_by_toxicity_ordered; assumption.
  - apply insert_by_toxicity_sorted; assumption.
Qed.

Lemma categories_of_facts (c : ReviewComment) (t : float) (k : Z) :
  BiasDetector.categories_of c t k <> []
  /\ (F.gtb t f_0_5 = true ->
      In "Toxic language" (BiasDetector.categories_of c t k))
  /\ (In "Negative sentiment" (BiasDetector.categories_of c t k) ->
      BiasDetector.categories_of c t k = ["Negative sentiment"]).
Proof.
  unfold BiasDetector.categories_of.
  destruct (F.gtb t f_0_5);
    destruct (str_in "you" (lower (body c))
              && F.ltb (textblob_score (sentiment c)) f_m0_3);
    destruct (k <? 30);
    destruct ((str_len (body c) <? 50)
              && F.ltb (textblob_score (sentiment c)) f_m0_3);
    cbn [app In]; (split; [discriminate|split]);
    intros H; try reflexivity; try discriminate H; auto;
    repeat match goal with
           | H : _ \/ _ |- _ => destruct H
           | H : False |- _ => contradiction
           end; discriminate.
Qed.

Lemma severity_high (t : float) :
  (if F.gtb t f_0_7 then "high"
   else if F.gtb t f_0_4 then "medium" else "low") = "high" ->
  F.gtb t f_0_5 = true.
Proof.
  destruct (F.gtb t f_0_7) eqn:E7.
  - intros _. unfold F.gtb in *.
    apply (ltb_trans f_0_5 f_0_7); [reflexivity | exact E7].
  - destruct (F.gtb t f_0_4); discriminate.
Qed.

(** The documented instances are the given comments, one instance each,
    most toxic first.  Every instance carries the scores of its comment and
    at least one category; the default category 'Negative sentiment' only
    occurs alone; and an instance of high severity is always in the category
    'Toxic language'. *)
Theorem documented_negative_behavior (comments : list ReviewComment) :
  let out := BiasDetector._document_negative_behavior comments in
  Permutation (map BiasDetector.ni_comment out) comments
  /\ Sorted more_toxic out
  /\ forall i, In i out ->
       i = BiasDetector.document_instance (BiasDetector.ni_comment i)
       /\ BiasDetector.ni_toxicity_score i
          = BiasDetector._calculate_toxicity_score
              (body (BiasDetector.ni_comment i))
       /\ BiasDetector.ni_categories i <> []
       /\ (In "Negative sentiment" (BiasDetector.ni_categories i) ->
           BiasDetector.ni_categories i = ["Negative sentiment"])
       /\ (BiasDetector.ni_severity i = "high" ->
           In "Toxic language" (BiasDetector.ni_categories i)).
Proof.
  intros out.
  assert (P : Permutation out (map BiasDetector.document_instance comments)).
  { unfold out, BiasDetector._document_negative_behavior,
      BiasDetector.sorted_by_toxicity.
    apply (sorted_by_toxicity_perm_from _ []). }
  split; [|split].
  - apply perm_trans
      with (map BiasDetector.ni_comment
              (map BiasDetector.document_instance comments)).
    + apply Permutation_map, P.
    + rewrite map_map. cbn [BiasDetector.document_instance
                             BiasDetector.ni_comment].
      rewrite map_id. apply Permutation_refl.
  - unfold out, BiasDetector._document_negative_behavior,
      BiasDetector.sorted_by_toxicity.
    apply sorted_by_toxicity_sorted_from; [|constructor|constructor].
    apply Forall_forall. intros i Hi. apply in_map_iff in Hi.
    destruct Hi as (c & <- & _). apply toxicity_ordered.
  - intros i Hi. apply (Permutation_in _ P) in Hi. apply in_map_iff in Hi.
    destruct Hi as (c & <- & _).
    cbn [BiasDetector.document_instance BiasDetector.ni_comment
         BiasDetector.ni_toxicity_score BiasDetector.ni_categories
         BiasDetector.ni_severity].
    destruct (categories_of_facts c
                (BiasDetector._calculate_toxicity_score (body c))
                (BiasDetector._assess_constructiveness (body c)))
      as (H1 & H2 & H3).
    split; [reflexivity|]. split; [reflexivity|]. split; [exact H1|].
    split; [exact H3|].
    intros Hs. apply H2, severity_high, Hs.
Qed.

(** ** Statistics of the GitLab analyser *)

Lemma count_status_filter (status : string)
  (comments : list GitLabAnalyzer.ReviewComment) :
  GitLabAnalyzer.count_status status comments
  = len (filter (fun c => String.eqb (GitLabAnalyzer.approval_status c) status)
           comments).
Proof.
  unfold GitLabAnalyzer.count_status.
  generalize (filter (fun c => String.eqb (GitLabAnalyzer.approval_status c)
                                 status) comments).
  intros l.
  assert (G : forall acc, fold_left Z.add (map (fun _ => 1) l) acc
                          = acc + len l).
  { induction l as [|x l IH]; intros acc.
    - cbn. lia.
    - cbn [map fold_left]. rewrite IH.
      change (len (x :: l)) with (Z.of_nat (S (List.length l))).
      unfold len. lia. }
  apply G.
Qed.

Lemma status_cases (s : string) :
  (String.eqb s "approved" = true /\ String.eqb s "requested_changes" = false
   /\ String.eqb s "commented" = false /\ known_status s = true)
  \/ (String.eqb s "approved" = false
      /\ String.eqb s "requested_changes" = true
      /\ String.eqb s "commented" = false /\ known_status s = true)
  \/ (String.eqb s "approved" = false
      /\ String.eqb s "requested_changes" = false
      /\ String.eqb s "commented" = true /\ known_status s = true)
  \/ (String.eqb s "approved" = false
      /\ String.eqb s "requested_changes" = false
      /\ String.eqb s "commented" = false /\ known_status s = false).
Proof.
  unfold known_status.
  destruct (String.eqb s "approved") eqn:E1.
  { apply String.eqb_eq in E1. subst s. left. repeat split. }
  destruct (String.eqb s "requested_changes") eqn:E2.
  { apply String.eqb_eq in E2. subst s. right. left. repeat split. }
  destruct (String.eqb s "commented"); [right; right; left | do 3 right];
    repeat split.
Qed.

Lemma known_status_split (comments : list GitLabAnalyzer.ReviewComment) :
  len (filter (fun c => String.eqb (GitLabAnalyzer.approval_status c)
                          "approved") comments)
  + len (filter (fun c => String.eqb (GitLabAnalyzer.approval_status c)
                            "requested_changes") comments)
  + len (filter (fun c => String.eqb (GitLabAnalyzer.approval_status c)
                            "commented") comments)
  = len (filter (fun c => known_status (GitLabAnalyzer.approval_status c))
           comments).
Proof.
  unfold len. induction comments as [|c cs IH]; [reflexivity|].
  cbn [filter].
  destruct (status_cases (GitLabAnalyzer.approval_status c))
    as [(-> & -> & -> & ->)|[(-> & -> & -> & ->)|[(-> & -> & -> & ->)
       |(-> & -> & -> & ->)]]];
    cbn [List.length]; lia.
Qed.

Lemma counted_total {A : Type} (key : A -> string) (items : list A)
  (d : dict Z) :
  sum_Z (values (counted key items d)) = sum_Z (values d) + len items.
Proof.
  revert d. induction items as [|c items IH]; intros d.
  - unfold counted. cbn [fold_left]. change (len (@nil A)) with 0. lia.
  - rewrite counted_cons, IH.
    change (len (c :: items)) with (Z.of_nat (S (List.length items))).
    assert (G : sum_Z (values (dd_update d (key c) 0 (fun n => n + 1)))
                = sum_Z (values d) + 1).
    { clear. unfold sum_Z, values.
      induction d as [|[k0 v] d IH]; cbn [dd_update].
      - reflexivity.
      - destruct (String.eqb k0 (key c)); cbn [map fold_right snd];
          [|rewrite IH]; lia. }
    rewrite G. unfold len. lia.
Qed.

Lemma average_total (scores : list float) :
  exists avg, GitLabAnalyzer.average scores = Ok avg.
Proof.
  unfold GitLabAnalyzer.average. destruct scores as [|x xs].
  - eexists. reflexivity.
  - rewrite float_truediv_int_ok by apply len_cons_pos. eexists. reflexivity.
Qed.

Lemma vader_loop_total (comments : list GitLabAnalyzer.ReviewComment)
  (ks : list string) :
  exists d, GitLabAnalyzer.vader_loop comments ks = Ok d /\ keys d = ks.
Proof.
  induction ks as [|key ks (rest & E & Hk)];
    cbn [GitLabAnalyzer.vader_loop].
  - exists []. split; reflexivity.
  - destruct (average_total
                (map (fun c => dd_get (GitLabAnalyzer.sentiment_vader c) key
                                 F.zero) comments)) as [avg ->].
    rewrite E. cbn [bind]. eexists. split; [reflexivity|].
    unfold keys in *. cbn [map fst]. rewrite Hk. reflexivity.
Qed.

Lemma reviewer_stats_shape (comments : list GitLabAnalyzer.ReviewComment) :
  exists st,
    GitLabAnalyzer._calculate_reviewer_stats comments = Ok st
    /\ GitLabAnalyzer.total_reviews st = len comments
    /\ GitLabAnalyzer.reviewer_name st
       = match comments with
         | [] => "Unknown"
         | first :: _ => GitLabAnalyzer.author first
         end
    /\ GitLabAnalyzer.approved_count st
       = GitLabAnalyzer.count_status "approved" comments
    /\ GitLabAnalyzer.requested_changes_count st
       = GitLabAnalyzer.count_status "requested_changes" comments
    /\ GitLabAnalyzer.comment_only_count st
       = GitLabAnalyzer.count_status "commented" comments
    /\ GitLabAnalyzer.reviewed_authors st
       = counted GitLabAnalyzer.mr_author comments []
    /\ GitLabAnalyzer.sentiment_by_author st
       = grouped GitLabAnalyzer.mr_author GitLabAnalyzer.sentiment_textblob
           comments [].
Proof.
  unfold GitLabAnalyzer._calculate_reviewer_stats.
  destruct comments as [|first rest].
  - eexists. split; [reflexivity|]. repeat split.
  - destruct (average_total
                (map GitLabAnalyzer.sentiment_textblob (first :: rest)))
      as [avg ->].
    destruct (vader_loop_total (first :: rest) GitLabAnalyzer.vader_keys)
      as (vd & -> & _).
    cbn [bind]. eexists. split; [reflexivity|]. repeat split.
Qed.

(** The statistics of a reviewer are computed for every comment list.  The
    total is the number of comments; the three status counts add up to the
    number of comments whose status is one of the three known values, hence
    never to more than the total; the per-author review counts add up to the
    total, and the count of an author is the number of sentiments recorded
    for that author. *)
Theorem reviewer_stats_counts (comments : list GitLabAnalyzer.ReviewComment) :
  exists st,
    GitLabAnalyzer._calculate_reviewer_stats comments = Ok st
    /\ GitLabAnalyzer.total_reviews st = len comments
    /\ GitLabAnalyzer.approved_count st
       + GitLabAnalyzer.requested_changes_count st
       + GitLabAnalyzer.comment_only_count st
       = len (filter (fun c => known_status (GitLabAnalyzer.approval_status c))
                comments)
    /\ GitLabAnalyzer.approved_count st
       + GitLabAnalyzer.requested_changes_count st
       + GitLabAnalyzer.comment_only_count st
       <= GitLabAnalyzer.total_reviews st
    /\ sum_Z (values (GitLabAnalyzer.reviewed_authors st))
       = GitLabAnalyzer.total_reviews st
    /\ forall a,
         dd_get (GitLabAnalyzer.reviewed_authors st) a 0
         = len (dd_get (GitLabAnalyzer.sentiment_by_author st) a []).
Proof.
  destruct (reviewer_stats_shape comments)
    as (st & E & Ht & _ & Ha & Hr & Hc & Hra & Hsa).
  exists st. split; [exact E|]. split; [exact Ht|].
  assert (Hsum : GitLabAnalyzer.approved_count st
                 + GitLabAnalyzer.requested_changes_count st
                 + GitLabAnalyzer.comment_only_count st
                 = len (filter (fun c => known_status
                                           (GitLabAnalyzer.approval_status c))
                          comments)).
  { rewrite Ha, Hr, Hc, !count_status_filter. apply known_status_split. }
  split; [exact Hsum|]. split; [|split].
  - rewrite Hsum, Ht. unfold len. apply inj_le, filter_length_le.
  - rewrite Hra, Ht, counted_total. reflexivity.
  - intros a. rewrite Hra, Hsa, counted_get, grouped_get.
    cbn [dd_get app]. rewrite len_map. lia.
Qed.

Lemma team_loop_shape (items : dict (list GitLabAnalyzer.ReviewComment)) :
  exists ts,
    GitLabAnalyzer.team_loop items = Ok ts
    /\ Forall2 (fun rs kv =>
                  fst rs = fst kv
                  /\ GitLabAnalyzer._calculate_reviewer_stats (snd kv)
                     = Ok (snd rs))
         ts items.
Proof.
  induction items as [|[reviewer comments] items (rest & E & IH)];
    cbn [GitLabAnalyzer.team_loop].
  - exists []. split; [reflexivity|constructor].
  - destruct (reviewer_stats_shape comments) as (st & Es & _).
    rewrite Es, E. cbn [bind]. eexists. split; [reflexivity|].
    constructor; [|exact IH]. split; [reflexivity|exact Es].
Qed.

(** The team statistics are computed for every comment list.  They hold one
    entry for each comment author; the entry of a reviewer is the statistics
    of that reviewer's comments, in order, so it carries the reviewer's own
    name and counts all of that reviewer's comments; and the totals of the
    entries add up to the number of comments. *)
Theorem team_stats_partition
  (all_comments : list GitLabAnalyzer.ReviewComment) :
  exists ts,
    GitLabAnalyzer._calculate_team_stats all_comments = Ok ts
    /\ NoDup (keys ts)
    /\ (forall r, In r (keys ts)
                  <-> exists c, In c all_comments
                                /\ GitLabAnalyzer.author c = r)
    /\ (forall r st,
          In (r, st) ts ->
          GitLabAnalyzer._calculate_reviewer_stats
            (filter (fun c => String.eqb (GitLabAnalyzer.author c) r)
               all_comments) = Ok st
          /\ GitLabAnalyzer.reviewer_name st = r
          /\ GitLabAnalyzer.total_reviews st
             = len (filter (fun c => String.eqb (GitLabAnalyzer.author c) r)
                      all_comments))
    /\ sum_Z (map (fun rs => GitLabAnalyzer.total_reviews (snd rs)) ts)
       = len all_comments.
Proof.
  set (items := grouped GitLabAnalyzer.author
                  (fun c : GitLabAnalyzer.ReviewComment => c)
                  all_comments []).
  assert (Eq : GitLabAnalyzer._calculate_team_stats all_comments
               = GitLabAnalyzer.team_loop items).
  { destruct all_comments; reflexivity. }
  rewrite Eq. clear Eq.
  destruct (team_loop_shape items) as (ts & -> & Sh).
  exists ts. split; [reflexivity|].
  assert (Hnd : NoDup (keys items)) by (apply grouped_NoDup; constructor).
  assert (Hk : keys ts = keys items).
  { clear - Sh. unfold keys.
    induction Sh as [|a b xs ys [Ek _] _ IH]; [reflexivity|].
    cbn [map]. rewrite Ek, IH. reflexivity. }
  assert (Hentry : forall r st, In (r, st) ts ->
            exists cs, In (r, cs) items
                       /\ GitLabAnalyzer._calculate_reviewer_stats cs = Ok st).
  { clear - Sh. intros r st Hin.
    induction Sh as [|a [k v] xs ys (E1 & E2) _ IH]; [contradiction|].
    destruct Hin as [Hin|Hin].
    - subst a. cbn [fst snd] in E1, E2. subst k. exists v.
      split; [left; reflexivity | exact E2].
    - destruct (IH Hin) as (cs & H1 & H2). exists cs.
      split; [right; exact H1 | exact H2]. }
  assert (Hgroup : forall r cs, In (r, cs) items ->
            cs = filter (fun c => String.eqb (GitLabAnalyzer.author c) r)
                   all_comments).
  { intros r cs Hin. rewrite <- (dd_get_unique items r cs [] Hnd Hin).
    unfold items. rewrite grouped_get. cbn [dd_get app]. apply map_id. }
  rewrite Hk. split; [exact Hnd|]. split; [|split].
  - intros r. unfold items. rewrite grouped_keys. cbn [keys map In].
    split; [intros [[]|H]; exact H | auto].
  - intros r st Hin. destruct (Hentry r st Hin) as (cs & Hcs & Est).
    pose proof (Hgroup r cs Hcs) as Ecs.
    assert (Hr : In r (keys items)) by (apply (in_map fst) in Hcs; exact Hcs).
    rewrite <- Ecs. split; [exact Est|].
    destruct (reviewer_stats_shape cs) as (st' & Est' & Ht & Hn & _).
    rewrite Est in Est'. injection Est' as <-.
    split; [|exact Ht]. rewrite Hn.
    destruct cs as [|first rest].
    + exfalso. unfold items in Hr. apply grouped_keys in Hr.
      destruct Hr as [[]|(c & Hc & Ec)].
      assert (Hc' : In c (filter (fun c => String.eqb
                                             (GitLabAnalyzer.author c) r)
                            all_comments))
        by (apply filter_In; split; [exact Hc | apply String.eqb_eq, Ec]).
      rewrite <- Ecs in Hc'. exact Hc'.
    + assert (Hf : In first (filter (fun c => String.eqb
                                                (GitLabAnalyzer.author c) r)
                               all_comments))
        by (rewrite <- Ecs; left; reflexivity).
      apply filter_In in Hf. apply String.eqb_eq, Hf.
  - assert (Ht : sum_Z (map (fun rs => GitLabAnalyzer.total_reviews (snd rs))
                          ts)
                 = total_len items).
    { clear - Sh. unfold total_len, sum_Z.
      induction Sh as [|a b xs ys (_ & E2) _ IH]; [reflexivity|].
      cbn [map fold_right].
      destruct (reviewer_stats_shape (snd b)) as (st' & Est' & Ht & _).
      rewrite E2 in Est'. injection Est' as <-. rewrite Ht, IH.
      reflexivity. }
    rewrite Ht. unfold items. rewrite grouped_total_len. reflexivity.
Qed.

(** ** The two ingestions of the approval status *)

(** The client's status is the enumeration member whose value is the
    analyser's status string, on every note body; so the constructor of the
    core comment gives the same comment from either. *)
Theorem approval_status_agreement (note_body id_ author_ body_ title_ dev_ : string)
  (at_ mr_ : Z) (sent : SentimentScore) :
  value (GitLabClient._determine_approval_status note_body)
  = _determine_approval_status note_body
  /\ ApprovalStatus_of_value (_determine_approval_status note_body)
     = Ok (GitLabClient._determine_approval_status note_body)
  /\ ReviewComment_init id_ author_ body_ at_ mr_ title_ dev_
       (inr (_determine_approval_status note_body)) sent
     = ReviewComment_init id_ author_ body_ at_ mr_ title_ dev_
         (inl (GitLabClient._determine_approval_status note_body)) sent.
Proof.
  assert (H : value (GitLabClient._determine_approval_status note_body)
              = _determine_approval_status note_body).
  { unfold GitLabClient._determine_approval_status,
      _determine_approval_status.
    change GitLabClient.approval_keywords with approval_keywords.
    change GitLabClient.changes_keywords with changes_keywords.
    destruct (any_in approval_keywords (lower note_body)); [reflexivity|].
    destruct (any_in changes_keywords (lower note_body)); reflexivity. }
  assert (G : ApprovalStatus_of_value (_determine_approval_status note_body)
              = Ok (GitLabClient._determine_approval_status note_body)).
  { rewrite <- H.
    destruct (GitLabClient._determine_approval_status note_body);
      reflexivity. }
  split; [exact H|]. split; [exact G|].
  unfold ReviewComment_init. rewrite G. reflexivity.
Qed.

(** ** Letter case *)

Lemma lower_ascii_idem (c : ascii) : lower_ascii (lower_ascii c) = lower_ascii c.
Proof. destruct c as [[] [] [] [] [] [] [] []]; reflexivity. Qed.

Lemma lower_idem (s : string) : lower (lower s) = lower s.
Proof.
  induction s as [|c s IH]; [reflexivity|].
  cbn [lower]. rewrite lower_ascii_idem, IH. reflexivity.
Qed.

(** The text functions do not see the case of ASCII letters: each gives the
    same result on a text and on the text in lower case. *)
Theorem scoring_ignores_case (text : string) :
  BiasDetector._calculate_toxicity_score (lower text)
  = BiasDetector._calculate_toxicity_score text
  /\ BiasDetector._assess_constructiveness (lower text)
     = BiasDetector._assess_constructiveness text
  /\ BiasDetector._extract_blocking_reason (lower text)
     = BiasDetector._extract_blocking_reason text
  /\ BiasDetector._assess_blocking_severity (lower text)
     = BiasDetector._assess_blocking_severity text
  /\ _determine_approval_status (lower text)
     = _determine_approval_status text
  /\ GitLabClient._determine_approval_status (lower text)
     = GitLabClient._determine_approval_status text.
Proof.
  unfold BiasDetector._calculate_toxicity_score,
    BiasDetector._assess_constructiveness,
    BiasDetector._extract_blocking_reason,
    BiasDetector._assess_blocking_severity,
    _determine_approval_status, GitLabClient._determine_approval_status.
  rewrite lower_idem. repeat split.
Qed.

(** ** Blocking patterns *)

Lemma append_length (a b : string) :
  String.length (a ++ b) = (String.length a + String.length b)%nat.
Proof. induction a as [|c a IH]; cbn; [reflexivity | rewrite IH; reflexivity]. Qed.

Lemma append_cancel_r (a b s : string) :
  (a ++ s)%string = (b ++ s)%string -> a = b.
Proof.
  revert b. induction a as [|c a IH]; intros [|d b] H.
  - reflexivity.
  - exfalso. apply (f_equal String.length) in H.
    cbn in H. rewrite append_length in H. lia.
  - exfalso. apply (f_equal String.length) in H.
    cbn in H. rewrite append_length in H. lia.
  - cbn in H. injection H as -> H. f_equal. apply IH, H.
Qed.

Lemma blocking_label_inj (r r' : string) :
  ("Consistently blocks for " ++ r ++ " issues")%string
  = ("Consistently blocks for " ++ r' ++ " issues")%string ->
  r = r'.
Proof.
  intros H. cbn [String.append] in H.
  injection H as H. apply append_cancel_r in H. exact H.
Qed.

Lemma NoDup_same {A : Type} (x : A) (l : list A) :
  NoDup l -> (forall y, In y l -> y = x) -> (List.length l <= 1)%nat.
Proof.
  intros Hnd H. destruct l as [|a [|b l]]; cbn; try lia.
  exfalso. inversion Hnd as [|? ? Hn _]; subst. apply Hn.
  rewrite (H a), (H b); [left; reflexivity | right; left; reflexivity
                         | left; reflexivity].
Qed.

Lemma count_distinct_one (xs : list string) (x : string) :
  (BiasDetector.count_distinct xs = 1 /\ hd "" xs = x)
  <-> (xs <> [] /\ forall y, In y xs -> y = x).
Proof.
  unfold BiasDetector.count_distinct, len. split.
  - intros [H Hh].
    destruct (nodup string_dec xs) as [|a [|b l]] eqn:E; cbn in H; try lia.
    assert (Hall : forall y, In y xs -> y = a).
    { intros y Hy. apply (nodup_In string_dec) in Hy. rewrite E in Hy.
      destruct Hy as [<-|[]]. reflexivity. }
    destruct xs as [|h t]; [discriminate E|].
    cbn [hd] in Hh. subst h. split; [discriminate|].
    intros y Hy. rewrite (Hall y Hy). symmetry. apply Hall. left.
    reflexivity.
  - intros [Hne Hall]. destruct xs as [|h t]; [congruence|].
    split; [|apply Hall; left; reflexivity].
    assert (Hle : (List.length (nodup string_dec (h :: t)) <= 1)%nat).
    { apply (NoDup_same x); [apply NoDup_nodup|].
      intros y Hy. apply nodup_In in Hy. apply Hall, Hy. }
    assert (Hin : In h (nodup string_dec (h :: t)))
      by (apply nodup_In; left; reflexivity).
    destruct (nodup string_dec (h :: t)); [contradiction|].
    cbn [List.length] in *. lia.
Qed.

(** The analysis of blocking behaviour returns for every list, with the
    number of blocking comments as frequency and at most three patterns.
    The pattern 'Consistently blocks for R issues' is reported exactly when
    there are at least three blocking comments and all of them have the
    reason R. *)
Theorem blocking_patterns_consistent
  (blocking_behaviors : list BiasDetector.blocking_behavior) (r : string) :
  exists ba,
    BiasDetector._analyze_blocking_patterns blocking_behaviors = Ok ba
    /\ BiasDetector.frequency ba = len blocking_behaviors
    /\ len (BiasDetector.patterns ba) <= 3
    /\ (In ("Consistently blocks for " ++ r ++ " issues")%string
          (BiasDetector.patterns ba)
        <-> 3 <= len blocking_behaviors
            /\ forall b, In b blocking_behaviors -> BiasDetector.reason b = r).
Proof.
  unfold BiasDetector._analyze_blocking_patterns.
  destruct blocking_behaviors as [|b0 bs].
  { eexists. split; [reflexivity|]. cbn [BiasDetector.frequency
      BiasDetector.patterns]. split; [reflexivity|]. split; [cbn; lia|].
    split; [intros []|]. intros [H _]. cbn in H. lia. }
  set (l := b0 :: bs).
  assert (Hl : len l <> 0) by apply len_cons_pos.
  rewrite int_truediv_ok by (rewrite len_map; exact Hl).
  cbn [bind]. eexists. split; [reflexivity|].
  cbn [BiasDetector.frequency BiasDetector.patterns].
  split; [reflexivity|].
  assert (Hc : ((BiasDetector.count_distinct (map BiasDetector.reason l) =? 1)
                && (len (map BiasDetector.reason l) >? 2) = true
                /\ hd "" (map BiasDetector.reason l) = r)
               <-> (3 <= len l
                    /\ forall b, In b l -> BiasDetector.reason b = r)).
  { rewrite andb_true_iff, Z.eqb_eq, len_map. split.
    - intros [[H1 H2] H3].
      destruct (proj1 (count_distinct_one _ r) (conj H1 H3)) as [_ Hall].
      split; [lia|]. intros b Hb. apply Hall, in_map, Hb.
    - intros [H3 Hall].
      destruct (proj2 (count_distinct_one (map BiasDetector.reason l) r))
        as [H1 Hh].
      { split; [discriminate|]. intros y Hy. apply in_map_iff in Hy.
        destruct Hy as (b & <- & Hb). apply Hall, Hb. }
      repeat split; [exact H1 | lia | exact Hh]. }
  rewrite <- Hc. clear Hc.
  destruct ((BiasDetector.count_distinct (map BiasDetector.reason l) =? 1)
            && (len (map BiasDetector.reason l) >? 2));
    destruct (F.gtb _ (F.mul _ f_0_6));
    destruct (F.ltb _ f_40);
    cbn [app In len List.length];
    (split; [unfold len; cbn [List.length]; lia|]);
    (split;
     [ intros H;
       repeat match goal with
              | H : _ \/ _ |- _ => destruct H
              | H : False |- _ => contradiction
              end;
       try (cbn [String.append] in *; discriminate);
       try (split; [reflexivity | eapply blocking_label_inj; eassumption])
     | intros [H1 H2]; try discriminate H1; left; rewrite H2; reflexivity ]).
Qed.

(** ** The summary fields of the per-developer analysis *)

Lemma count_true_le (bs : list bool) : count_true bs <= len bs.
Proof. unfold count_true, len. apply inj_le, filter_length_le. Qed.

(** The analysis of a developer has no reviewer statistics only when it is
    given no comment.  The number of negative reviews it reports is the
    number of comments whose sentiment is below the threshold, and is at
    most the total; there are at most four bias indicators, and the bias
    risk is high exactly when there are at least three and low exactly when
    there is at most one. *)
Theorem developer_summary (developer : string)
  (comments : list ReviewComment) :
  exists dt,
    BiasDetector._analyze_individual_developer_treatment developer comments
    = Ok dt
    /\ (BiasDetector.reviewer_stats dt = [] <-> comments = [])
    /\ BiasDetector.total_negative_reviews dt
       = len (filter (fun c => F.ltb (textblob_score (sentiment c))
                                 BiasDetector.negative_sentiment_threshold)
                comments)
    /\ BiasDetector.total_negative_reviews dt <= BiasDetector.total_reviews dt
    /\ len (BiasDetector.bias_indicators dt) <= 4
    /\ (BiasDetector.bias_risk dt = HIGH
        <-> 3 <= len (BiasDetector.bias_indicators dt))
    /\ (BiasDetector.bias_risk dt = LOW
        <-> len (BiasDetector.bias_indicators dt) <= 1).
Proof.
  pose proof (analyze_individual_total developer comments) as [dt E].
  exists dt. split; [exact E|].
  unfold BiasDetector._analyze_individual_developer_treatment in E.
  destruct (BiasDetector.stats_loop _ comments _) as [sts|] eqn:Es;
    cbn [bind] in E; [|discriminate].
  apply stats_loop_shape in Es.
  unfold BiasDetector.group_by_reviewer in Es.
  rewrite reviewer_sentiments_grouped in Es.
  cbn [BiasDetector.reviewer_sentiments] in Es.
  assert (Hempty : sts = [] <-> comments = []).
  { split.
    - intros ->. apply Forall2_length in Es.
      destruct comments as [|c cs]; [reflexivity|]. exfalso.
      assert (Hk : In (author c)
                     (keys (grouped author
                              (fun c => textblob_score (sentiment c))
                              (c :: cs) [])))
        by (apply grouped_keys; right; exists c; split;
            [left|]; reflexivity).
      destruct (grouped author (fun c => textblob_score (sentiment c))
                  (c :: cs) []); [exact Hk | discriminate Es].
    - intros ->. apply Forall2_length in Es.
      destruct sts; [reflexivity | discriminate Es]. }
  destruct (match map (fun c => textblob_score (sentiment c)) comments with
            | [] => Ok F.zero
            | _ :: _ => _
            end) as [o|]; cbn [bind] in E; [|discriminate].
  destruct sts as [|first others]; injection E as <-;
    cbn [BiasDetector.reviewer_stats BiasDetector.total_negative_reviews
         BiasDetector.total_reviews BiasDetector.bias_indicators
         BiasDetector.bias_risk].
  - split; [exact Hempty|].
    rewrite (proj1 Hempty eq_refl). cbn [filter].
    repeat split; try discriminate; try reflexivity; cbn; lia.
  - split; [exact Hempty|]. split; [reflexivity|].
    split; [unfold len; apply inj_le, filter_length_le|].
    match goal with
    | |- context [BiasDetector.bias_indicators_of ?a ?b ?c] =>
        pose proof (bias_indicators_count a b c) as Hn;
        set (ind := BiasDetector.bias_indicators_of a b c) in *
    end.
    assert (H4 : len ind <= 4).
    { rewrite Hn. etransitivity; [apply count_true_le|]. cbn. lia. }
    assert (H0 : 0 <= len ind) by (unfold len; lia).
    split; [exact H4|]. unfold BiasDetector.bias_risk_of.
    destruct (len ind >=? 3) eqn:E3; [|destruct (len ind >=? 2) eqn:E2];
      split; split; intros H; try reflexivity; try discriminate H; lia.
Qed.
